(** * PDFEditor: the document store, the toolbar controller and the export
    engine, embedded from the TypeScript sources.

    - [Types]: src/types.ts (TextBox, PageState, SelectionState, HistoryState,
      UndoRedoState, DocumentState, EditorPreferences).
    - [DocumentStore]: state/useDocumentStore.ts (the zustand store; every
      action is a function from the store state to the store state, [set]
      merging the given slice into the state).
    - [EditorStore]: state/useEditorStore.ts.
    - [Toolbar]: components/Toolbar/Toolbar.tsx (handleExport, updateFontSize).
    - [PDFPage]: components/Viewer/PDFPage.tsx (handlePageClick).
    - [Exporter]: utils/pdfExporter.ts (hexToRgb, wrapText, drawTextBox).

    JavaScript numbers are doubles; every finite double is a rational, and
    the numbers are modelled as rationals ([Q]), without NaN and infinities.
    Comparisons, [Math.max] and [Math.min] of doubles are exact. A sum,
    difference, product or quotient of doubles is the exact result rounded
    to a double: the export engine, [isPointInRect] and the overlay's mouse
    handlers take that rounding as a parameter, [round], and what is proved
    of them holds for every rounding; [Samples.binary64] is the rounding of
    the machine and [Samples.exact] no rounding. A quotient by 0, which is
    no finite number, is given as [None]. The helpers [screenToPDF] and
    [pdfToScreen] and the page's click handler are given without rounding.
    Page indices, which the code only ever uses as array indices, are
    modelled as [Z]; strings as [string]; arrays as [list]. *)

From Stdlib Require Import ZArith QArith Qminmax Lia Lqa Ascii.
From stdpp Require Import base list strings.

Close Scope Q_scope.

(* ===================================================================== *)
(** ** src/types.ts *)
(* ===================================================================== *)

Module Types.

Inductive TextBoxMode := overlay | replace.
Inductive FontFamily := Helvetica | TimesRoman | Courier | Inter.
Inductive FontWeight := normal | bold.
Inductive TextAlign := left | center | right.

Record TextBox := mkTextBox {
  id : string;
  pageIndex : Z;
  x : Q;
  y : Q;
  width : Q;
  height : Q;
  text : string;
  fontFamily : FontFamily;
  fontSize : Q;
  color : string;
  fontWeight : option FontWeight;
  textAlign : option TextAlign;
  backgroundColor : option string;
  mode : TextBoxMode
}.

(** [Partial<TextBox>]: every key may be missing; the keys that are
    optional in [TextBox] may also be present and undefined. *)
Record PartialTextBox := mkPartial {
  u_id : option string;
  u_pageIndex : option Z;
  u_x : option Q;
  u_y : option Q;
  u_width : option Q;
  u_height : option Q;
  u_text : option string;
  u_fontFamily : option FontFamily;
  u_fontSize : option Q;
  u_color : option string;
  u_fontWeight : option (option FontWeight);
  u_textAlign : option (option TextAlign);
  u_backgroundColor : option (option string);
  u_mode : option TextBoxMode
}.

(** The object spread [{ ...box, ...updates }]. *)
Definition spread (box : TextBox) (updates : PartialTextBox) : TextBox :=
  {| id := default (id box) (u_id updates);
     pageIndex := default (pageIndex box) (u_pageIndex updates);
     x := default (x box) (u_x updates);
     y := default (y box) (u_y updates);
     width := default (width box) (u_width updates);
     height := default (height box) (u_height updates);
     text := default (text box) (u_text updates);
     fontFamily := default (fontFamily box) (u_fontFamily updates);
     fontSize := default (fontSize box) (u_fontSize updates);
     color := default (color box) (u_color updates);
     fontWeight := default (fontWeight box) (u_fontWeight updates);
     textAlign := default (textAlign box) (u_textAlign updates);
     backgroundColor := default (backgroundColor box) (u_backgroundColor updates);
     mode := default (mode box) (u_mode updates) |}.

Record PageState := mkPage {
  index : Z;
  pwidth : Q;
  pheight : Q;
  textBoxes : list TextBox
}.

Record SelectionState := mkSelection {
  selectedBoxId : option string;
  isEditing : bool
}.

Record HistoryState := mkHistoryState { hpages : list PageState }.

Record UndoRedoState := mkUndoRedo {
  past : list HistoryState;
  future : list HistoryState;
  canUndo : bool;
  canRedo : bool
}.

Record DocumentState := mkDocument {
  fileName : option string;
  pdfData : option (list Byte.byte);
  numPages : Z;
  pages : list PageState;
  zoom : Q;
  panOffset : Q * Q;
  selection : SelectionState;
  history : UndoRedoState;
  isLoaded : bool
}.

Inductive Tool := select | textTool.

Record EditorPreferences := mkPrefs {
  activeTool : Tool;
  defaultFontFamily : FontFamily;
  defaultFontSize : Q;
  defaultColor : string;
  showGrid : bool;
  enableSnapping : bool
}.

(** A JavaScript string is falsy exactly when it is empty. *)
Definition truthy (s : string) : bool :=
  match s with EmptyString => false | String _ _ => true end.

End Types.
Import Types.

(* ===================================================================== *)
(** ** state/useDocumentStore.ts *)
(* ===================================================================== *)

Module DocumentStore.

Definition noSelection : SelectionState :=
  {| selectedBoxId := None; isEditing := false |}.

Definition emptyHistory : UndoRedoState :=
  {| past := []; future := []; canUndo := false; canRedo := false |}.

Definition initialState : DocumentState :=
  {| fileName := None; pdfData := None; numPages := 0; pages := [];
     zoom := 1%Q; panOffset := (0%Q, 0%Q);
     selection := noSelection; history := emptyHistory;
     isLoaded := false |}.

(** [set({ pages })], [set({ selection })], [set({ history })]: zustand
    merges the slice into the current state. *)
Definition set_pages (ps : list PageState) (s : DocumentState) : DocumentState :=
  {| fileName := fileName s; pdfData := pdfData s; numPages := numPages s;
     pages := ps; zoom := zoom s; panOffset := panOffset s;
     selection := selection s; history := history s; isLoaded := isLoaded s |}.

Definition set_selection (sel : SelectionState) (s : DocumentState) : DocumentState :=
  {| fileName := fileName s; pdfData := pdfData s; numPages := numPages s;
     pages := pages s; zoom := zoom s; panOffset := panOffset s;
     selection := sel; history := history s; isLoaded := isLoaded s |}.

Definition set_history (h : UndoRedoState) (s : DocumentState) : DocumentState :=
  {| fileName := fileName s; pdfData := pdfData s; numPages := numPages s;
     pages := pages s; zoom := zoom s; panOffset := panOffset s;
     selection := selection s; history := h; isLoaded := isLoaded s |}.

Definition set_textBoxes (page : PageState) (bs : list TextBox) : PageState :=
  {| index := index page; pwidth := pwidth page; pheight := pheight page;
     textBoxes := bs |}.

Definition loadPDF (name : string) (data : list Byte.byte) (n : Z)
    (ps : list PageState) (s : DocumentState) : DocumentState :=
  {| fileName := Some name; pdfData := Some data; numPages := n; pages := ps;
     isLoaded := true; zoom := 1%Q; panOffset := (0%Q, 0%Q);
     selection := noSelection; history := emptyHistory |}.

Definition clearDocument (s : DocumentState) : DocumentState := initialState.

Definition setZoom (z : Q) (s : DocumentState) : DocumentState :=
  {| fileName := fileName s; pdfData := pdfData s; numPages := numPages s;
     pages := pages s; zoom := Qmax (1 # 4) (Qmin 4 z); panOffset := panOffset s;
     selection := selection s; history := history s; isLoaded := isLoaded s |}.

Definition addTextBox (textBox : TextBox) (s : DocumentState) : DocumentState :=
  let ps := pages s in
  let i := pageIndex textBox in
  if bool_decide (0 <= i)%Z && bool_decide (i < Z.of_nat (length ps))%Z then
    match ps !! Z.to_nat i with
    | Some page =>
        set_pages
          (<[Z.to_nat i := set_textBoxes page (textBoxes page ++ [textBox])]> ps) s
    | None => s
    end
  else s.

Definition updateTextBox (i : string) (updates : PartialTextBox)
    (s : DocumentState) : DocumentState :=
  set_pages
    ((fun page =>
        set_textBoxes page
          ((fun box => if decide (id box = i) then spread box updates else box)
             <$> textBoxes page))
       <$> pages s) s.

Definition deleteTextBox (i : string) (s : DocumentState) : DocumentState :=
  set_selection noSelection
    (set_pages
       ((fun page =>
           set_textBoxes page (filter (fun box => id box <> i) (textBoxes page)))
          <$> pages s) s).

Definition selectTextBox (i : option string) (s : DocumentState) : DocumentState :=
  set_selection {| selectedBoxId := i; isEditing := false |} s.

Definition enterEditMode (s : DocumentState) : DocumentState :=
  match selectedBoxId (selection s) with
  | Some i =>
      if truthy i then
        set_selection
          {| selectedBoxId := selectedBoxId (selection s); isEditing := true |} s
      else s
  | None => s
  end.

Definition exitEditMode (s : DocumentState) : DocumentState :=
  set_selection
    {| selectedBoxId := selectedBoxId (selection s); isEditing := false |} s.

Definition saveHistory (s : DocumentState) : DocumentState :=
  let historyState := {| hpages := pages s |} in
  set_history
    {| past := past (history s) ++ [historyState]; future := [];
       canUndo := true; canRedo := false |} s.

Definition undo (s : DocumentState) : DocumentState :=
  match last (past (history s)) with
  | None => s
  | Some previous =>
      let newPast := take (length (past (history s)) - 1) (past (history s)) in
      let currentState := {| hpages := pages s |} in
      set_selection noSelection
        (set_history
           {| past := newPast;
              future := currentState :: future (history s);
              canUndo := bool_decide (0 < length newPast);
              canRedo := true |}
           (set_pages (hpages previous) s))
  end.

Definition redo (s : DocumentState) : DocumentState :=
  match future (history s) with
  | [] => s
  | next :: newFuture =>
      let currentState := {| hpages := pages s |} in
      set_selection noSelection
        (set_history
           {| past := past (history s) ++ [currentState];
              future := newFuture;
              canUndo := true;
              canRedo := bool_decide (0 < length newFuture) |}
           (set_pages (hpages next) s))
  end.

Definition getTextBoxesForPage (i : Z) (s : DocumentState) : list TextBox :=
  if bool_decide (0 <= i)%Z && bool_decide (i < Z.of_nat (length (pages s)))%Z then
    match pages s !! Z.to_nat i with
    | Some page => textBoxes page
    | None => []
    end
  else [].

(** The three mutating store actions of the undo/redo law. *)
Inductive Mutation :=
| MAdd (textBox : TextBox)
| MUpdate (i : string) (updates : PartialTextBox)
| MDelete (i : string).

Definition mutate (m : Mutation) (s : DocumentState) : DocumentState :=
  match m with
  | MAdd textBox => addTextBox textBox s
  | MUpdate i updates => updateTextBox i updates s
  | MDelete i => deleteTextBox i s
  end.

(** A sequence of user edits, each one preceded by one [saveHistory]. *)
Definition edit (s : DocumentState) (m : Mutation) : DocumentState :=
  mutate m (saveHistory s).

Definition edits (ms : list Mutation) (s : DocumentState) : DocumentState :=
  foldl edit s ms.

(** Some box on some page has the given id. *)
Definition hasBox (i : string) (ps : list PageState) : Prop :=
  exists page box, page ∈ ps /\ box ∈ textBoxes page /\ id box = i.

End DocumentStore.
Import DocumentStore.

(* ===================================================================== *)
(** ** state/useEditorStore.ts *)
(* ===================================================================== *)

Module EditorStore.

Definition initialPreferences : EditorPreferences :=
  {| activeTool := select; defaultFontFamily := Helvetica;
     defaultFontSize := 12%Q; defaultColor := "#000000";
     showGrid := false; enableSnapping := true |}.

Definition setActiveTool (tool : Tool) (p : EditorPreferences) : EditorPreferences :=
  {| activeTool := tool; defaultFontFamily := defaultFontFamily p;
     defaultFontSize := defaultFontSize p; defaultColor := defaultColor p;
     showGrid := showGrid p; enableSnapping := enableSnapping p |}.

Definition setDefaultFontSize (size : Q) (p : EditorPreferences) : EditorPreferences :=
  {| activeTool := activeTool p; defaultFontFamily := defaultFontFamily p;
     defaultFontSize := Qmax 1 (Qmin 200 size); defaultColor := defaultColor p;
     showGrid := showGrid p; enableSnapping := enableSnapping p |}.

End EditorStore.
Import EditorStore.

(* ===================================================================== *)
(** ** The JavaScript string primitives the sources rely on *)
(* ===================================================================== *)

Module JS.

Definition space : ascii := " "%char.

(** [text.split(' ')]: the pieces between single spaces, empty pieces
    included; the empty string splits into one empty piece. *)
Fixpoint split (s : string) : list string :=
  match s with
  | EmptyString => [EmptyString]
  | String c rest =>
      if decide (c = space) then EmptyString :: split rest
      else match split rest with
           | w :: ws => String c w :: ws
           | [] => [String c EmptyString]
           end
  end.

Fixpoint drop_chars (n : nat) (s : string) : string :=
  match n, s with
  | O, _ => s
  | S n', String _ rest => drop_chars n' rest
  | S _, EmptyString => EmptyString
  end.

(** [s.replace(pattern, replacement)] with a string pattern: only the first
    occurrence, scanning from the left, is replaced. *)
Fixpoint replace (pattern replacement s : string) : string :=
  if String.prefix pattern s then
    replacement +:+ drop_chars (String.length pattern) s
  else match s with
       | EmptyString => EmptyString
       | String c rest => String c (replace pattern replacement rest)
       end.

(** One character of the class [[a-f\d]] under the [i] flag, with its
    value in base 16. *)
Definition hexDigit (c : ascii) : option Z :=
  let n := Z.of_N (N_of_ascii c) in
  if bool_decide (48 <= n <= 57)%Z then Some (n - 48)%Z
  else if bool_decide (97 <= n <= 102)%Z then Some (n - 87)%Z
  else if bool_decide (65 <= n <= 70)%Z then Some (n - 55)%Z
  else None.

(** [parseInt(pair, 16)] on a pair of hexadecimal digits. *)
Definition parseHexPair (hi lo : ascii) : option Z :=
  match hexDigit hi, hexDigit lo with
  | Some h, Some l => Some (16 * h + l)%Z
  | _, _ => None
  end.

End JS.

(* ===================================================================== *)
(** ** utils/pdfExporter.ts *)
(* ===================================================================== *)

Module Exporter.

Inductive StandardFonts := SF_Helvetica | SF_TimesRoman | SF_Courier.

Record RGB := mkRGB { r : Q; g : Q; b : Q }.

(** What the export writes on a page: the calls to [page.drawRectangle]
    and [page.drawText], in the order they are made. *)
Inductive DrawOp :=
| DrawRectangle (rx ry rwidth rheight : Q) (rcolor : RGB)
| DrawText (line : string) (tx ty size : Q) (font : StandardFonts) (tcolor : RGB).

Definition isRectangle (op : DrawOp) : bool :=
  match op with DrawRectangle _ _ _ _ _ => true | DrawText _ _ _ _ _ _ => false end.

Definition isText (op : DrawOp) : bool := negb (isRectangle op).

Definition getFontForFamily (f : FontFamily) : StandardFonts :=
  match f with
  | Helvetica => SF_Helvetica
  | TimesRoman => SF_TimesRoman
  | Courier => SF_Courier
  | Inter => SF_Helvetica
  end.

(** [parseInt(pair, 16) / 255]: the quotient is a double, [round] being
    the rounding of binary64 division. *)
Definition channel (round : Q -> Q) (v : Z) : Q := round (inject_Z v / 255)%Q.

(** The expression [/^#?([a-f\d]{2})([a-f\d]{2})([a-f\d]{2})$/i]: an
    optional [#], then exactly six hexadecimal digits. *)
Definition hexToRgb (round : Q -> Q) (hex : string) : RGB :=
  let digits :=
    match hex with
    | String c rest => if decide (c = "#"%char) then rest else hex
    | EmptyString => hex
    end in
  match digits with
  | String r1 (String r2 (String g1 (String g2 (String b1 (String b2 EmptyString))))) =>
      match JS.parseHexPair r1 r2, JS.parseHexPair g1 g2, JS.parseHexPair b1 b2 with
      | Some rv, Some gv, Some bv =>
          {| r := channel round rv; g := channel round gv; b := channel round bv |}
      | _, _, _ => {| r := 0%Q; g := 0%Q; b := 0%Q |}
      end
  | _ => {| r := 0%Q; g := 0%Q; b := 0%Q |}
  end.

(** One turn of the [for (const word of words)] loop of [wrapText]; the
    loop state is [(lines, currentLine)]. *)
Definition wrapStep (measure : string -> Q -> Q) (maxWidth fontSize : Q)
    (st : list string * string) (word : string) : list string * string :=
  let '(lines, currentLine) := st in
  let testLine :=
    if truthy currentLine then currentLine +:+ " " +:+ word else word in
  let width := measure testLine fontSize in
  if Qlt_le_dec maxWidth width then
    if truthy currentLine then (lines ++ [currentLine], word)
    else (lines, testLine)
  else (lines, testLine).

(** The end of [wrapText]: [if (currentLine) lines.push(currentLine)]. *)
Definition finish (st : list string * string) : list string :=
  let '(lines, currentLine) := st in
  if truthy currentLine then lines ++ [currentLine] else lines.

Definition wrapText (text : string) (maxWidth : Q)
    (measure : string -> Q -> Q) (fontSize : Q) : list string :=
  let words := JS.split text in
  finish (foldl (wrapStep measure maxWidth fontSize) ([], EmptyString) words).

Section WithFonts.

(** Binary64 arithmetic. The numbers of the program are doubles, each of
    them a rational; a sum, difference, product or quotient of two doubles
    is the exact result rounded to a double, and a decimal literal is the
    double nearest to it. [round] is that rounding. Comparisons,
    [Math.max] and [Math.min] are exact. *)
Variable round : Q -> Q.

(** [font.widthOfTextAtSize] of the font embedded for a standard font
    identifier: the measurement of the PDF library. *)
Variable widthOfTextAtSize : StandardFonts -> string -> Q -> Q.

(** The left edge of a line: [let x = textBox.x + 2], replaced for the
    alignments [center] and [right]. *)
Definition lineX (textBox : TextBox) (font : StandardFonts) (line : string) : Q :=
  let x0 := round (x textBox + 2) in
  match textAlign textBox with
  | Some center =>
      let textWidth := widthOfTextAtSize font line (fontSize textBox) in
      round (x textBox + round (round (width textBox - textWidth) / 2))
  | Some right =>
      let textWidth := widthOfTextAtSize font line (fontSize textBox) in
      round (round (round (x textBox + width textBox) - textWidth) - 2)
  | _ => x0
  end.

(** The [for (const line of lines)] loop of [drawTextBox], with its
    [break]. *)
Fixpoint drawLines (textBox : TextBox) (font : StandardFonts) (textColor : RGB)
    (pdfY lineHeight : Q) (lines : list string) (currentY : Q) : list DrawOp :=
  match lines with
  | [] => []
  | line :: rest =>
      if Qlt_le_dec currentY pdfY then []
      else
        DrawText line (lineX textBox font line) currentY (fontSize textBox) font
          textColor
          :: drawLines textBox font textColor pdfY lineHeight rest
               (round (currentY - lineHeight))
  end.

(** [textBox.backgroundColor || '#FFFFFF'] *)
Definition backgroundOrWhite (textBox : TextBox) : string :=
  match backgroundColor textBox with
  | Some c => if truthy c then c else "#FFFFFF"
  | None => "#FFFFFF"
  end.

Definition drawTextBox (textBox : TextBox) (pageHeight : Q) : list DrawOp :=
  let fontType := getFontForFamily (fontFamily textBox) in
  let pdfY := round (round (pageHeight - y textBox) - height textBox) in
  let background :=
    match mode textBox with
    | replace =>
        [DrawRectangle (x textBox) pdfY (width textBox) (height textBox)
           (hexToRgb round (backgroundOrWhite textBox))]
    | overlay => []
    end in
  let lines :=
    wrapText (text textBox) (round (width textBox - 4))
      (widthOfTextAtSize fontType) (fontSize textBox) in
  let textColor := hexToRgb round (color textBox) in
  let lineHeight := round (fontSize textBox * round (12 # 10)) in
  let currentY := round (round (round (pdfY + height textBox) - fontSize textBox) - 2) in
  background
    ++ drawLines textBox fontType textColor pdfY lineHeight lines currentY.

(** [page.getSize().height] of the copy of original page [i]. *)
Variable copiedPageHeight : nat -> Q.

(** The draw calls of [exportPDF], page by page, when the PDF library
    loads, copies, embeds, measures, draws and saves without throwing. *)
Definition exportPDF (ps : list PageState) : list (list DrawOp) :=
  imap (fun i pageState =>
          textBoxes pageState ≫= (fun textBox => drawTextBox textBox (copiedPageHeight i)))
       ps.

End WithFonts.

End Exporter.

(* ===================================================================== *)
(** ** components/Toolbar/Toolbar.tsx *)
(* ===================================================================== *)

Module Toolbar.

(** The box the toolbar acts on. *)
Definition selectedBox (doc : DocumentState) : option TextBox :=
  match selectedBoxId (selection doc) with
  | Some i =>
      if truthy i then
        List.find (fun box => bool_decide (id box = i)) (pages doc ≫= textBoxes)
      else None
  | None => None
  end.

(** The name [handleExport] passes to [downloadBlob]. *)
Definition exportFileName (name : option string) : string :=
  match name with
  | Some n => if truthy n then JS.replace ".pdf" "_edited.pdf" n else "edited.pdf"
  | None => "edited.pdf"
  end.

(** [handleExport]: what is handed to [downloadBlob], if anything.
    [libraryThrows] says whether [await exportPDF(pdfData, pages)] rejects
    (the PDF library failing to load, copy, embed, measure, draw or save);
    the [catch] block then alerts and nothing is downloaded. *)
Definition handleExport (round : Q -> Q)
    (widthOfTextAtSize : Exporter.StandardFonts -> string -> Q -> Q)
    (copiedPageHeight : nat -> Q) (libraryThrows : bool) (doc : DocumentState)
    : option (list (list Exporter.DrawOp) * string) :=
  match pdfData doc with
  | None => None
  | Some _ =>
      if libraryThrows then None
      else
        Some (Exporter.exportPDF round widthOfTextAtSize copiedPageHeight (pages doc),
              exportFileName (fileName doc))
  end.

Definition fontSizeUpdate (size : Q) : PartialTextBox :=
  mkPartial None None None None None None None None (Some size) None None None None None.

Definition updateFontSize (size : Q) (st : DocumentState * EditorPreferences)
    : DocumentState * EditorPreferences :=
  let '(doc, prefs) := st in
  let doc' :=
    match selectedBox doc with
    | Some box => updateTextBox (id box) (fontSizeUpdate size) (saveHistory doc)
    | None => doc
    end in
  (doc', setDefaultFontSize size prefs).

End Toolbar.

(* ===================================================================== *)
(** ** components/Viewer/PDFPage.tsx *)
(* ===================================================================== *)

Module PDFPage.

(** [handlePageClick]: [newId] is the value [generateId()] returns and
    [(clickX, clickY)] the click position relative to the page container. *)
Definition handlePageClick (newId : string) (pageIdx : nat) (clickX clickY : Q)
    (st : DocumentState * EditorPreferences) : DocumentState * EditorPreferences :=
  let '(doc, prefs) := st in
  match activeTool prefs, pages doc !! pageIdx with
  | textTool, Some _ =>
      let px := (clickX / zoom doc)%Q in
      let py := (clickY / zoom doc)%Q in
      let newTextBox :=
        {| id := newId; pageIndex := Z.of_nat pageIdx;
           x := Qmax 0 px; y := Qmax 0 py;
           width := 200%Q; height := 50%Q; text := "New Text";
           fontFamily := defaultFontFamily prefs;
           fontSize := defaultFontSize prefs;
           color := defaultColor prefs;
           fontWeight := Some normal; textAlign := Some left;
           backgroundColor := None; mode := overlay |} in
      (enterEditMode
         (selectTextBox (Some newId)
            (addTextBox newTextBox (saveHistory doc))),
       prefs)
  | _, _ => st
  end.

End PDFPage.

(* ===================================================================== *)
(** ** Statements of the specification, and sample inputs *)
(* ===================================================================== *)

Module Spec.

(** Font sizes the data model allows: the closed range from 1 to 200. *)
Definition fontSizeInRange (size : Q) : Prop := (1 <= size)%Q /\ (size <= 200)%Q.

Definition boxesInRange (doc : DocumentState) : Prop :=
  forall page box, page ∈ pages doc -> box ∈ textBoxes page ->
    fontSizeInRange (fontSize box).

(** The download name as the specification words it: the original name
    without its trailing [.pdf], followed by [_edited.pdf]. *)
Definition withoutPdfSuffix (name : string) : string :=
  let k := (String.length name - 4)%nat in
  if decide (JS.drop_chars k name = ".pdf") then String.substring 0 k name
  else name.

Definition editedName (name : option string) : string :=
  match name with
  | Some n => if truthy n then withoutPdfSuffix n +:+ "_edited.pdf" else "edited.pdf"
  | None => "edited.pdf"
  end.

(** Whether a character occurs in a text. *)
Fixpoint hasChar (ch : ascii) (s : string) : bool :=
  match s with
  | EmptyString => false
  | String c rest => if decide (c = ch) then true else hasChar ch rest
  end.

(** Greedy word wrap as the specification words it: the current line
    takes the next word while the two, joined by a space, measure at most
    [maxWidth]; otherwise the current line is flushed and the word starts
    the next line. *)
Fixpoint greedyLines (measure : string -> Q -> Q) (maxWidth fontSize : Q)
    (currentLine : string) (words : list string) : list string :=
  match words with
  | [] => if truthy currentLine then [currentLine] else []
  | word :: rest =>
      if truthy currentLine then
        if Qle_bool (measure (currentLine +:+ " " +:+ word) fontSize) maxWidth
        then greedyLines measure maxWidth fontSize (currentLine +:+ " " +:+ word) rest
        else currentLine :: greedyLines measure maxWidth fontSize word rest
      else greedyLines measure maxWidth fontSize word rest
  end.

Definition nonEmpty (s : string) : Prop := s <> EmptyString.

(** A word: a text without a space in it. *)
Definition noSpace (w : string) : Prop :=
  forall a c : string, w <> a +:+ String JS.space c.

Global Instance nonEmpty_dec s : Decision (nonEmpty s).
Proof. unfold nonEmpty. apply _. Defined.

(** A font measures monotonically when joining two texts with a space
    never gives less than either text alone. *)
Definition monotoneFont (measure : string -> Q -> Q) (fontSize : Q) : Prop :=
  forall a c : string,
    (measure a fontSize <= measure (a +:+ " " +:+ c) fontSize)%Q /\
    (measure c fontSize <= measure (a +:+ " " +:+ c) fontSize)%Q.

(** The first baseline and the pitch of the text lines of a box. *)
Definition firstBaseline (pageHeight : Q) (box : TextBox) : Q :=
  (pageHeight - y box - height box + height box - fontSize box - 2)%Q.

(** [k] steps of [pitch] below [top]. *)
Definition descend (top pitch : Q) (k : nat) : Q :=
  (top - inject_Z (Z.of_nat k) * pitch)%Q.

(** The baseline of line [k] (from 0): [k] pitches of [fontSize * 1.2]
    below the first baseline. *)
Definition baseline (pageHeight : Q) (box : TextBox) (k : nat) : Q :=
  descend (firstBaseline pageHeight box) (fontSize box * (12 # 10))%Q k.

Definition bottomEdge (pageHeight : Q) (box : TextBox) : Q :=
  (pageHeight - y box - height box)%Q.

(** The same quantities as the program computes them, every operation
    rounded by [round]: the bottom edge [pageHeight - y - height], the
    first baseline [pageHeight - y - height + height - fontSize - 2], the
    pitch [fontSize * 1.2], and the baseline of line [k], each one pitch
    below the one before. *)
Definition bottomEdgeM (round : Q -> Q) (pageHeight : Q) (box : TextBox) : Q :=
  round (round (pageHeight - y box)%Q - height box)%Q.

Definition firstBaselineM (round : Q -> Q) (pageHeight : Q) (box : TextBox) : Q :=
  round (round (round (round (round (pageHeight - y box)%Q - height box)%Q
                       + height box)%Q - fontSize box)%Q - 2)%Q.

Definition pitchM (round : Q -> Q) (box : TextBox) : Q :=
  round (fontSize box * round (12 # 10)%Q)%Q.

Fixpoint descendM (round : Q -> Q) (top pitch : Q) (k : nat) : Q :=
  match k with
  | O => top
  | S k' => round (descendM round top pitch k' - pitch)%Q
  end.

Definition baselineM (round : Q -> Q) (pageHeight : Q) (box : TextBox) (k : nat) : Q :=
  descendM round (firstBaselineM round pageHeight box) (pitchM round box) k.

(** The place of a character in a text, counted from [n]. *)
Fixpoint placeIn (c : ascii) (digits : string) (n : Z) : option Z :=
  match digits with
  | EmptyString => None
  | String d rest => if decide (c = d) then Some n else placeIn c rest (n + 1)%Z
  end.

(** The value of a hexadecimal digit: its place among the sixteen digits,
    written in small or in capital letters. *)
Definition hexValue (c : ascii) : option Z :=
  match placeIn c "0123456789abcdef" 0 with
  | Some v => Some v
  | None => placeIn c "0123456789ABCDEF" 0
  end.

(** [body] is six hexadecimal digits, read two by two as the numbers
    [rv], [gv] and [bv] (each from 0 to 255). *)
Definition sixHex (body : string) (rv gv bv : Z) : Prop :=
  exists d1 d2 d3 d4 d5 d6 v1 v2 v3 v4 v5 v6,
    body = String d1 (String d2 (String d3 (String d4 (String d5
             (String d6 EmptyString))))) /\
    hexValue d1 = Some v1 /\ hexValue d2 = Some v2 /\ hexValue d3 = Some v3 /\
    hexValue d4 = Some v4 /\ hexValue d5 = Some v5 /\ hexValue d6 = Some v6 /\
    rv = (16 * v1 + v2)%Z /\ gv = (16 * v3 + v4)%Z /\ bv = (16 * v5 + v6)%Z.

(** A colour string reads as three numbers when it is six hexadecimal
    digits, with or without [#] in front. *)
Definition readsAs (c : string) (rv gv bv : Z) : Prop :=
  exists body, (c = body \/ c = String "#"%char body) /\ sixHex body rv gv bv.

(** The colour of three such numbers: each divided by 255, the quotient
    rounded by [round]. *)
Definition colourOf (round : Q -> Q) (rv gv bv : Z) : Exporter.RGB :=
  {| Exporter.r := round (inject_Z rv / 255)%Q;
     Exporter.g := round (inject_Z gv / 255)%Q;
     Exporter.b := round (inject_Z bv / 255)%Q |}.

(** The boxes whose id is not [i], each as it was and in the order they
    had. *)
Fixpoint otherBoxes (i : string) (boxes : list TextBox) : list TextBox :=
  match boxes with
  | [] => []
  | box :: rest =>
      if decide (id box = i) then otherBoxes i rest else box :: otherBoxes i rest
  end.

(** [{ ...box, ...updates }] field by field: a supplied field takes the
    supplied value, a field that is not supplied keeps the old one. *)
Definition merged {A} (old : A) (supplied : option A) (new : A) : Prop :=
  match supplied with Some v => new = v | None => new = old end.

Definition mergedBox (u : PartialTextBox) (box box' : TextBox) : Prop :=
  merged (id box) (u_id u) (id box') /\
  merged (pageIndex box) (u_pageIndex u) (pageIndex box') /\
  merged (x box) (u_x u) (x box') /\
  merged (y box) (u_y u) (y box') /\
  merged (width box) (u_width u) (width box') /\
  merged (height box) (u_height u) (height box') /\
  merged (text box) (u_text u) (text box') /\
  merged (fontFamily box) (u_fontFamily u) (fontFamily box') /\
  merged (fontSize box) (u_fontSize u) (fontSize box') /\
  merged (color box) (u_color u) (color box') /\
  merged (fontWeight box) (u_fontWeight u) (fontWeight box') /\
  merged (textAlign box) (u_textAlign u) (textAlign box') /\
  merged (backgroundColor box) (u_backgroundColor u) (backgroundColor box') /\
  merged (mode box) (u_mode u) (mode box').

(** The two states agree on every field other than the pages; on the
    selection they are compared only where [withSelection] is set. *)
Definition sameOutsidePages (withSelection : bool) (s s' : DocumentState) : Prop :=
  fileName s' = fileName s /\ pdfData s' = pdfData s /\
  numPages s' = numPages s /\ zoom s' = zoom s /\
  panOffset s' = panOffset s /\ history s' = history s /\
  isLoaded s' = isLoaded s /\
  (withSelection = true -> selection s' = selection s).

End Spec.

Module Samples.

Definition sampleBox : TextBox :=
  {| id := "b1"; pageIndex := 0; x := 72%Q; y := 72%Q; width := 200%Q;
     height := 50%Q; text := "Hello World"; fontFamily := Helvetica;
     fontSize := 12%Q; color := "#000000"; fontWeight := Some normal;
     textAlign := Some left; backgroundColor := None; mode := overlay |}.

Definition otherBox : TextBox :=
  {| id := "b2"; pageIndex := 0; x := 10%Q; y := 300%Q; width := 120%Q;
     height := 40%Q; text := "Second"; fontFamily := Courier;
     fontSize := 10%Q; color := "#FF0000"; fontWeight := None;
     textAlign := Some center; backgroundColor := Some "#EEEEEE";
     mode := replace |}.

(** A box addressed to page 2 of a document that has pages 0 and 1. *)
Definition strayBox : TextBox :=
  {| id := "b3"; pageIndex := 2; x := 0%Q; y := 0%Q; width := 200%Q;
     height := 50%Q; text := "New Text"; fontFamily := Helvetica;
     fontSize := 12%Q; color := "#000000"; fontWeight := Some normal;
     textAlign := Some left; backgroundColor := None; mode := overlay |}.

(** Four words that wrap to four lines in a box with room for two. *)
Definition crampedBox : TextBox :=
  {| id := "b4"; pageIndex := 0; x := 100%Q; y := 200%Q; width := 60%Q;
     height := 30%Q; text := "aaaa bbbb cccc dddd"; fontFamily := TimesRoman;
     fontSize := 12%Q; color := "#0000FF"; fontWeight := None;
     textAlign := None; backgroundColor := None; mode := replace |}.

Definition letterPage (i : Z) (bs : list TextBox) : PageState :=
  {| index := i; pwidth := 612%Q; pheight := 792%Q; textBoxes := bs |}.

Definition sampleDoc : DocumentState :=
  {| fileName := Some "report.pdf"; pdfData := Some []; numPages := 2;
     pages := [letterPage 0 [sampleBox; otherBox]; letterPage 1 []];
     zoom := 1%Q; panOffset := (0%Q, 0%Q);
     selection := {| selectedBoxId := Some "b1"; isEditing := false |};
     history := emptyHistory; isLoaded := true |}.

Definition letterHeight (i : nat) : Q := 792%Q.

(** Arithmetic without rounding. *)
Definition exact (q : Q) : Q := q.

(** Rounding to the nearest binary64 number, ties to the even significand,
    for the numbers of the normal range: the significand [m] has 53 bits
    and the result is [m * 2^e]. *)
Definition binary64 (q : Q) : Q :=
  let n := Qnum q in
  let d := Z.pos (Qden q) in
  if (n =? 0)%Z then 0%Q
  else
    let a := Z.abs n in
    let e0 := (Z.log2 a - Z.log2 d - 52)%Z in
    let scaled (e : Z) : Z * Z :=
      (a * 2 ^ Z.max 0 (- e), d * 2 ^ Z.max 0 e)%Z in
    let e :=
      if (2 ^ 52 * snd (scaled e0) <=? fst (scaled e0))%Z then e0 else (e0 - 1)%Z in
    let '(num, den) := scaled e in
    let m := (num / den)%Z in
    let rest := (num mod den)%Z in
    let m' :=
      if (den <? 2 * rest)%Z then (m + 1)%Z
      else if (2 * rest =? den)%Z && Z.odd m then (m + 1)%Z
      else m in
    let magnitude :=
      if (0 <=? e)%Z then inject_Z (m' * 2 ^ e)
      else (m' # Z.to_pos (2 ^ (- e)))%Q in
    Qred (if (n <? 0)%Z then - magnitude else magnitude)%Q.

(** Six one-letter words in a box with room, in exact arithmetic, for
    exactly six lines: the bottom edge is 676, the first baseline 712 and
    the pitch 6 * 1.2. *)
Definition tightBox : TextBox :=
  {| id := "b5"; pageIndex := 0; x := 100%Q; y := 72%Q; width := 14%Q;
     height := 44%Q; text := "a b c d e f"; fontFamily := Helvetica;
     fontSize := 6%Q; color := "#000000"; fontWeight := None;
     textAlign := None; backgroundColor := None; mode := overlay |}.

(** A font of fixed advance widths: 5 for a space, 10 for any other
    character, at every size. *)
Fixpoint fixedWidth (s : string) (size : Q) : Q :=
  match s with
  | EmptyString => 0%Q
  | String c rest =>
      ((if decide (c = JS.space) then 5 else 10) + fixedWidth rest size)%Q
  end.

Definition fixedFont (f : Exporter.StandardFonts) : string -> Q -> Q := fixedWidth.

(** A font whose widths grow in proportion to the size, as the widths of
    the PDF library do: the fixed advance widths times the size. *)
Definition scaledWidth (s : string) (size : Q) : Q := (fixedWidth s size * size)%Q.

End Samples.

(* ===================================================================== *)
(** ** utils/helpers.ts *)
(* ===================================================================== *)

Module Helpers.

Definition screenToPDF (screenX screenY zoom : Q) (containerOffset : Q * Q) : Q * Q :=
  let pdfX := ((screenX - fst containerOffset) / zoom)%Q in
  let pdfY := ((screenY - snd containerOffset) / zoom)%Q in
  (pdfX, pdfY).

Definition pdfToScreen (pdfX pdfY zoom : Q) (containerOffset : Q * Q) : Q * Q :=
  let screenX := (pdfX * zoom + fst containerOffset)%Q in
  let screenY := (pdfY * zoom + snd containerOffset)%Q in
  (screenX, screenY).

Definition clamp (value min max : Q) : Q := Qmin (Qmax value min) max.

Record Rect := mkRect { rectX : Q; rectY : Q; rectWidth : Q; rectHeight : Q }.

(** [round] is the rounding of binary64 addition: the two sums are
    doubles. *)
Definition isPointInRect (round : Q -> Q) (point : Q * Q) (rect : Rect) : bool :=
  Qle_bool (rectX rect) (fst point)
  && Qle_bool (fst point) (round (rectX rect + rectWidth rect)%Q)
  && Qle_bool (rectY rect) (snd point)
  && Qle_bool (snd point) (round (rectY rect + rectHeight rect)%Q).

End Helpers.

(* ===================================================================== *)
(** ** utils/pdfLoader.ts *)
(* ===================================================================== *)

Module Loader.

(** What the loader reads of a parsed document: its number of pages and,
    for each page number from 1, the viewport size at scale 1.0. *)
Record PDFDocumentProxy := mkProxy {
  docNumPages : nat;
  viewportAt : nat -> Q * Q
}.

(** The loop [for (let i = 1; i <= pdfDoc.numPages; i++)] of
    [extractPageInfo]. *)
Definition extractPageInfo (pdfDoc : PDFDocumentProxy) : list PageState :=
  (fun i =>
     {| index := Z.of_nat i - 1;
        pwidth := fst (viewportAt pdfDoc i);
        pheight := snd (viewportAt pdfDoc i);
        textBoxes := [] |})
    <$> seq 1 (docNumPages pdfDoc).

(** [handleFileChange] of App.tsx when [loadPDFFromFile] resolves. *)
Definition openFile (name : string) (data : list Byte.byte)
    (pdfDoc : PDFDocumentProxy) (s : DocumentState) : DocumentState :=
  loadPDF name data (Z.of_nat (docNumPages pdfDoc)) (extractPageInfo pdfDoc) s.

End Loader.

(* ===================================================================== *)
(** ** The remaining store actions, and sequences of actions *)
(* ===================================================================== *)

Module Actions.

Definition setPanOffset (offset : Q * Q) (s : DocumentState) : DocumentState :=
  {| fileName := fileName s; pdfData := pdfData s; numPages := numPages s;
     pages := pages s; zoom := zoom s; panOffset := offset;
     selection := selection s; history := history s; isLoaded := isLoaded s |}.

Definition setDefaultFontFamily (f : FontFamily) (p : EditorPreferences)
    : EditorPreferences :=
  {| activeTool := activeTool p; defaultFontFamily := f;
     defaultFontSize := defaultFontSize p; defaultColor := defaultColor p;
     showGrid := showGrid p; enableSnapping := enableSnapping p |}.

Definition setDefaultColor (c : string) (p : EditorPreferences) : EditorPreferences :=
  {| activeTool := activeTool p; defaultFontFamily := defaultFontFamily p;
     defaultFontSize := defaultFontSize p; defaultColor := c;
     showGrid := showGrid p; enableSnapping := enableSnapping p |}.

Definition toggleGrid (p : EditorPreferences) : EditorPreferences :=
  {| activeTool := activeTool p; defaultFontFamily := defaultFontFamily p;
     defaultFontSize := defaultFontSize p; defaultColor := defaultColor p;
     showGrid := negb (showGrid p); enableSnapping := enableSnapping p |}.

Definition toggleSnapping (p : EditorPreferences) : EditorPreferences :=
  {| activeTool := activeTool p; defaultFontFamily := defaultFontFamily p;
     defaultFontSize := defaultFontSize p; defaultColor := defaultColor p;
     showGrid := showGrid p; enableSnapping := negb (enableSnapping p) |}.

(** The actions of the document store. *)
Inductive Action :=
| ALoadPDF (name : string) (data : list Byte.byte) (n : Z) (ps : list PageState)
| AClearDocument
| ASetZoom (z : Q)
| ASetPanOffset (offset : Q * Q)
| AAddTextBox (textBox : TextBox)
| AUpdateTextBox (i : string) (updates : PartialTextBox)
| ADeleteTextBox (i : string)
| ASelectTextBox (i : option string)
| AEnterEditMode
| AExitEditMode
| ASaveHistory
| AUndo
| ARedo.

Definition perform (s : DocumentState) (a : Action) : DocumentState :=
  match a with
  | ALoadPDF name data n ps => loadPDF name data n ps s
  | AClearDocument => clearDocument s
  | ASetZoom z => setZoom z s
  | ASetPanOffset offset => setPanOffset offset s
  | AAddTextBox textBox => addTextBox textBox s
  | AUpdateTextBox i updates => updateTextBox i updates s
  | ADeleteTextBox i => deleteTextBox i s
  | ASelectTextBox i => selectTextBox i s
  | AEnterEditMode => enterEditMode s
  | AExitEditMode => exitEditMode s
  | ASaveHistory => saveHistory s
  | AUndo => undo s
  | ARedo => redo s
  end.

Definition run (actions : list Action) (s : DocumentState) : DocumentState :=
  foldl perform s actions.

(** The actions of the editor store. *)
Inductive EditorAction :=
| ESetActiveTool (tool : Tool)
| ESetDefaultFontFamily (f : FontFamily)
| ESetDefaultFontSize (size : Q)
| ESetDefaultColor (c : string)
| EToggleGrid
| EToggleSnapping.

Definition performEditor (p : EditorPreferences) (a : EditorAction) : EditorPreferences :=
  match a with
  | ESetActiveTool tool => setActiveTool tool p
  | ESetDefaultFontFamily f => setDefaultFontFamily f p
  | ESetDefaultFontSize size => setDefaultFontSize size p
  | ESetDefaultColor c => setDefaultColor c p
  | EToggleGrid => toggleGrid p
  | EToggleSnapping => toggleSnapping p
  end.

Definition runEditor (actions : list EditorAction) (p : EditorPreferences)
    : EditorPreferences :=
  foldl performEditor p actions.

End Actions.

(* ===================================================================== *)
(** ** The remaining handlers of Toolbar.tsx and PDFPage.tsx *)
(* ===================================================================== *)

Module Handlers.

Import Actions.

Definition fontFamilyUpdate (f : FontFamily) : PartialTextBox :=
  mkPartial None None None None None None None (Some f) None None None None None None.

Definition colorUpdate (c : string) : PartialTextBox :=
  mkPartial None None None None None None None None None (Some c) None None None None.

Definition textAlignUpdate (a : TextAlign) : PartialTextBox :=
  mkPartial None None None None None None None None None None None (Some (Some a)) None None.

Definition modeUpdate (m : TextBoxMode) : PartialTextBox :=
  mkPartial None None None None None None None None None None None None None (Some m).

Definition textUpdate (t : string) : PartialTextBox :=
  mkPartial None None None None None None (Some t) None None None None None None None.

Definition positionUpdate (px py : Q) : PartialTextBox :=
  mkPartial None None (Some px) (Some py) None None None None None None None None None None.

Definition sizeUpdate (w h : Q) : PartialTextBox :=
  mkPartial None None None None (Some w) (Some h) None None None None None None None None.

(** [if (selectedBox) { saveHistory(); updateTextBox(selectedBox.id, u) }],
    the part the five style handlers of the toolbar share. *)
Definition updateSelected (u : PartialTextBox) (doc : DocumentState) : DocumentState :=
  match Toolbar.selectedBox doc with
  | Some box => updateTextBox (id box) u (saveHistory doc)
  | None => doc
  end.

Definition updateFontFamily (f : FontFamily) (st : DocumentState * EditorPreferences)
    : DocumentState * EditorPreferences :=
  (updateSelected (fontFamilyUpdate f) (fst st), setDefaultFontFamily f (snd st)).

Definition updateColor (c : string) (st : DocumentState * EditorPreferences)
    : DocumentState * EditorPreferences :=
  (updateSelected (colorUpdate c) (fst st), setDefaultColor c (snd st)).

Definition updateTextAlign (a : TextAlign) (st : DocumentState * EditorPreferences)
    : DocumentState * EditorPreferences :=
  (updateSelected (textAlignUpdate a) (fst st), snd st).

Definition updateMode (m : TextBoxMode) (st : DocumentState * EditorPreferences)
    : DocumentState * EditorPreferences :=
  (updateSelected (modeUpdate m) (fst st), snd st).

(** The callbacks [PDFPage] hands to the overlay of the box with id [i]. *)
Definition onSelect (i : string) (doc : DocumentState) : DocumentState :=
  selectTextBox (Some i) (saveHistory doc).

Definition onUpdate (i : string) (updates : PartialTextBox) (doc : DocumentState)
    : DocumentState :=
  updateTextBox i updates doc.

Definition onDelete (i : string) (doc : DocumentState) : DocumentState :=
  deleteTextBox i (saveHistory doc).

(** [handleCanvasClick]; [onBackground] is [e.target === e.currentTarget]. *)
Definition handleCanvasClick (onBackground : bool) (doc : DocumentState) : DocumentState :=
  if onBackground then exitEditMode (selectTextBox None doc) else doc.

End Handlers.

(* ===================================================================== *)
(** ** components/TextBox/TextBoxOverlay.tsx *)
(* ===================================================================== *)

Module Overlay.

Import Handlers.

(** The local state of one overlay: [isDragging], [isResizing], [dragStart]. *)
Record Gesture := mkGesture {
  isDragging : bool;
  isResizing : bool;
  dragStart : Q * Q
}.

Definition idle : Gesture :=
  {| isDragging := false; isResizing := false; dragStart := (0%Q, 0%Q) |}.

(** [handleMouseDown] on the box; [client] is [(e.clientX, e.clientY)] and
    [round] the rounding of binary64 arithmetic. *)
Definition handleMouseDown (round : Q -> Q) (textBox : TextBox) (editing : bool)
    (zoomLevel : Q) (client : Q * Q) (st : DocumentState * Gesture)
    : DocumentState * Gesture :=
  if editing then st
  else
    (onSelect (id textBox) (fst st),
     {| isDragging := true; isResizing := isResizing (snd st);
        dragStart := (round (fst client - round (x textBox * zoomLevel)%Q)%Q,
                      round (snd client - round (y textBox * zoomLevel)%Q)%Q) |}).

Definition handleResizeMouseDown (client : Q * Q) (g : Gesture) : Gesture :=
  {| isDragging := isDragging g; isResizing := true; dragStart := client |}.

(** [handleMouseMove] while a gesture is active; [round] is the rounding of
    binary64 arithmetic. With a zoom of 0 the two quotients are infinite or
    not a number, which no rational stands for: the result is [None]. *)
Definition handleMouseMove (round : Q -> Q) (textBox : TextBox) (zoomLevel : Q)
    (client : Q * Q) (st : DocumentState * Gesture)
    : option (DocumentState * Gesture) :=
  let '(doc, g) := st in
  if isDragging g then
    if Qeq_bool zoomLevel 0 then None
    else
      let newX := round (round (fst client - fst (dragStart g))%Q / zoomLevel)%Q in
      let newY := round (round (snd client - snd (dragStart g))%Q / zoomLevel)%Q in
      Some (onUpdate (id textBox) (positionUpdate (Qmax 0 newX) (Qmax 0 newY)) doc, g)
  else if isResizing g then
    if Qeq_bool zoomLevel 0 then None
    else
      let deltaX := round (fst client - fst (dragStart g))%Q in
      let deltaY := round (snd client - snd (dragStart g))%Q in
      let newWidth := Qmax 50 (round (width textBox + round (deltaX / zoomLevel)%Q)%Q) in
      let newHeight := Qmax 20 (round (height textBox + round (deltaY / zoomLevel)%Q)%Q) in
      Some (onUpdate (id textBox) (sizeUpdate newWidth newHeight) doc,
            {| isDragging := isDragging g; isResizing := isResizing g;
               dragStart := client |})
  else Some st.

Definition handleMouseUp (g : Gesture) : Gesture :=
  {| isDragging := false; isResizing := false; dragStart := dragStart g |}.

Definition handleTextChange (textBox : TextBox) (value : string) (doc : DocumentState)
    : DocumentState :=
  onUpdate (id textBox) (textUpdate value) doc.

Inductive Key := KeyEscape | KeyDelete | KeyOther.

(** [handleKeyDown]: only the Delete key on a selected box that is not being
    edited reaches the store (Escape blurs the text area). *)
Definition handleKeyDown (textBox : TextBox) (key : Key) (selected editing : bool)
    (doc : DocumentState) : DocumentState :=
  match key with
  | KeyEscape => doc
  | KeyDelete => if negb editing && selected then onDelete (id textBox) doc else doc
  | KeyOther => doc
  end.

End Overlay.

(* ===================================================================== *)
(** ** Properties the invariants are stated with *)
(* ===================================================================== *)

Module Props.

Import Actions.

(** The flags say what the lists hold. *)
Definition flagsConsistent (s : DocumentState) : Prop :=
  canUndo (history s) = bool_decide (0 < length (past (history s)))%nat /\
  canRedo (history s) = bool_decide (0 < length (future (history s)))%nat.

(** Editing means a box is selected. *)
Definition selectionOk (s : DocumentState) : Prop :=
  isEditing (selection s) = true ->
  exists i, selectedBoxId (selection s) = Some i /\ truthy i = true.

(** Index and size of every page, in order. *)
Definition geometry (ps : list PageState) : list (Z * Q * Q) :=
  (fun page => (index page, pwidth page, pheight page)) <$> ps.

(** Every box names the page it is stored on. *)
Definition boxesOnTheirPage (ps : list PageState) : Prop :=
  forall k page box, ps !! k = Some page -> box ∈ textBoxes page ->
    pageIndex box = Z.of_nat k.

(** Every snapshot the history holds, with the current pages. *)
Definition allPages (s : DocumentState) : list (list PageState) :=
  pages s :: (hpages <$> past (history s)) ++ (hpages <$> future (history s)).

Definition noReload (a : Action) : Prop :=
  match a with
  | ALoadPDF _ _ _ _ | AClearDocument => False
  | _ => True
  end.

(** An action that does not rewrite the page a box names. *)
Definition keepsPageIndex (a : Action) : Prop :=
  match a with
  | ALoadPDF _ _ _ _ | AClearDocument => False
  | AUpdateTextBox _ updates => u_pageIndex updates = None
  | _ => True
  end.

(** Two partial updates applied one after the other, as one. *)
Definition later {A} (first second : option A) : option A :=
  match second with Some v => Some v | None => first end.

Definition thenUpdate (u1 u2 : PartialTextBox) : PartialTextBox :=
  {| u_id := later (u_id u1) (u_id u2);
     u_pageIndex := later (u_pageIndex u1) (u_pageIndex u2);
     u_x := later (u_x u1) (u_x u2);
     u_y := later (u_y u1) (u_y u2);
     u_width := later (u_width u1) (u_width u2);
     u_height := later (u_height u1) (u_height u2);
     u_text := later (u_text u1) (u_text u2);
     u_fontFamily := later (u_fontFamily u1) (u_fontFamily u2);
     u_fontSize := later (u_fontSize u1) (u_fontSize u2);
     u_color := later (u_color u1) (u_color u2);
     u_fontWeight := later (u_fontWeight u1) (u_fontWeight u2);
     u_textAlign := later (u_textAlign u1) (u_textAlign u2);
     u_backgroundColor := later (u_backgroundColor u1) (u_backgroundColor u2);
     u_mode := later (u_mode u1) (u_mode u2) |}.

(** A text made of spaces only (the empty text included). *)
Fixpoint allSpaces (s : string) : bool :=
  match s with
  | EmptyString => true
  | String c rest => bool_decide (c = JS.space) && allSpaces rest
  end.

(** A colour whose three channels lie between 0 and 1, as [rgb] of the PDF
    library requires. *)
Definition inUnit (c : Exporter.RGB) : Prop :=
  ((0 <= Exporter.r c)%Q /\ (Exporter.r c <= 1)%Q) /\
  ((0 <= Exporter.g c)%Q /\ (Exporter.g c <= 1)%Q) /\
  ((0 <= Exporter.b c)%Q /\ (Exporter.b c <= 1)%Q).

Definition black : Exporter.RGB :=
  {| Exporter.r := 0%Q; Exporter.g := 0%Q; Exporter.b := 0%Q |}.

(** The left edge a line of measured width [w] gets in a box, by alignment:
    2 points inside the left edge, equal margins, or ending 2 points inside
    the right edge. *)
Definition aligned (box : TextBox) (w tx : Q) : Prop :=
  match textAlign box with
  | Some center => (tx - x box == x box + width box - (tx + w))%Q
  | Some right => (tx + w == x box + width box - 2)%Q
  | _ => (tx == x box + 2)%Q
  end.

(** The same left edge as the program computes it, every sum, difference
    and quotient rounded by [round]: [box.x + 2],
    [box.x + (box.width - w) / 2] and [box.x + box.width - w - 2]. *)
Definition alignedM (round : Q -> Q) (box : TextBox) (w tx : Q) : Prop :=
  match textAlign box with
  | Some center => tx = round (x box + round (round (width box - w)%Q / 2)%Q)%Q
  | Some right => tx = round (round (round (x box + width box)%Q - w)%Q - 2)%Q
  | _ => tx = round (x box + 2)%Q
  end.

(** The pages [ps'] are the pages [ps] position by position: as many
    pages, each with its index, width, height and number of boxes, the box
    at each position being the old box at that position when its id is not
    [i], and related to it by [change] when its id is [i]. *)
Definition updatedInPlace (i : string) (change : TextBox -> TextBox -> Prop)
    (ps ps' : list PageState) : Prop :=
  length ps' = length ps /\
  forall k page, ps !! k = Some page ->
    exists page', ps' !! k = Some page' /\
      index page' = index page /\ pwidth page' = pwidth page /\
      pheight page' = pheight page /\
      length (textBoxes page') = length (textBoxes page) /\
      forall j box, textBoxes page !! j = Some box ->
        exists box', textBoxes page' !! j = Some box' /\
          (id box <> i -> box' = box) /\
          (id box = i -> change box box').

(** A sample document as the loader gives it: two letter pages. *)
Definition twoPages : Loader.PDFDocumentProxy :=
  {| Loader.docNumPages := 2; Loader.viewportAt := fun _ => (612%Q, 792%Q) |}.

End Props.

(* ===================================================================== *)
(** ** The primitives on concrete inputs *)
(* ===================================================================== *)

Example split_double_space : JS.split "a  b c " = ["a"; ""; "b"; "c"; ""].
Proof. reflexivity. Qed.

Example split_empty : JS.split "" = [""].
Proof. reflexivity. Qed.

Example replace_first_only :
  JS.replace ".pdf" "_edited.pdf" "a.pdf.pdf" = "a_edited.pdf.pdf".
Proof. reflexivity. Qed.

Example replace_no_match : JS.replace ".pdf" "_edited.pdf" "a.PDF" = "a.PDF".
Proof. reflexivity. Qed.

Example hexToRgb_red :
  Exporter.hexToRgb Samples.binary64 "#FF0000"
    = {| Exporter.r := 1; Exporter.g := 0; Exporter.b := 0 |}.
Proof. vm_compute. reflexivity. Qed.

Example hexToRgb_no_hash_mixed_case (round : Q -> Q) :
  Exporter.hexToRgb round "ff00Fe" = Exporter.hexToRgb round "#FF00FE".
Proof. reflexivity. Qed.

Example hexToRgb_malformed (round : Q -> Q) :
  Exporter.hexToRgb round "not-a-color"
    = {| Exporter.r := 0; Exporter.g := 0; Exporter.b := 0 |}.
Proof. reflexivity. Qed.

(** Binary64 on the numbers of the program: the literal 1.2 is the double
    0x1.3333333333333p0, [6 * 1.2] is 7.199999999999999 (below 7.2), and
    adding -1e-17 to 1 gives 1. *)
Example binary64_literals :
  Samples.binary64 (12 # 10) = (5404319552844595 # 4503599627370496)%Q /\
  Samples.binary64 (6 * Samples.binary64 (12 # 10))
    = (2026619832316723 # 281474976710656)%Q /\
  (Samples.binary64 (6 * Samples.binary64 (12 # 10)) < 72 # 10)%Q /\
  Samples.binary64 (1 + - Samples.binary64 (1 # 100000000000000000)) = 1%Q /\
  Samples.binary64 (7 # 2) = (7 # 2)%Q.
Proof. vm_compute. split_and!; reflexivity. Qed.

Example setZoom_clamps :
  zoom (setZoom 10 initialState) = 4%Q /\ zoom (setZoom 0 initialState) = (1 # 4)%Q.
Proof. split; reflexivity. Qed.

(* ===================================================================== *)
(** ** The document store: history *)
(* ===================================================================== *)

Section History.

Implicit Types (s : DocumentState) (m : Mutation) (h : HistoryState).

Lemma mutate_history m s : history (mutate m s) = history s.
Proof.
  destruct m as [tb | i u | i]; simpl; try reflexivity.
  unfold addTextBox.
  destruct (bool_decide _ && bool_decide _); [|reflexivity].
  destruct (pages s !! _); reflexivity.
Qed.

Lemma snapshot_eta h : {| hpages := hpages h |} = h.
Proof. destruct h; reflexivity. Qed.

Lemma undo_snoc s base h :
  past (history s) = base ++ [h] ->
  pages (undo s) = hpages h /\
  past (history (undo s)) = base /\
  future (history (undo s)) = {| hpages := pages s |} :: future (history s).
Proof.
  intros Hp. unfold undo. rewrite Hp, last_snoc. simpl.
  rewrite length_app. simpl.
  rewrite take_app_length' by lia. auto.
Qed.

Lemma undo_iter (snaps : list HistoryState) :
  forall s base h0,
    past (history s) = base ++ snaps ->
    head (snaps ++ [{| hpages := pages s |}]) = Some h0 ->
    pages (Nat.iter (length snaps) undo s) = hpages h0 /\
    past (history (Nat.iter (length snaps) undo s)) = base /\
    future (history (Nat.iter (length snaps) undo s))
      = tail (snaps ++ [{| hpages := pages s |}]) ++ future (history s).
Proof.
  induction snaps as [|h snaps IH] using rev_ind; intros s base h0 Hp Hh.
  - simpl in *. rewrite app_nil_r in Hp. inversion Hh; subst. auto.
  - rewrite length_app. simpl. rewrite Nat.add_1_r, Nat.iter_succ_r.
    rewrite app_assoc in Hp.
    destruct (undo_snoc s _ _ Hp) as (Hpg & Hpast & Hfut).
    destruct (IH (undo s) base h0 Hpast) as (IH1 & IH2 & IH3).
    { rewrite Hpg, snapshot_eta.
      rewrite <- Hh. rewrite <- app_assoc. destruct snaps; reflexivity. }
    rewrite IH1, IH2, IH3, Hfut, Hpg, snapshot_eta.
    repeat split; try reflexivity.
    destruct snaps; simpl; rewrite <- ?app_assoc; reflexivity.
Qed.

Lemma redo_iter (fs : list HistoryState) :
  forall s rest hN,
    future (history s) = fs ++ rest ->
    last ({| hpages := pages s |} :: fs) = Some hN ->
    pages (Nat.iter (length fs) redo s) = hpages hN /\
    future (history (Nat.iter (length fs) redo s)) = rest.
Proof.
  induction fs as [|f fs IH]; intros s rest hN Hf Hl.
  - simpl in *. inversion Hl; subst. auto.
  - change (length (f :: fs)) with (S (length fs)). rewrite Nat.iter_succ_r.
    assert (Hr : pages (redo s) = hpages f /\ future (history (redo s)) = fs ++ rest).
    { unfold redo. rewrite Hf. simpl. auto. }
    destruct Hr as [Hpg Hfut].
    apply (IH (redo s) rest hN Hfut).
    rewrite Hpg, snapshot_eta. rewrite <- Hl. symmetry. apply last_cons_cons.
Qed.

Lemma edit_history s m :
  history (edit s m)
    = {| past := past (history s) ++ [{| hpages := pages s |}]; future := [];
         canUndo := true; canRedo := false |}.
Proof. unfold edit. rewrite mutate_history. reflexivity. Qed.

(** After [n] edits the history holds, after what it held before, the [n]
    page states the edits started from, oldest first. *)
Lemma edits_trace (ms : list Mutation) s0 :
  exists snaps,
    length snaps = length ms /\
    past (history (edits ms s0)) = past (history s0) ++ snaps /\
    head (snaps ++ [{| hpages := pages (edits ms s0) |}])
      = Some {| hpages := pages s0 |} /\
    (ms <> [] -> future (history (edits ms s0)) = []).
Proof.
  induction ms as [|m ms IH] using rev_ind.
  - exists []. simpl. rewrite app_nil_r. split_and!; done.
  - destruct IH as (snaps & Hlen & Hpast & Hhead & _).
    unfold edits in *. rewrite foldl_snoc.
    set (s := foldl edit s0 ms) in *.
    exists (snaps ++ [{| hpages := pages s |}]).
    rewrite edit_history. simpl.
    rewrite !length_app, Hlen, Hpast. simpl.
    split_and!.
    + reflexivity.
    + rewrite app_assoc. reflexivity.
    + rewrite <- Hhead. rewrite <- app_assoc. destruct snaps; reflexivity.
    + reflexivity.
Qed.

End History.

(** C1. For every initial state and every sequence of [n] mutating store
    actions (addTextBox, updateTextBox, deleteTextBox), each preceded by one
    [saveHistory], [n] undos bring the pages back to the initial pages, and
    [n] redos after that bring them to the pages reached after the last
    action. *)
Theorem undo_redo_inverse (s0 : DocumentState) (ms : list Mutation) :
  let s := edits ms s0 in
  let n := length ms in
  pages (Nat.iter n undo s) = pages s0 /\
  pages (Nat.iter n redo (Nat.iter n undo s)) = pages s.
Proof.
  intros s n. subst s n.
  destruct (edits_trace ms s0) as (snaps & Hlen & Hpast & Hhead & _).
  rewrite <- Hlen.
  destruct (undo_iter snaps (edits ms s0) _ _ Hpast Hhead) as (Hpg & _ & Hfut).
  split; [exact Hpg|].
  set (u := Nat.iter (length snaps) undo (edits ms s0)) in *.
  set (all := snaps ++ [{| hpages := pages (edits ms s0) |}]) in *.
  assert (Hall : {| hpages := pages u |} :: tail all = all).
  { rewrite Hpg. simpl. destruct all; simpl in *; congruence. }
  assert (Hn : length (tail all) = length snaps).
  { subst all. destruct snaps; simpl; rewrite ?length_app; simpl; lia. }
  rewrite <- Hn.
  refine (proj1 (redo_iter (tail all) u _ {| hpages := pages (edits ms s0) |} Hfut _)).
  rewrite Hall. subst all. apply last_snoc.
Qed.

(* ===================================================================== *)
(** ** The document store: load, add, update, delete *)
(* ===================================================================== *)

Section StoreActions.

Implicit Types (s : DocumentState) (i : string) (u : PartialTextBox).

Lemma fmap_fixed {A} (f : A -> A) (l : list A) :
  (forall a, a ∈ l -> f a = a) -> f <$> l = l.
Proof.
  induction l as [|a l IH]; intros H; [reflexivity|].
  rewrite fmap_cons, H, IH; [reflexivity| |left].
  intros b Hb. apply H. right. exact Hb.
Qed.

Lemma set_textBoxes_same (page : PageState) : set_textBoxes page (textBoxes page) = page.
Proof. destruct page; reflexivity. Qed.

Lemma set_pages_same s : set_pages (pages s) s = s.
Proof. destruct s; reflexivity. Qed.

Lemma updateTextBox_absent s i u :
  ~ hasBox i (pages s) -> updateTextBox i u s = s.
Proof.
  intros Hno. unfold updateTextBox.
  rewrite fmap_fixed; [apply set_pages_same|].
  intros page Hpage.
  rewrite fmap_fixed; [apply set_textBoxes_same|].
  intros box Hbox. destruct (decide (id box = i)) as [Heq|]; [|reflexivity].
  exfalso. apply Hno. exists page, box. auto.
Qed.

Lemma filter_all {A} (P : A -> Prop) `{!forall a, Decision (P a)} (l : list A) :
  (forall a, a ∈ l -> P a) -> filter P l = l.
Proof.
  induction l as [|a l IH]; intros Hl; [reflexivity|].
  rewrite filter_cons. destruct (decide (P a)) as [|Hn].
  - rewrite IH; [reflexivity|]. intros b Hb. apply Hl. right. exact Hb.
  - exfalso. apply Hn, Hl. left.
Qed.

Lemma deleteTextBox_absent_pages s i :
  ~ hasBox i (pages s) -> pages (deleteTextBox i s) = pages s.
Proof.
  intros Hno. unfold deleteTextBox. simpl.
  apply fmap_fixed. intros page Hpage.
  rewrite filter_all; [apply set_textBoxes_same|].
  intros box Hbox Heq. apply Hno. exists page, box. auto.
Qed.

Lemma addTextBox_out_of_range s (textBox : TextBox) :
  (pageIndex textBox < 0 \/ Z.of_nat (length (pages s)) <= pageIndex textBox)%Z ->
  addTextBox textBox s = s.
Proof.
  intros H. unfold addTextBox.
  destruct (bool_decide (0 <= pageIndex textBox)%Z) eqn:E1; [|reflexivity].
  destruct (bool_decide (pageIndex textBox < _)%Z) eqn:E2; [|reflexivity].
  apply bool_decide_eq_true in E1, E2. lia.
Qed.

End StoreActions.

(** Membership in a list that is written out. *)
Ltac list_cases :=
  repeat match goal with
    | H : _ ∈ [] |- _ => apply elem_of_nil in H; contradiction
    | H : _ ∈ _ :: _ |- _ => apply elem_of_cons in H; destruct H as [->|H]
    end.

Lemma sampleDoc_has_no (i : string) :
  i <> "b1" -> i <> "b2" -> ~ hasBox i (pages Samples.sampleDoc).
Proof.
  intros H1 H2 (page & box & Hp & Hb & Hid). simpl in Hp.
  list_cases; simpl in Hb; list_cases; simpl in Hid; congruence.
Qed.

(** C2 (as the code has it). [loadPDF] has no failing path and does not
    compare the length of [pages] with [numPages]: every call, matched or
    not, installs the document as loaded with the given name, data, page
    count and pages, zoom 1.0, pan at the origin, no selection and an empty
    history. *)
Theorem loadPDF_always_installs (name : string) (data : list Byte.byte) (n : Z)
    (ps : list PageState) (s : DocumentState) :
  let s' := loadPDF name data n ps s in
  isLoaded s' = true /\
  fileName s' = Some name /\ pdfData s' = Some data /\
  numPages s' = n /\ pages s' = ps /\
  zoom s' = 1%Q /\ panOffset s' = (0%Q, 0%Q) /\
  selectedBoxId (selection s') = None /\ isEditing (selection s') = false /\
  past (history s') = [] /\ future (history s') = [] /\
  canUndo (history s') = false /\ canRedo (history s') = false.
Proof. simpl. split_and!; reflexivity. Qed.

(** C2, refuted as stated: a call whose page array is empty while the page
    count is 3 installs the document as loaded. *)
Lemma loadPDF_mismatch_installs :
  let s' := loadPDF "report.pdf" [] 3 [] initialState in
  Z.of_nat (length (pages s')) <> numPages s' /\ isLoaded s' = true.
Proof. simpl. split; [lia|reflexivity]. Qed.

Lemma filter_otherBoxes (i : string) (boxes : list TextBox) :
  filter (fun box => id box <> i) boxes = Spec.otherBoxes i boxes.
Proof.
  induction boxes as [|box rest IH]; [reflexivity|].
  cbn [Spec.otherBoxes]. destruct (decide (id box = i)) as [Heq|Hne].
  - rewrite filter_cons_False by (intros H; exact (H Heq)). exact IH.
  - rewrite filter_cons_True by exact Hne. rewrite IH. reflexivity.
Qed.

(** C3 (as the code has it). [deleteTextBox i] removes from every page every
    box whose id is [i]: the boxes of each page afterwards are exactly the
    boxes whose id is not [i], each as it was, as many times as it occurred
    and in the order they had, and every page keeps its index and size; it
    resets the selection to none in every case, whether or not the deleted
    box was selected and whether or not a box had that id; the other fields
    of the state are unchanged, and when no box has the id the pages are
    unchanged. *)
Theorem deleteTextBox_effect (s : DocumentState) (i : string) :
  let s' := deleteTextBox i s in
  selection s' = noSelection /\
  Spec.sameOutsidePages false s s' /\
  length (pages s') = length (pages s) /\
  (forall k page, pages s !! k = Some page ->
     exists page', pages s' !! k = Some page' /\
       index page' = index page /\ pwidth page' = pwidth page /\
       pheight page' = pheight page /\
       textBoxes page' = Spec.otherBoxes i (textBoxes page) /\
       textBoxes page' `sublist_of` textBoxes page /\
       forall box, box ∈ textBoxes page' <-> box ∈ textBoxes page /\ id box <> i) /\
  (~ hasBox i (pages s) -> pages s' = pages s).
Proof.
  intros s'. split_and!.
  - reflexivity.
  - unfold Spec.sameOutsidePages. simpl. split_and!; try reflexivity. discriminate.
  - subst s'. simpl. apply length_fmap.
  - intros k page Hk. subst s'. simpl. rewrite list_lookup_fmap, Hk. simpl.
    eexists; split; [reflexivity|]. simpl. split_and!; try reflexivity.
    + apply filter_otherBoxes.
    + apply sublist_filter.
    + intros box. rewrite list_elem_of_filter. tauto.
  - apply deleteTextBox_absent_pages.
Qed.

Lemma deleteTextBox_effect_witness :
  ~ hasBox "missing" (pages Samples.sampleDoc) /\
  pages (deleteTextBox "missing" Samples.sampleDoc) = pages Samples.sampleDoc.
Proof.
  assert (H : ~ hasBox "missing" (pages Samples.sampleDoc))
    by (apply sampleDoc_has_no; discriminate).
  split; [exact H|].
  exact (proj2 (proj2 (proj2 (proj2
           (deleteTextBox_effect Samples.sampleDoc "missing")))) H).
Defined.

(** C3, refuted as stated: no box of the sample document has the id
    "missing", yet deleting it clears the selection of box "b1"; and
    deleting box "b2" clears the selection although "b1" was the selected
    box. *)
Lemma deleteTextBox_always_clears_selection :
  ~ hasBox "missing" (pages Samples.sampleDoc) /\
  selectedBoxId (selection Samples.sampleDoc) = Some "b1" /\
  selection (deleteTextBox "missing" Samples.sampleDoc) <> selection Samples.sampleDoc /\
  selectedBoxId (selection (deleteTextBox "b2" Samples.sampleDoc)) = None.
Proof.
  split_and!; try reflexivity.
  - apply sampleDoc_has_no; discriminate.
  - discriminate.
Qed.

(** C8. [updateTextBox] with an id that no box has leaves the pages (and the
    whole state) equal to what they were; [addTextBox] with a box whose
    pageIndex is negative or at least [pages.length] leaves them equal
    too. *)
Theorem invalid_reference_noop (s : DocumentState) :
  (forall i u, ~ hasBox i (pages s) ->
     pages (updateTextBox i u s) = pages s /\ updateTextBox i u s = s) /\
  (forall textBox,
     (pageIndex textBox < 0 \/ Z.of_nat (length (pages s)) <= pageIndex textBox)%Z ->
     pages (addTextBox textBox s) = pages s /\ addTextBox textBox s = s).
Proof.
  split.
  - intros i u H. rewrite updateTextBox_absent by exact H. auto.
  - intros textBox H. rewrite addTextBox_out_of_range by exact H. auto.
Qed.

Lemma invalid_reference_noop_witness :
  (~ hasBox "nonexistent" (pages Samples.sampleDoc) /\
   pages (updateTextBox "nonexistent" (Toolbar.fontSizeUpdate 20) Samples.sampleDoc)
     = pages Samples.sampleDoc) /\
  ((pageIndex Samples.strayBox < 0
    \/ Z.of_nat (length (pages Samples.sampleDoc)) <= pageIndex Samples.strayBox)%Z /\
   pages (addTextBox Samples.strayBox Samples.sampleDoc) = pages Samples.sampleDoc).
Proof.
  assert (H1 : ~ hasBox "nonexistent" (pages Samples.sampleDoc))
    by (apply sampleDoc_has_no; discriminate).
  assert (H2 : (pageIndex Samples.strayBox < 0
                \/ Z.of_nat (length (pages Samples.sampleDoc))
                   <= pageIndex Samples.strayBox)%Z) by (right; simpl; lia).
  split.
  - split; [exact H1|].
    exact (proj1 (proj1 (invalid_reference_noop Samples.sampleDoc) _ _ H1)).
  - split; [exact H2|].
    exact (proj1 (proj2 (invalid_reference_noop Samples.sampleDoc) _ H2)).
Defined.

(** C10. [updateTextBox i u] touches nothing but the boxes whose id is [i]:
    the state outside the pages (zoom, panOffset, selection, history,
    fileName, pdfData, isLoaded, numPages) is the same, the number of pages
    is the same, every page keeps its index, width, height and number of
    boxes, the box at each position is the old box at that position when
    its id differs from [i], and otherwise the old box with exactly the
    supplied fields replaced. *)
Theorem updateTextBox_frame (s : DocumentState) (i : string) (u : PartialTextBox) :
  let s' := updateTextBox i u s in
  Spec.sameOutsidePages true s s' /\
  length (pages s') = length (pages s) /\
  (forall k page, pages s !! k = Some page ->
     exists page', pages s' !! k = Some page' /\
       index page' = index page /\ pwidth page' = pwidth page /\
       pheight page' = pheight page /\
       length (textBoxes page') = length (textBoxes page) /\
       forall j box, textBoxes page !! j = Some box ->
         exists box', textBoxes page' !! j = Some box' /\
           (id box <> i -> box' = box) /\
           (id box = i -> Spec.mergedBox u box box')).
Proof.
  intros s'. subst s'. split_and!.
  - unfold Spec.sameOutsidePages. simpl. split_and!; reflexivity.
  - simpl. apply length_fmap.
  - intros k page Hk. simpl. rewrite list_lookup_fmap, Hk. simpl.
    eexists; split; [reflexivity|]. simpl. split_and!; try reflexivity.
    + apply length_fmap.
    + intros j box Hj. rewrite list_lookup_fmap, Hj. simpl.
      eexists; split; [reflexivity|].
      destruct (decide (id box = i)) as [Heq|Hne]; split; intros H;
        try reflexivity; try contradiction.
      unfold Spec.mergedBox, Spec.merged, spread. simpl.
      destruct u as [a1 a2 a3 a4 a5 a6 a7 a8 a9 a10 a11 a12 a13 a14]. simpl.
      destruct a1, a2, a3, a4, a5, a6, a7; simpl; split_and!; try reflexivity;
        destruct a8, a9, a10, a11; simpl; try reflexivity;
        destruct a12, a13, a14; reflexivity.
Qed.

Lemma updateTextBox_frame_witness :
  pages Samples.sampleDoc !! 0%nat
    = Some (Samples.letterPage 0 [Samples.sampleBox; Samples.otherBox]) /\
  [Samples.sampleBox; Samples.otherBox] !! 0%nat = Some Samples.sampleBox /\
  id Samples.sampleBox = "b1" /\
  exists page' box',
    pages (updateTextBox "b1" (Toolbar.fontSizeUpdate 20) Samples.sampleDoc) !! 0%nat
      = Some page' /\
    index page' = 0%Z /\ length (textBoxes page') = 2%nat /\
    textBoxes page' !! 0%nat = Some box' /\
    fontSize box' = 20%Q /\ text box' = "Hello World" /\ id box' = "b1".
Proof.
  split_and!; try reflexivity.
  destruct (proj2 (proj2 (updateTextBox_frame Samples.sampleDoc "b1"
                            (Toolbar.fontSizeUpdate 20)))
              0%nat _ eq_refl) as (page' & Hk & Hi & _ & _ & Hl & Hboxes).
  destruct (Hboxes 0%nat Samples.sampleBox eq_refl) as (box' & Hj & _ & Hm).
  destruct (Hm eq_refl)
    as (Hid & _ & _ & _ & _ & _ & Htext & _ & Hsize & _).
  exists page', box'. split_and!; assumption.
Defined.

(* ===================================================================== *)
(** ** The export engine: word wrap *)
(* ===================================================================== *)

Section Split.

Import Spec.

Lemma noSpace_nil : noSpace EmptyString.
Proof. intros [|? ?] c; discriminate. Qed.

Lemma noSpace_cons ch w : ch <> JS.space -> noSpace w -> noSpace (String ch w).
Proof.
  intros Hc Hw [|a0 a] c; simpl; intros Heq.
  - injection Heq as -> _. contradiction.
  - injection Heq as _ Heq. exact (Hw _ _ Heq).
Qed.

Lemma noSpace_inv ch w : noSpace (String ch w) -> ch <> JS.space /\ noSpace w.
Proof.
  intros H. split.
  - intros ->. exact (H EmptyString w eq_refl).
  - intros a c ->. exact (H (String ch a) c eq_refl).
Qed.

Lemma split_not_nil s : JS.split s <> [].
Proof.
  destruct s as [|ch s]; simpl; [discriminate|].
  destruct (decide (ch = JS.space)); [discriminate|].
  destruct (JS.split s); discriminate.
Qed.

Lemma split_noSpace w : noSpace w -> JS.split w = [w].
Proof.
  induction w as [|ch w IH]; intros H; [reflexivity|].
  apply noSpace_inv in H as [Hc Hw]. simpl.
  destruct (decide (ch = JS.space)); [contradiction|].
  rewrite (IH Hw). reflexivity.
Qed.

Lemma split_words_noSpace s : forall w, w ∈ JS.split s -> noSpace w.
Proof.
  induction s as [|ch s IH]; simpl; intros w Hw.
  - list_cases. apply noSpace_nil.
  - destruct (decide (ch = JS.space)).
    + list_cases; [apply noSpace_nil | apply IH, Hw].
    + destruct (JS.split s) as [|w0 ws] eqn:E.
      * list_cases. apply noSpace_cons; [assumption | apply noSpace_nil].
      * list_cases.
        -- apply noSpace_cons; [assumption|]. apply IH. left.
        -- apply IH. right. exact Hw.
Qed.

Lemma split_join a c :
  JS.split (a +:+ " " +:+ c) = JS.split a ++ JS.split c.
Proof.
  induction a as [|ch a IH]; [reflexivity|].
  change (String ch a +:+ " " +:+ c) with (String ch (a +:+ " " +:+ c)).
  simpl. destruct (decide (ch = JS.space)).
  - rewrite IH. reflexivity.
  - rewrite IH. destruct (JS.split a) as [|w ws] eqn:E; [|reflexivity].
    exfalso. exact (split_not_nil a E).
Qed.

Lemma append_length a c :
  String.length (a +:+ c) = (String.length a + String.length c)%nat.
Proof. induction a as [|ch a IH]; simpl; [reflexivity | rewrite IH; reflexivity]. Qed.

(** A text either has no space or is a first word, a space and a rest. *)
Lemma first_space s :
  noSpace s \/
  exists a c, s = a +:+ " " +:+ c /\ noSpace a /\
              (String.length c < String.length s)%nat.
Proof.
  induction s as [|ch s IH]; [left; apply noSpace_nil|].
  destruct (decide (ch = JS.space)) as [->|Hc].
  - right. exists EmptyString, s. split_and!; [reflexivity | apply noSpace_nil | simpl; lia].
  - destruct IH as [Hs | (a & c & -> & Ha & Hl)].
    + left. apply noSpace_cons; assumption.
    + right. exists (String ch a), c. split_and!.
      * reflexivity.
      * apply noSpace_cons; assumption.
      * simpl in *. lia.
Qed.

End Split.

Lemma Qle_bool_gt (a c : Q) : (c < a)%Q -> Qle_bool a c = false.
Proof.
  intros Hlt. destruct (Qle_bool a c) eqn:E; [|reflexivity].
  apply Qle_bool_iff in E. exfalso. exact (Qlt_not_le _ _ Hlt E).
Qed.

Section WordWrap.

Import Spec.

Variable measure : string -> Q -> Q.
Variables maxWidth fontSize : Q.

Let step := Exporter.wrapStep measure maxWidth fontSize.
Let greedy := Spec.greedyLines measure maxWidth fontSize.

Lemma loop_greedy words : forall lines currentLine,
  Exporter.finish (foldl step (lines, currentLine) words)
    = lines ++ greedy currentLine words.
Proof.
  induction words as [|word rest IH]; intros lines cur.
  - unfold Exporter.finish, greedy. simpl. destruct (truthy cur); [reflexivity|].
    rewrite app_nil_r. reflexivity.
  - unfold greedy. simpl. fold greedy.
    destruct (truthy cur) eqn:Ecur.
    + destruct (Qlt_le_dec maxWidth (measure (cur +:+ " " +:+ word) fontSize))
        as [Hlt|Hle].
      * rewrite IH, (Qle_bool_gt _ _ Hlt), <- app_assoc. reflexivity.
      * rewrite IH.
        assert (E : Qle_bool (measure (cur +:+ " " +:+ word) fontSize) maxWidth = true)
          by (apply Qle_bool_iff; exact Hle).
        rewrite E. reflexivity.
    + destruct (Qlt_le_dec maxWidth (measure word fontSize)); rewrite IH; reflexivity.
Qed.

Lemma wrapText_is_greedy text :
  Exporter.wrapText text maxWidth measure fontSize
    = greedy EmptyString (JS.split text).
Proof. unfold Exporter.wrapText. fold step. rewrite loop_greedy. reflexivity. Qed.

End WordWrap.

Section GreedyFacts.

Import Spec.

Variable measure : string -> Q -> Q.
Variables maxWidth fontSize : Q.

Let greedy := Spec.greedyLines measure maxWidth fontSize.

Lemma truthy_false s : truthy s = false -> s = EmptyString.
Proof. destruct s; [reflexivity | discriminate]. Qed.

Lemma truthy_true s : truthy s = true <-> nonEmpty s.
Proof. unfold nonEmpty. destruct s; simpl; split; congruence. Qed.

(** Only a single word can be wider than [maxWidth]: a line made of
    several words was accepted by the width test. *)
Lemma greedy_fits_or_word (W : list string) words : forall cur,
  (forall w, w ∈ words -> w ∈ W) ->
  cur = EmptyString \/ cur ∈ W \/ (measure cur fontSize <= maxWidth)%Q ->
  forall line, line ∈ greedy cur words ->
    line ∈ W \/ (measure line fontSize <= maxWidth)%Q.
Proof.
  induction words as [|word rest IH]; intros cur HW Hcur line Hline;
    unfold greedy in Hline; simpl in Hline; fold greedy in Hline.
  - destruct (truthy cur) eqn:E; list_cases.
    destruct Hcur as [-> | Hcur]; [discriminate | exact Hcur].
  - assert (Hword : word ∈ W) by (apply HW; left).
    assert (Hrest : forall w, w ∈ rest -> w ∈ W) by (intros w Hw; apply HW; right; exact Hw).
    destruct (truthy cur) eqn:E.
    + destruct (Qle_bool _ _) eqn:Efit.
      * apply (IH _ Hrest) in Hline; [exact Hline|].
        right. right. apply Qle_bool_iff. exact Efit.
      * list_cases.
        -- destruct Hcur as [-> | Hcur]; [discriminate | exact Hcur].
        -- apply (IH _ Hrest) in Hline; auto.
    + apply (IH _ Hrest) in Hline; auto.
Qed.

(** No word is lost, repeated, reordered or cut: the non-empty words of
    the lines, in order, are the non-empty words given. *)
Lemma greedy_words words : forall cur,
  (forall w, w ∈ words -> noSpace w) ->
  filter nonEmpty (concat (JS.split <$> greedy cur words))
    = filter nonEmpty (JS.split cur ++ words).
Proof.
  induction words as [|word rest IH]; intros cur HW;
    unfold greedy; simpl; fold greedy.
  - destruct (truthy cur) eqn:E; simpl.
    + reflexivity.
    + apply truthy_false in E. subst cur. reflexivity.
  - assert (Hword : JS.split word = [word]) by (apply split_noSpace, HW; left).
    assert (Hrest : forall w, w ∈ rest -> noSpace w) by (intros w Hw; apply HW; right; exact Hw).
    destruct (truthy cur) eqn:E.
    + destruct (Qle_bool _ _).
      * rewrite (IH _ Hrest), split_join, Hword, <- app_assoc. reflexivity.
      * rewrite fmap_cons, concat_cons, !filter_app, (IH _ Hrest), Hword.
        reflexivity.
    + apply truthy_false in E. subst cur.
      rewrite (IH _ Hrest), Hword. reflexivity.
Qed.

Section Monotone.

Hypothesis mono : monotoneFont measure fontSize.

Lemma wide_join_l a c :
  (maxWidth < measure a fontSize)%Q ->
  Qle_bool (measure (a +:+ " " +:+ c) fontSize) maxWidth = false.
Proof.
  intros Hw. apply Qle_bool_gt.
  eapply Qlt_le_trans; [exact Hw | apply (mono a c)].
Qed.

Lemma wide_join_r a c :
  (maxWidth < measure c fontSize)%Q ->
  Qle_bool (measure (a +:+ " " +:+ c) fontSize) maxWidth = false.
Proof.
  intros Hw. apply Qle_bool_gt.
  eapply Qlt_le_trans; [exact Hw | apply (mono a c)].
Qed.

(** A wide current line is flushed as it is. *)
Lemma greedy_wide_current words cur :
  nonEmpty cur -> (maxWidth < measure cur fontSize)%Q ->
  cur ∈ greedy cur words.
Proof.
  intros Hne Hw. apply truthy_true in Hne.
  destruct words as [|word rest]; unfold greedy; simpl; rewrite Hne.
  - left.
  - rewrite (wide_join_l _ _ Hw). left.
Qed.

Lemma greedy_wide_word words : forall cur w,
  w ∈ words -> nonEmpty w -> (maxWidth < measure w fontSize)%Q ->
  w ∈ greedy cur words.
Proof.
  induction words as [|word rest IH]; intros cur w Hin Hne Hw; [list_cases|].
  unfold greedy; simpl; fold greedy.
  apply elem_of_cons in Hin as [<- | Hin].
  - destruct (truthy cur).
    + rewrite (wide_join_r _ _ Hw). right. apply greedy_wide_current; assumption.
    + apply greedy_wide_current; assumption.
  - destruct (truthy cur); [destruct (Qle_bool _ _); [|right]|]; apply IH; assumption.
Qed.

(** Under a monotone font a text measures at least what each of its
    words measures. *)
Lemma measure_word_le (n : nat) : forall s w,
  (String.length s < n)%nat -> w ∈ JS.split s ->
  (measure w fontSize <= measure s fontSize)%Q.
Proof.
  induction n as [|n IH]; intros s w Hlen Hw; [lia|].
  destruct (first_space s) as [Hs | (a & c & -> & Ha & Hl)].
  - rewrite (split_noSpace _ Hs) in Hw. list_cases. apply Qle_refl.
  - rewrite split_join, (split_noSpace _ Ha) in Hw. simpl in Hw.
    apply elem_of_cons in Hw as [-> | Hw].
    + apply (mono a c).
    + eapply Qle_trans; [apply (IH c w); [lia | exact Hw] | apply (mono a c)].
Qed.

End Monotone.

End GreedyFacts.

Section FixedFont.

Import Spec Samples.

Lemma fixedWidth_nonneg s size : (0 <= fixedWidth s size)%Q.
Proof.
  induction s as [|ch s IH]; simpl; [apply Qle_refl|].
  destruct (decide (ch = JS.space)) as [_|_]; lra.
Qed.

Lemma fixedWidth_append a c size :
  (fixedWidth (a +:+ c) size == fixedWidth a size + fixedWidth c size)%Q.
Proof.
  induction a as [|ch a IH].
  - change (EmptyString +:+ c) with c. cbn [fixedWidth]. ring.
  - change (String ch a +:+ c) with (String ch (a +:+ c)).
    cbn [fixedWidth]. rewrite IH. ring.
Qed.

Lemma fixedWidth_monotone size : monotoneFont fixedWidth size.
Proof.
  intros a c. rewrite !fixedWidth_append.
  pose proof (fixedWidth_nonneg a size). pose proof (fixedWidth_nonneg c size).
  pose proof (fixedWidth_nonneg " " size). split; lra.
Qed.

End FixedFont.

(** A written-out word has no space in it. *)
Ltac solve_noSpace :=
  repeat (apply noSpace_cons; [discriminate|]); apply noSpace_nil.

(** C6 (as the code has it). [wrapText] is greedy word wrap. For every
    text, width, font and size: (1) its lines are those of the greedy
    procedure over the pieces of the text between single spaces: the
    current line takes the next word while line, space and word together
    measure at most [maxWidth], and otherwise is flushed, the word starting
    the next line; (2) the non-empty words of the lines are, in order, the
    non-empty words of the text, so no word is cut, lost or moved; (3) a
    line wider than [maxWidth] is a single word of the text; (4) only with a
    font that measures monotonically (joining two texts with a space never
    measures less than either of them) is a non-empty word wider than
    [maxWidth] a line of its own, no line holding it together with another
    word; (5) a text of one word gives that one line whatever it measures
    (the 150-wide word at width 100); (6) when the first two words joined
    fit (85 <= 100) and the three joined do not (130 > 100), the lines are
    the first two words and then the third. *)
Theorem wrapText_greedy (measure : string -> Q -> Q) (maxWidth fontSize : Q)
    (text : string) :
  let lines := Exporter.wrapText text maxWidth measure fontSize in
  lines = Spec.greedyLines measure maxWidth fontSize EmptyString (JS.split text) /\
  filter Spec.nonEmpty (concat (JS.split <$> lines))
    = filter Spec.nonEmpty (JS.split text) /\
  (forall line, line ∈ lines ->
     line ∈ JS.split text \/ (measure line fontSize <= maxWidth)%Q) /\
  (Spec.monotoneFont measure fontSize ->
   forall w, w ∈ JS.split text -> Spec.nonEmpty w ->
     (maxWidth < measure w fontSize)%Q ->
     w ∈ lines /\ forall line, line ∈ lines -> w ∈ JS.split line -> line = w) /\
  (Spec.noSpace text -> Spec.nonEmpty text -> lines = [text]) /\
  (forall w1 w2 w3,
     Spec.noSpace w1 -> Spec.noSpace w2 -> Spec.noSpace w3 ->
     Spec.nonEmpty w1 -> Spec.nonEmpty w3 ->
     text = (w1 +:+ " " +:+ w2) +:+ " " +:+ w3 ->
     (measure (w1 +:+ " " +:+ w2) fontSize <= maxWidth)%Q ->
     (maxWidth < measure ((w1 +:+ " " +:+ w2) +:+ " " +:+ w3) fontSize)%Q ->
     lines = [w1 +:+ " " +:+ w2; w3]).
Proof.
  intros lines. subst lines. rewrite wrapText_is_greedy.
  assert (Hfit : forall line,
            line ∈ Spec.greedyLines measure maxWidth fontSize EmptyString (JS.split text) ->
            line ∈ JS.split text \/ (measure line fontSize <= maxWidth)%Q).
  { apply greedy_fits_or_word; auto. }
  split_and!.
  - reflexivity.
  - rewrite greedy_words by apply split_words_noSpace. reflexivity.
  - exact Hfit.
  - intros mono w Hw Hne Hwide. split.
    + apply greedy_wide_word; assumption.
    + intros line Hline Hin. destruct (Hfit line Hline) as [Hword | Hle].
      * rewrite (split_noSpace line) in Hin by (eapply split_words_noSpace; exact Hword).
        list_cases. reflexivity.
      * exfalso. apply (Qlt_not_le _ _ Hwide).
        eapply Qle_trans; [|exact Hle].
        apply (measure_word_le measure fontSize mono (S (String.length line))); [lia|exact Hin].
  - intros Hs Hne. rewrite (split_noSpace _ Hs). simpl.
    apply truthy_true in Hne. rewrite Hne. reflexivity.
  - intros w1 w2 w3 H1 H2 H3 Hne1 Hne3 -> Hfit12 Hwide.
    rewrite !split_join, (split_noSpace _ H1), (split_noSpace _ H2), (split_noSpace _ H3).
    simpl. apply truthy_true in Hne1, Hne3. rewrite Hne1.
    assert (E12 : Qle_bool (measure (w1 +:+ " " +:+ w2) fontSize) maxWidth = true)
      by (apply Qle_bool_iff; exact Hfit12).
    rewrite E12.
    assert (Hne12 : truthy (w1 +:+ " " +:+ w2) = true) by (destruct w1; [discriminate|reflexivity]).
    rewrite Hne12.
    rewrite (Qle_bool_gt _ _ Hwide), Hne3. reflexivity.
Qed.

Lemma wrapText_greedy_witness :
  Spec.monotoneFont Samples.fixedWidth 12 /\
  (Samples.fixedWidth "abcdefghijklmno" 12 == 150)%Q /\
  Exporter.wrapText "abcdefghijklmno" 100 Samples.fixedWidth 12 = ["abcdefghijklmno"] /\
  "abcdefghijklmno" ∈ Exporter.wrapText "ab abcdefghijklmno cd" 100 Samples.fixedWidth 12 /\
  (Samples.fixedWidth "abcd" 12 == 40)%Q /\
  (Samples.fixedWidth "abcd efgh" 12 == 85)%Q /\
  (Samples.fixedWidth "abcd efgh ijkl" 12 == 130)%Q /\
  Exporter.wrapText "abcd efgh ijkl" 100 Samples.fixedWidth 12 = ["abcd efgh"; "ijkl"].
Proof.
  split_and!.
  - apply fixedWidth_monotone.
  - reflexivity.
  - apply (proj1 (proj2 (proj2 (proj2 (proj2
             (wrapText_greedy Samples.fixedWidth 100 12 "abcdefghijklmno")))))).
    + solve_noSpace.
    + discriminate.
  - apply (proj1 (proj2 (proj2 (proj2
             (wrapText_greedy Samples.fixedWidth 100 12 "ab abcdefghijklmno cd"))))).
    + apply fixedWidth_monotone.
    + right. left.
    + discriminate.
    + reflexivity.
  - reflexivity.
  - reflexivity.
  - reflexivity.
  - apply (proj2 (proj2 (proj2 (proj2 (proj2
             (wrapText_greedy Samples.fixedWidth 100 12 "abcd efgh ijkl")))))
             "abcd" "efgh" "ijkl").
    + solve_noSpace.
    + solve_noSpace.
    + solve_noSpace.
    + discriminate.
    + discriminate.
    + reflexivity.
    + vm_compute. discriminate.
    + reflexivity.
Defined.

(** C6, refuted as stated: with widths in proportion to the size, at size
    -1 and width -20 the word "a" measures -10, wider than the width, yet
    "a b" measures -25 and the two words are one line: "a" is not a line of
    its own. *)
Lemma wrapText_wide_word_joined :
  "a" ∈ JS.split "a b" /\
  Spec.nonEmpty "a" /\
  (Samples.scaledWidth "a" (-1) == -10)%Q /\
  (-20 < Samples.scaledWidth "a" (-1))%Q /\
  (Samples.scaledWidth "a b" (-1) == -25)%Q /\
  Exporter.wrapText "a b" (-20) Samples.scaledWidth (-1) = ["a b"] /\
  ("a" ∉ Exporter.wrapText "a b" (-20) Samples.scaledWidth (-1)) /\
  ~ Spec.monotoneFont Samples.scaledWidth (-1).
Proof.
  split_and!; try reflexivity.
  - left.
  - discriminate.
  - intros H. apply list_elem_of_singleton in H. discriminate.
  - intros mono. destruct (mono "a" "b") as [H _]. revert H. apply Qlt_not_le.
    reflexivity.
Qed.

(* ===================================================================== *)
(** ** The export engine: drawing a box *)
(* ===================================================================== *)

Section Drawing.

Import Spec Exporter.

Variable round : Q -> Q.
Variable widthOfTextAtSize : StandardFonts -> string -> Q -> Q.
Variable copiedPageHeight : nat -> Q.

Lemma descend_0 top pitch : (descend top pitch 0 == top)%Q.
Proof. unfold descend. simpl. ring. Qed.

Lemma descend_S top pitch k :
  (descend top pitch (S k) == descend (top - pitch) pitch k)%Q.
Proof.
  unfold descend. rewrite Nat2Z.inj_succ, <- Z.add_1_r, inject_Z_plus.
  change (inject_Z 1) with 1%Q. ring.
Qed.

Lemma descendM_S top pitch k :
  descendM round top pitch (S k) = descendM round (round (top - pitch)%Q) pitch k.
Proof.
  induction k as [|k IH]; [reflexivity|].
  change (descendM round top pitch (S (S k)))
    with (round (descendM round top pitch (S k) - pitch)%Q).
  rewrite IH. reflexivity.
Qed.

(** Without rounding, [k] rounded steps are [k] exact steps. *)
Lemma descendM_exact top pitch k :
  (forall q, round q == q)%Q ->
  (descendM round top pitch k == descend top pitch k)%Q.
Proof.
  intros Hexact. induction k as [|k IH].
  - rewrite descend_0. reflexivity.
  - cbn [descendM]. rewrite Hexact, IH. unfold descend.
    rewrite Nat2Z.inj_succ, <- Z.add_1_r, inject_Z_plus.
    change (inject_Z 1) with 1%Q. ring.
Qed.

Lemma bottomEdgeM_exact pageHeight box :
  (forall q, round q == q)%Q ->
  (bottomEdgeM round pageHeight box == bottomEdge pageHeight box)%Q.
Proof.
  intros Hexact. unfold bottomEdgeM, bottomEdge. rewrite !Hexact. reflexivity.
Qed.

Lemma baselineM_exact pageHeight box k :
  (forall q, round q == q)%Q ->
  (baselineM round pageHeight box k == baseline pageHeight box k)%Q.
Proof.
  intros Hexact. unfold baselineM, baseline.
  rewrite descendM_exact by exact Hexact. unfold descend, firstBaselineM, pitchM,
    firstBaseline.
  rewrite !Hexact. reflexivity.
Qed.

Lemma drawLines_text textBox font textColor pdfY lineHeight lines : forall currentY,
  Forall (fun op => isText op = true)
    (drawLines round widthOfTextAtSize textBox font textColor pdfY lineHeight lines
       currentY).
Proof.
  induction lines as [|line rest IH]; intros currentY; simpl; [constructor|].
  destruct (Qlt_le_dec currentY pdfY); constructor; [reflexivity | apply IH].
Qed.

(** The loop draws the first [n] lines, line [k] at [k] rounded line
    heights below the start and not below [pdfY], at the left edge its
    alignment gives; it stops at the first line that would start below
    [pdfY]. *)
Lemma drawLines_positions textBox font textColor pdfY lineHeight lines :
  forall currentY,
  let ops :=
    drawLines round widthOfTextAtSize textBox font textColor pdfY lineHeight lines
      currentY in
  exists n,
    length ops = n /\ (n <= length lines)%nat /\
    (forall k line, (k < n)%nat -> lines !! k = Some line ->
       ops !! k
         = Some (DrawText line (lineX round widthOfTextAtSize textBox font line)
                   (descendM round currentY lineHeight k) (fontSize textBox) font
                   textColor) /\
       (pdfY <= descendM round currentY lineHeight k)%Q) /\
    ((n < length lines)%nat -> (descendM round currentY lineHeight n < pdfY)%Q).
Proof.
  induction lines as [|line rest IH]; intros currentY; simpl.
  - exists 0%nat. split_and!; [reflexivity | lia | intros; lia | simpl; lia].
  - destruct (Qlt_le_dec currentY pdfY) as [Hlow | Hok].
    + exists 0%nat. split_and!; [reflexivity | simpl; lia | intros; lia |].
      intros _. exact Hlow.
    + destruct (IH (round (currentY - lineHeight)%Q))
        as (n & Hlen & Hle & Hdrawn & Hstop).
      exists (S n). split_and!.
      * simpl. rewrite Hlen. reflexivity.
      * simpl. lia.
      * intros [|k] l Hk Hl; simpl in Hl.
        -- inversion Hl; subst l. split; [reflexivity | exact Hok].
        -- rewrite descendM_S. apply (Hdrawn k l); [lia | exact Hl].
      * intros Hn. rewrite descendM_S. apply Hstop. simpl in Hn. lia.
Qed.

(** The draw calls of a box are a segment of the calls of its page. *)
Lemma exportPDF_box (ps : list PageState) i page j box :
  ps !! i = Some page -> textBoxes page !! j = Some box ->
  exists before after,
    exportPDF round widthOfTextAtSize copiedPageHeight ps !! i
      = Some (before
                ++ drawTextBox round widthOfTextAtSize box (copiedPageHeight i)
                ++ after).
Proof.
  intros Hi Hj. unfold exportPDF. rewrite list_lookup_imap, Hi. simpl.
  set (f := fun textBox : TextBox =>
              drawTextBox round widthOfTextAtSize textBox (copiedPageHeight i)).
  exists (take j (textBoxes page) ≫= f), (drop (S j) (textBoxes page) ≫= f).
  change (drawTextBox round widthOfTextAtSize box (copiedPageHeight i)) with (f box).
  rewrite <- bind_cons, <- bind_app, (take_drop_middle _ _ _ Hj). reflexivity.
Qed.

(** The character class [[a-f\d]] under the [i] flag, digit by digit. *)
Lemma hexDigit_table (c : ascii) : JS.hexDigit c = hexValue c.
Proof.
  destruct c as [[] [] [] [] [] [] [] []]; reflexivity.
Qed.

Lemma hexValue_not_hash (c : ascii) (v : Z) : hexValue c = Some v -> c <> "#"%char.
Proof. intros H ->. vm_compute in H. discriminate H. Qed.

(** Six hexadecimal digits, with or without [#] in front, are read two by
    two and each number divided by 255. *)
Lemma hexToRgb_reads (c : string) (rv gv bv : Z) :
  readsAs c rv gv bv -> hexToRgb round c = colourOf round rv gv bv.
Proof.
  intros (body & Hc & d1 & d2 & d3 & d4 & d5 & d6 & v1 & v2 & v3 & v4 & v5 & v6
          & -> & H1 & H2 & H3 & H4 & H5 & H6 & -> & -> & ->).
  assert (Hpairs : JS.parseHexPair d1 d2 = Some (16 * v1 + v2)%Z /\
                   JS.parseHexPair d3 d4 = Some (16 * v3 + v4)%Z /\
                   JS.parseHexPair d5 d6 = Some (16 * v5 + v6)%Z).
  { unfold JS.parseHexPair. rewrite !hexDigit_table, H1, H2, H3, H4, H5, H6.
    split_and!; reflexivity. }
  destruct Hpairs as (P1 & P2 & P3).
  destruct Hc as [-> | ->]; unfold hexToRgb.
  - destruct (decide (d1 = "#"%char)) as [E|_];
      [exfalso; exact (hexValue_not_hash _ _ H1 E)|].
    rewrite P1, P2, P3. reflexivity.
  - destruct (decide ("#"%char = "#"%char)) as [_|E]; [|congruence].
    rewrite P1, P2, P3. reflexivity.
Qed.

(** Anything else is black. *)
Lemma hexToRgb_unread (c : string) :
  (forall rv gv bv, ~ readsAs c rv gv bv) -> hexToRgb round c = Props.black.
Proof.
  intros Hno. unfold hexToRgb.
  set (digits := match c with
                 | String ch rest => if decide (ch = "#"%char) then rest else c
                 | EmptyString => c
                 end).
  assert (Hdigits : c = digits \/ c = String "#"%char digits).
  { subst digits. destruct c as [|ch rest]; [left; reflexivity|].
    destruct (decide (ch = "#"%char)) as [->|_]; [right|left]; reflexivity. }
  clearbody digits.
  destruct digits as [|r1 [|r2 [|g1 [|g2 [|b1 [|b2 [|extra more]]]]]]];
    try reflexivity.
  destruct (JS.parseHexPair r1 r2) as [rv|] eqn:P1; [|reflexivity].
  destruct (JS.parseHexPair g1 g2) as [gv|] eqn:P2; [|reflexivity].
  destruct (JS.parseHexPair b1 b2) as [bv|] eqn:P3; [|reflexivity].
  exfalso. apply (Hno rv gv bv).
  unfold JS.parseHexPair in P1, P2, P3. rewrite !hexDigit_table in P1, P2, P3.
  destruct (hexValue r1) as [v1|] eqn:H1; [|discriminate].
  destruct (hexValue r2) as [v2|] eqn:H2; [|discriminate].
  destruct (hexValue g1) as [v3|] eqn:H3; [|discriminate].
  destruct (hexValue g2) as [v4|] eqn:H4; [|discriminate].
  destruct (hexValue b1) as [v5|] eqn:H5; [|discriminate].
  destruct (hexValue b2) as [v6|] eqn:H6; [|discriminate].
  inversion P1; inversion P2; inversion P3; subst rv gv bv.
  eexists; split; [exact Hdigits|].
  exists r1, r2, g1, g2, b1, b2, v1, v2, v3, v4, v5, v6.
  split_and!; reflexivity || assumption.
Qed.

Lemma sixHex_white : readsAs "#FFFFFF" 255 255 255.
Proof.
  exists "FFFFFF". split; [right; reflexivity|].
  exists "F"%char, "F"%char, "F"%char, "F"%char, "F"%char, "F"%char,
    15%Z, 15%Z, 15%Z, 15%Z, 15%Z, 15%Z.
  split_and!; reflexivity.
Qed.

Lemma hexToRgb_white : hexToRgb round "#FFFFFF" = colourOf round 255 255 255.
Proof. apply hexToRgb_reads, sixHex_white. Qed.

Lemma colourOf_white :
  (forall q, q == 1 -> round q == 1)%Q ->
  (r (colourOf round 255 255 255) == 1)%Q /\
  (g (colourOf round 255 255 255) == 1)%Q /\
  (b (colourOf round 255 255 255) == 1)%Q.
Proof. intros Hone. cbn [colourOf r g b]. split_and!; apply Hone; reflexivity. Qed.

End Drawing.

(** C7. For every box of every exported page and every rounding of the
    arithmetic, the draw calls of the box are a segment of the page's calls;
    when the box has mode replace they start with one filled rectangle at
    the box's x, at [pageHeight - box.y - box.height] as the program computes
    it, of the box's width and height, and every call after it is a text
    call. The rectangle's colour is the one [backgroundColor] writes: when
    it is six hexadecimal digits, with or without [#] in front, the three
    numbers its pairs of digits stand for, each divided by 255; when it is
    any other non-empty string, black; when it is absent (or empty), the
    colour of [#FFFFFF], 255 / 255 on every channel, which is 1, pure white,
    as soon as the rounding keeps 1. When the box has mode overlay every
    call is a text call. *)
Theorem replace_rectangle_precedes_text
    (round : Q -> Q)
    (widthOfTextAtSize : Exporter.StandardFonts -> string -> Q -> Q)
    (copiedPageHeight : nat -> Q)
    (ps : list PageState) (i : nat) (page : PageState) (j : nat) (box : TextBox) :
  ps !! i = Some page -> textBoxes page !! j = Some box ->
  let pageHeight := copiedPageHeight i in
  let boxOps := Exporter.drawTextBox round widthOfTextAtSize box pageHeight in
  (exists before after,
     Exporter.exportPDF round widthOfTextAtSize copiedPageHeight ps !! i
       = Some (before ++ boxOps ++ after)) /\
  (mode box = replace ->
     exists colour textOps,
       boxOps = Exporter.DrawRectangle (x box)
                  (Spec.bottomEdgeM round pageHeight box)
                  (width box) (height box) colour :: textOps /\
       Forall (fun op => Exporter.isText op = true) textOps /\
       (forall c, backgroundColor box = Some c -> Spec.nonEmpty c ->
          (forall rv gv bv, Spec.readsAs c rv gv bv ->
             colour = Spec.colourOf round rv gv bv) /\
          ((forall rv gv bv, ~ Spec.readsAs c rv gv bv) -> colour = Props.black)) /\
       (backgroundColor box = None \/ backgroundColor box = Some EmptyString ->
          colour = Spec.colourOf round 255 255 255 /\
          ((forall q, q == 1 -> round q == 1)%Q ->
             (Exporter.r colour == 1)%Q /\ (Exporter.g colour == 1)%Q /\
             (Exporter.b colour == 1)%Q)) /\
       ((forall q, round q == q)%Q ->
          (Spec.bottomEdgeM round pageHeight box
             == pageHeight - y box - height box)%Q)) /\
  (mode box = overlay ->
     Forall (fun op => Exporter.isText op = true) boxOps).
Proof.
  intros Hi Hj pageHeight boxOps. split_and!.
  - exact (exportPDF_box round widthOfTextAtSize copiedPageHeight ps i page j box Hi Hj).
  - intros Hmode. subst boxOps. unfold Exporter.drawTextBox. rewrite Hmode.
    eexists _, _. split_and!.
    + reflexivity.
    + apply drawLines_text.
    + intros c Hc Hne. unfold Exporter.backgroundOrWhite. rewrite Hc.
      apply truthy_true in Hne. rewrite Hne. split.
      * intros rv gv bv. apply hexToRgb_reads.
      * apply hexToRgb_unread.
    + intros Hc.
      assert (Hwhite : Exporter.backgroundOrWhite box = "#FFFFFF")
        by (unfold Exporter.backgroundOrWhite; destruct Hc as [-> | ->]; reflexivity).
      rewrite Hwhite, hexToRgb_white. split; [reflexivity | apply colourOf_white].
    + apply bottomEdgeM_exact.
  - intros Hmode. subst boxOps. unfold Exporter.drawTextBox. rewrite Hmode.
    apply drawLines_text.
Qed.

Lemma replace_rectangle_precedes_text_witness :
  pages Samples.sampleDoc !! 0%nat
    = Some (Samples.letterPage 0 [Samples.sampleBox; Samples.otherBox]) /\
  [Samples.sampleBox; Samples.otherBox] !! 1%nat = Some Samples.otherBox /\
  mode Samples.otherBox = replace /\
  backgroundColor Samples.otherBox = Some "#EEEEEE" /\
  Spec.nonEmpty "#EEEEEE" /\
  Spec.readsAs "#EEEEEE" 238 238 238 /\
  exists textOps,
    Exporter.drawTextBox Samples.binary64 Samples.fixedFont Samples.otherBox 792
      = Exporter.DrawRectangle 10 452 120 40
          {| Exporter.r := 4203359652212463 # 4503599627370496;
             Exporter.g := 4203359652212463 # 4503599627370496;
             Exporter.b := 4203359652212463 # 4503599627370496 |} :: textOps /\
    Forall (fun op => Exporter.isText op = true) textOps.
Proof.
  assert (Hreads : Spec.readsAs "#EEEEEE" 238 238 238).
  { exists "EEEEEE". split; [right; reflexivity|].
    exists "E"%char, "E"%char, "E"%char, "E"%char, "E"%char, "E"%char,
      14%Z, 14%Z, 14%Z, 14%Z, 14%Z, 14%Z.
    split_and!; reflexivity. }
  split_and!; try reflexivity; [discriminate | exact Hreads |].
  destruct (proj1 (proj2 (replace_rectangle_precedes_text Samples.binary64
                            Samples.fixedFont Samples.letterHeight
                            (pages Samples.sampleDoc) 0%nat
                            (Samples.letterPage 0 [Samples.sampleBox; Samples.otherBox])
                            1%nat Samples.otherBox eq_refl eq_refl)) eq_refl)
    as (colour & textOps & Hops & Htext & Hcolour & _).
  exists textOps. split; [|exact Htext].
  etransitivity; [exact Hops|].
  rewrite (proj1 (Hcolour "#EEEEEE" eq_refl ltac:(discriminate)) 238 238 238 Hreads)%Z.
  vm_compute. reflexivity.
Defined.

(** C9. For every box of every exported page and every rounding of the
    arithmetic, the draw calls of the box are the rectangle calls (at most
    one, at y = [pageHeight - box.y - box.height]) followed by the text
    calls, and the text calls are the first [n] wrapped lines in order: the
    first is drawn with its baseline at
    [pageHeight - box.y - box.height + box.height - fontSize - 2], each later
    one [fontSize * 1.2] below the one before, every difference, sum and
    product being the program's (rounded) one, and no drawn baseline is
    below the bottom edge [pageHeight - box.y - box.height]; when lines
    remain ([n] is less than their number), the baseline line [n] would get
    is below the bottom edge, and neither it nor any later line is drawn.
    Without rounding the bottom edge is [pageHeight - box.y - box.height]
    and the baseline of line [k] is the first baseline lowered by [k] times
    [fontSize * 1.2]. *)
Theorem lines_drawn_top_down
    (round : Q -> Q)
    (widthOfTextAtSize : Exporter.StandardFonts -> string -> Q -> Q)
    (copiedPageHeight : nat -> Q)
    (ps : list PageState) (i : nat) (page : PageState) (j : nat) (box : TextBox) :
  ps !! i = Some page -> textBoxes page !! j = Some box ->
  let pageHeight := copiedPageHeight i in
  let font := Exporter.getFontForFamily (fontFamily box) in
  let lines :=
    Exporter.wrapText (text box) (round (width box - 4)%Q) (widthOfTextAtSize font)
      (fontSize box) in
  let bottom := Spec.bottomEdgeM round pageHeight box in
  let baseline := Spec.baselineM round pageHeight box in
  exists before after rect textOps n,
    Exporter.exportPDF round widthOfTextAtSize copiedPageHeight ps !! i
      = Some (before ++ Exporter.drawTextBox round widthOfTextAtSize box pageHeight
                ++ after) /\
    Exporter.drawTextBox round widthOfTextAtSize box pageHeight = rect ++ textOps /\
    (length rect <= 1)%nat /\
    (forall op, op ∈ rect ->
       exists w h c, op = Exporter.DrawRectangle (x box) bottom w h c) /\
    length textOps = n /\ (n <= length lines)%nat /\
    (forall k line, (k < n)%nat -> lines !! k = Some line ->
       exists tx,
         textOps !! k
           = Some (Exporter.DrawText line tx (baseline k) (fontSize box) font
                     (Exporter.hexToRgb round (color box))) /\
         (bottom <= baseline k)%Q) /\
    ((n < length lines)%nat -> (baseline n < bottom)%Q) /\
    baseline 0%nat = Spec.firstBaselineM round pageHeight box /\
    (forall k, baseline (S k) = round (baseline k - Spec.pitchM round box)%Q) /\
    ((forall q, round q == q)%Q ->
       (bottom == pageHeight - y box - height box)%Q /\
       (Spec.pitchM round box == fontSize box * (12 # 10))%Q /\
       forall k,
         (baseline k
            == pageHeight - y box - height box + height box - fontSize box - 2
               - inject_Z (Z.of_nat k) * (fontSize box * (12 # 10)))%Q).
Proof.
  intros Hi Hj pageHeight font lines bottom baseline.
  destruct (exportPDF_box round widthOfTextAtSize copiedPageHeight ps i page j box Hi Hj)
    as (before & after & Hexport).
  exists before, after.
  unfold Exporter.drawTextBox in *.
  destruct (drawLines_positions round widthOfTextAtSize box font
              (Exporter.hexToRgb round (color box)) bottom
              (Spec.pitchM round box) lines
              (Spec.firstBaselineM round pageHeight box))
    as (n & Hlen & Hle & Hdrawn & Hstop).
  eexists _, _, n. split_and!.
  - exact Hexport.
  - reflexivity.
  - destruct (mode box); simpl; lia.
  - intros op Hop. destruct (mode box); list_cases. eauto.
  - exact Hlen.
  - exact Hle.
  - intros k line Hk Hline. destruct (Hdrawn k line Hk Hline) as [Hop Hge].
    eexists. split; [exact Hop | exact Hge].
  - exact Hstop.
  - reflexivity.
  - reflexivity.
  - intros Hexact. split_and!.
    + apply bottomEdgeM_exact, Hexact.
    + unfold Spec.pitchM. rewrite !Hexact. reflexivity.
    + intros k. subst baseline. rewrite baselineM_exact by exact Hexact.
      unfold Spec.baseline, Spec.descend, Spec.firstBaseline. reflexivity.
Qed.

Lemma lines_drawn_top_down_witness :
  [Samples.letterPage 0 [Samples.tightBox]] !! 0%nat
    = Some (Samples.letterPage 0 [Samples.tightBox]) /\
  [Samples.tightBox] !! 0%nat = Some Samples.tightBox /\
  Exporter.wrapText (text Samples.tightBox) (Samples.binary64 (14 - 4))
    (Samples.fixedFont Exporter.SF_Helvetica) 6
    = ["a"; "b"; "c"; "d"; "e"; "f"] /\
  Spec.bottomEdgeM Samples.binary64 792 Samples.tightBox = 676%Q /\
  Spec.baselineM Samples.binary64 792 Samples.tightBox 0 = 712%Q /\
  Spec.baselineM Samples.binary64 792 Samples.tightBox 5
    = (2973079441506303 # 4398046511104)%Q /\
  length (Exporter.drawTextBox Samples.binary64 Samples.fixedFont Samples.tightBox 792)
    = 5%nat /\
  length (Exporter.drawTextBox Samples.exact Samples.fixedFont Samples.tightBox 792)
    = 6%nat /\
  exists rect textOps n,
    Exporter.drawTextBox Samples.binary64 Samples.fixedFont Samples.tightBox 792
      = rect ++ textOps /\
    length textOps = n /\
    ((n < 6)%nat ->
       (Spec.baselineM Samples.binary64 792 Samples.tightBox n
          < Spec.bottomEdgeM Samples.binary64 792 Samples.tightBox)%Q).
Proof.
  do 8 (split; [vm_compute; reflexivity|]).
  destruct (lines_drawn_top_down Samples.binary64 Samples.fixedFont
              Samples.letterHeight
              [Samples.letterPage 0 [Samples.tightBox]] 0%nat
              (Samples.letterPage 0 [Samples.tightBox]) 0%nat Samples.tightBox
              eq_refl eq_refl)
    as (_ & _ & rect & textOps & n & _ & Hops & _ & _ & Hlen & _ & _ & Hstop & _).
  exists rect, textOps, n. split_and!; [exact Hops | exact Hlen |].
  intros Hn. apply Hstop.
  replace (length _) with 6%nat by (vm_compute; reflexivity). exact Hn.
Defined.

(* ===================================================================== *)
(** ** The toolbar: export name and font size *)
(* ===================================================================== *)

Section ToolbarFacts.

Import Spec Toolbar.

(** The stored default size is clamped, whatever number is entered. *)
Lemma setDefaultFontSize_in_range (size : Q) (p : EditorPreferences) :
  fontSizeInRange (defaultFontSize (setDefaultFontSize size p)).
Proof.
  unfold fontSizeInRange. simpl. split.
  - apply Q.le_max_l.
  - apply Q.max_lub; [discriminate | apply Q.le_min_l].
Qed.

(** A box created by a click takes the default size as it is. *)
Lemma handlePageClick_font_size newId pageIdx clickX clickY doc prefs page :
  activeTool prefs = textTool -> pages doc !! pageIdx = Some page ->
  exists page',
    pages (fst (PDFPage.handlePageClick newId pageIdx clickX clickY (doc, prefs)))
      !! pageIdx = Some page' /\
    exists box, last (textBoxes page') = Some box /\
                id box = newId /\ fontSize box = defaultFontSize prefs.
Proof.
  intros Htool Hpage. unfold PDFPage.handlePageClick. rewrite Htool, Hpage.
  cbn [fst]. unfold addTextBox. cbn [pageIndex pages saveHistory set_history].
  assert (Hlt : (pageIdx < length (pages doc))%nat)
    by (apply lookup_lt_is_Some; eauto).
  rewrite !bool_decide_eq_true_2 by lia. cbn [andb].
  rewrite Nat2Z.id, Hpage.
  assert (Hpg : forall d, pages (enterEditMode d) = pages d).
  { intros d. unfold enterEditMode.
    destruct (selectedBoxId (selection d)) as [b|]; [|reflexivity].
    destruct (truthy b); reflexivity. }
  rewrite Hpg. cbn [selectTextBox set_selection set_pages pages].
  rewrite list_lookup_insert_eq by exact Hlt.
  eexists; split; [reflexivity|]. cbn [textBoxes set_textBoxes].
  eexists; split; [apply last_snoc|]. split; reflexivity.
Qed.

(** On a name whose only dot is the one of a trailing [.pdf], the export
    name is the name without [.pdf], followed by [_edited.pdf]. *)
Lemma exportFileName_plain_name (base : string) :
  hasChar "."%char base = false ->
  exportFileName (Some (base +:+ ".pdf")) = base +:+ "_edited.pdf".
Proof.
  intros Hdot. unfold exportFileName.
  assert (Ht : truthy (base +:+ ".pdf") = true) by (destruct base; reflexivity).
  rewrite Ht. clear Ht.
  induction base as [|ch base IH]; [reflexivity|].
  simpl in Hdot. destruct (decide (ch = "."%char)) as [|Hne]; [discriminate|].
  change (String ch base +:+ ".pdf") with (String ch (base +:+ ".pdf")).
  change (String ch base +:+ "_edited.pdf") with (String ch (base +:+ "_edited.pdf")).
  cbn [JS.replace String.prefix].
  destruct (ascii_dec "."%char ch) as [E|_]; [congruence|].
  rewrite (IH Hdot). reflexivity.
Qed.

End ToolbarFacts.

(** C4, at inputs where the code departs from it. [handleExport] replaces
    the first [.pdf] of the name, wherever it stands: a name with [.pdf]
    in the middle keeps its trailing [.pdf] and gets [_edited] in the
    middle, and a name without [.pdf] is passed on unchanged, without
    [_edited.pdf]; the name asked for is the original without its trailing
    [.pdf], followed by [_edited.pdf]. The two agree on a plain name, and
    without a name the download is called [edited.pdf]. *)
Theorem exportFileName_replaces_first_occurrence :
  Toolbar.exportFileName (Some "scan.pdf.backup.pdf") = "scan_edited.pdf.backup.pdf" /\
  Spec.editedName (Some "scan.pdf.backup.pdf") = "scan.pdf.backup_edited.pdf" /\
  Toolbar.exportFileName (Some "notes.txt") = "notes.txt" /\
  Spec.editedName (Some "notes.txt") = "notes.txt_edited.pdf" /\
  Toolbar.exportFileName (Some "report.pdf") = "report_edited.pdf" /\
  Spec.editedName (Some "report.pdf") = "report_edited.pdf" /\
  Toolbar.exportFileName None = "edited.pdf" /\
  Toolbar.exportFileName (Some "") = "edited.pdf".
Proof. split_and!; reflexivity. Qed.

(** C5, at an input where the code departs from it. With box "b1" selected,
    entering 500 in the font size field stores 500 on the box, outside the
    range from 1 to 200, while the same call stores the clamped 200 as the
    default size; entering 0 stores 0 on the box. Before the call every box
    of the document is in range. *)
Theorem updateFontSize_stores_unclamped :
  let st := (Samples.sampleDoc, initialPreferences) in
  Spec.boxesInRange Samples.sampleDoc /\
  Toolbar.selectedBox Samples.sampleDoc = Some Samples.sampleBox /\
  (fontSize <$> (pages (fst (Toolbar.updateFontSize 500 st)) ≫= textBoxes))
    = [500%Q; 10%Q] /\
  ~ Spec.boxesInRange (fst (Toolbar.updateFontSize 500 st)) /\
  defaultFontSize (snd (Toolbar.updateFontSize 500 st)) = 200%Q /\
  (fontSize <$> (pages (fst (Toolbar.updateFontSize 0 st)) ≫= textBoxes))
    = [0%Q; 10%Q] /\
  ~ Spec.boxesInRange (fst (Toolbar.updateFontSize 0 st)).
Proof.
  split_and!; try reflexivity.
  - intros page box Hp Hb. simpl in Hp. list_cases; simpl in Hb; list_cases;
      unfold Spec.fontSizeInRange; simpl; split; discriminate.
  - intros H.
    destruct (H (Samples.letterPage 0
                   [spread Samples.sampleBox (Toolbar.fontSizeUpdate 500);
                    Samples.otherBox])
                (spread Samples.sampleBox (Toolbar.fontSizeUpdate 500)))
      as [_ Hle]; [left | left |].
    apply Hle. reflexivity.
  - intros H.
    destruct (H (Samples.letterPage 0
                   [spread Samples.sampleBox (Toolbar.fontSizeUpdate 0);
                    Samples.otherBox])
                (spread Samples.sampleBox (Toolbar.fontSizeUpdate 0)))
      as [Hge _]; [left | left |].
    apply Hge. reflexivity.
Qed.

(* ===================================================================== *)
(** ** utils/helpers.ts: geometry *)
(* ===================================================================== *)

(** X1. [clamp(value, min, max)] lies between [min] and [max] whenever
    [min <= max] and returns a value in that range unchanged; with inverted
    bounds ([max < min]) it returns [max] for every value. *)
Theorem clamp_bounds (value lo hi : Q) :
  ((lo <= hi)%Q -> (lo <= Helpers.clamp value lo hi)%Q /\ (Helpers.clamp value lo hi <= hi)%Q) /\
  ((lo <= value)%Q -> (value <= hi)%Q -> (Helpers.clamp value lo hi == value)%Q) /\
  ((hi < lo)%Q -> (Helpers.clamp value lo hi == hi)%Q).
Proof.
  unfold Helpers.clamp.
  destruct (Q.max_spec value lo) as [[H1 E1] | [H1 E1]],
           (Q.min_spec (Qmax value lo) hi) as [[H2 E2] | [H2 E2]];
    rewrite E2 in *; rewrite E1 in *; split_and!; intros; try split; lra.
Qed.

Lemma clamp_bounds_witness :
  ((1 # 4) <= 4)%Q /\
  ((1 # 4) <= Helpers.clamp 10 (1 # 4) 4)%Q /\ (Helpers.clamp 10 (1 # 4) 4 <= 4)%Q /\
  (4 < 5)%Q /\ (Helpers.clamp 0 5 4 == 4)%Q.
Proof.
  assert (H1 : ((1 # 4) <= 4)%Q) by discriminate.
  assert (H2 : (4 < 5)%Q) by reflexivity.
  destruct (proj1 (clamp_bounds 10 (1 # 4) 4) H1) as [Ha Hb].
  pose proof (proj2 (proj2 (clamp_bounds 0 5 4)) H2) as Hc.
  split_and!; assumption.
Defined.

(** X2. [setZoom] stores a zoom between 0.25 and 4 for every number, stores
    a number already in that range as it is, and agrees with
    [clamp(zoom, 0.25, 4)] of the helpers although the two nest [min] and
    [max] the other way round. *)
Theorem setZoom_clamps_to_range (z : Q) (s : DocumentState) :
  ((1 # 4) <= zoom (setZoom z s))%Q /\ (zoom (setZoom z s) <= 4)%Q /\
  (zoom (setZoom z s) == Helpers.clamp z (1 # 4) 4)%Q /\
  (((1 # 4) <= z)%Q -> (z <= 4)%Q -> (zoom (setZoom z s) == z)%Q).
Proof.
  unfold Helpers.clamp. cbn [zoom setZoom].
  destruct (Q.min_spec 4 z) as [[H1 E1] | [H1 E1]],
           (Q.max_spec (1 # 4) (Qmin 4 z)) as [[H2 E2] | [H2 E2]],
           (Q.max_spec z (1 # 4)) as [[H3 E3] | [H3 E3]],
           (Q.min_spec (Qmax z (1 # 4)) 4) as [[H4 E4] | [H4 E4]];
    rewrite E4 in *; rewrite E3 in *; rewrite E2 in *; rewrite E1 in *;
    split_and!; intros; lra.
Qed.

Lemma setZoom_clamps_to_range_witness :
  ((1 # 4) <= 2)%Q /\ (2 <= 4)%Q /\ (zoom (setZoom 2 initialState) == 2)%Q.
Proof.
  assert (H1 : ((1 # 4) <= 2)%Q) by discriminate.
  assert (H2 : (2 <= 4)%Q) by discriminate.
  split_and!; [exact H1 | exact H2 |].
  exact (proj2 (proj2 (proj2 (setZoom_clamps_to_range 2 initialState))) H1 H2).
Defined.

(** X3. For a zoom other than 0, [pdfToScreen] undoes [screenToPDF] and
    [screenToPDF] undoes [pdfToScreen], for every point and container
    offset. *)
Theorem screen_pdf_round_trip (px py zoomLevel : Q) (offset : Q * Q) :
  ~ (zoomLevel == 0)%Q ->
  let there := Helpers.screenToPDF px py zoomLevel offset in
  let back := Helpers.pdfToScreen (fst there) (snd there) zoomLevel offset in
  let out := Helpers.pdfToScreen px py zoomLevel offset in
  let home := Helpers.screenToPDF (fst out) (snd out) zoomLevel offset in
  (fst back == px)%Q /\ (snd back == py)%Q /\
  (fst home == px)%Q /\ (snd home == py)%Q.
Proof.
  intros Hz. destruct offset as [ox oy]. cbn.
  split_and!; field; exact Hz.
Qed.

Lemma screen_pdf_round_trip_witness :
  ~ (2 == 0)%Q /\
  (fst (Helpers.pdfToScreen (fst (Helpers.screenToPDF 30 40 2 (10, 20)%Q))
          (snd (Helpers.screenToPDF 30 40 2 (10, 20)%Q)) 2 (10, 20)%Q) == 30)%Q.
Proof.
  assert (H : ~ (2 == 0)%Q) by discriminate.
  split; [exact H|].
  exact (proj1 (screen_pdf_round_trip 30 40 2 (10, 20)%Q H)).
Defined.

(** X4. [isPointInRect] includes the border, the far edges being the sums
    [rect.x + rect.width] and [rect.y + rect.height] as the program computes
    them. For every rounding of the two sums: with a rounding that is
    monotone and keeps the rectangle's x and y, a rectangle of non-negative
    width and height contains its four corners; a rectangle whose far edge
    is computed before its near edge contains no point at all; without
    rounding that is every rectangle of negative width or negative
    height. *)
Theorem isPointInRect_corners (round : Q -> Q) (rect : Helpers.Rect) :
  let x0 := Helpers.rectX rect in
  let y0 := Helpers.rectY rect in
  let x1 := round (x0 + Helpers.rectWidth rect)%Q in
  let y1 := round (y0 + Helpers.rectHeight rect)%Q in
  ((forall p q, p <= q -> round p <= round q)%Q ->
   (round x0 == x0)%Q -> (round y0 == y0)%Q ->
   (0 <= Helpers.rectWidth rect)%Q -> (0 <= Helpers.rectHeight rect)%Q ->
     Helpers.isPointInRect round (x0, y0) rect = true /\
     Helpers.isPointInRect round (x1, y0) rect = true /\
     Helpers.isPointInRect round (x0, y1) rect = true /\
     Helpers.isPointInRect round (x1, y1) rect = true) /\
  ((x1 < x0)%Q \/ (y1 < y0)%Q ->
     forall point, Helpers.isPointInRect round point rect = false) /\
  ((forall q, round q == q)%Q ->
   (Helpers.rectWidth rect < 0)%Q \/ (Helpers.rectHeight rect < 0)%Q ->
     forall point, Helpers.isPointInRect round point rect = false).
Proof.
  intros x0 y0 x1 y1. unfold Helpers.isPointInRect. fold x0 y0 x1 y1.
  split_and!.
  - intros Hmono Hx Hy Hw Hh. cbn [fst snd].
    assert (Hx1 : (x0 <= x1)%Q).
    { rewrite <- Hx. apply Hmono. lra. }
    assert (Hy1 : (y0 <= y1)%Q).
    { rewrite <- Hy. apply Hmono. lra. }
    split_and!; rewrite !andb_true_iff, !Qle_bool_iff; split_and!;
      assumption || apply Qle_refl.
  - intros Hneg [qx qy]. cbn [fst snd].
    apply not_true_is_false. rewrite !andb_true_iff, !Qle_bool_iff.
    intros [[[H1 H2] H3] H4]. destruct Hneg; lra.
  - intros Hexact Hneg [qx qy]. cbn [fst snd].
    apply not_true_is_false. rewrite !andb_true_iff, !Qle_bool_iff.
    intros [[[H1 H2] H3] H4]. subst x1 y1. rewrite Hexact in H2, H4.
    destruct Hneg; lra.
Qed.

(** A rectangle of width -5 contains no point; in binary64 the rectangle at
    x = 1 of width -1e-17 has its far edge computed at 1 and contains the
    point (1, 0), which without rounding it does not. *)
Lemma isPointInRect_corners_witness :
  ((Samples.binary64 (0 + - (5)) < 0)%Q \/ (Samples.binary64 (0 + 3) < 0)%Q) /\
  Helpers.isPointInRect Samples.binary64 (1, 1)%Q (Helpers.mkRect 0 0 (- (5)) 3)
    = false /\
  (0 < Samples.binary64 (1 # 100000000000000000))%Q /\
  Helpers.isPointInRect Samples.binary64 (1, 0)%Q
    (Helpers.mkRect 1 0 (- Samples.binary64 (1 # 100000000000000000)) 1) = true /\
  Helpers.isPointInRect Samples.exact (1, 0)%Q
    (Helpers.mkRect 1 0 (- Samples.binary64 (1 # 100000000000000000)) 1) = false.
Proof.
  assert (H : (Samples.binary64 (0 + - (5)) < 0)%Q \/ (Samples.binary64 (0 + 3) < 0)%Q)
    by (left; vm_compute; reflexivity).
  split; [exact H|]. split.
  - exact (proj1 (proj2 (isPointInRect_corners Samples.binary64
                           (Helpers.mkRect 0 0 (- (5)) 3))) H (1, 1)%Q).
  - split_and!; vm_compute; reflexivity.
Defined.

(* ===================================================================== *)
(** ** The document store: one step of history *)
(* ===================================================================== *)

(** X5. When there is something to undo, [undo] followed by [redo] brings
    back the pages and both history lists exactly; when there is something
    to redo, [redo] followed by [undo] does the same. *)
Theorem undo_redo_round_trip (s : DocumentState) :
  (past (history s) <> [] ->
     pages (redo (undo s)) = pages s /\
     past (history (redo (undo s))) = past (history s) /\
     future (history (redo (undo s))) = future (history s)) /\
  (future (history s) <> [] ->
     pages (undo (redo s)) = pages s /\
     past (history (undo (redo s))) = past (history s) /\
     future (history (undo (redo s))) = future (history s)).
Proof.
  split.
  - intros Hne.
    destruct (past (history s)) as [|h0 rest] eqn:E using rev_ind; [contradiction|].
    clear IHrest Hne.
    destruct (undo_snoc s _ _ E) as (Hpg & Hpast & Hfut).
    unfold redo at 1 2 3. rewrite Hfut. cbn.
    rewrite Hpast, Hpg, snapshot_eta. auto.
  - intros Hne. destruct (future (history s)) as [|next rest] eqn:E; [contradiction|].
    assert (Hr : pages (redo s) = hpages next /\
                 past (history (redo s)) = past (history s) ++ [{| hpages := pages s |}] /\
                 future (history (redo s)) = rest).
    { unfold redo. rewrite E. cbn. auto. }
    destruct Hr as (Hpg & Hpast & Hfut).
    destruct (undo_snoc (redo s) _ _ Hpast) as (Upg & Upast & Ufut).
    rewrite Upg, Upast, Ufut, Hpg, Hfut, snapshot_eta. auto.
Qed.

Lemma undo_redo_round_trip_witness :
  past (history (saveHistory Samples.sampleDoc)) <> [] /\
  pages (redo (undo (saveHistory Samples.sampleDoc))) = pages (saveHistory Samples.sampleDoc).
Proof.
  assert (H : past (history (saveHistory Samples.sampleDoc)) <> []) by discriminate.
  split; [exact H|].
  exact (proj1 (proj1 (undo_redo_round_trip (saveHistory Samples.sampleDoc)) H)).
Defined.

(** X6. [undo] with an empty past and [redo] with an empty future change
    nothing at all; otherwise each moves exactly one snapshot between the
    two lists, so together the lists always hold the same number of
    snapshots as before. *)
Theorem history_moves_one_snapshot (s : DocumentState) :
  (past (history s) = [] -> undo s = s) /\
  (future (history s) = [] -> redo s = s) /\
  (past (history s) <> [] ->
     S (length (past (history (undo s)))) = length (past (history s)) /\
     length (future (history (undo s))) = S (length (future (history s)))) /\
  (future (history s) <> [] ->
     length (past (history (redo s))) = S (length (past (history s))) /\
     S (length (future (history (redo s)))) = length (future (history s))) /\
  (length (past (history (undo s))) + length (future (history (undo s)))
     = length (past (history s)) + length (future (history s)))%nat /\
  (length (past (history (redo s))) + length (future (history (redo s)))
     = length (past (history s)) + length (future (history s)))%nat.
Proof.
  assert (Hu : past (history s) <> [] ->
               S (length (past (history (undo s)))) = length (past (history s)) /\
               length (future (history (undo s))) = S (length (future (history s)))).
  { intros Hne.
    destruct (past (history s)) as [|h0 rest] eqn:E using rev_ind; [contradiction|].
    destruct (undo_snoc s _ _ E) as (_ & Hpast & Hfut).
    rewrite Hpast, Hfut, length_app. simpl. lia. }
  assert (Hr : future (history s) <> [] ->
               length (past (history (redo s))) = S (length (past (history s))) /\
               S (length (future (history (redo s)))) = length (future (history s))).
  { intros Hne. destruct (future (history s)) as [|next rest] eqn:E; [contradiction|].
    unfold redo. rewrite E. cbn. rewrite length_app. simpl. lia. }
  assert (Hu0 : past (history s) = [] -> undo s = s)
    by (intros E; unfold undo; rewrite E; reflexivity).
  assert (Hr0 : future (history s) = [] -> redo s = s)
    by (intros E; unfold redo; rewrite E; reflexivity).
  split_and!; try assumption.
  - destruct (past (history s)) as [|h0 rest] eqn:E.
    + rewrite (Hu0 eq_refl), E. reflexivity.
    + destruct Hu as [H1 H2]; [discriminate|]. lia.
  - destruct (future (history s)) as [|h0 rest] eqn:E.
    + rewrite (Hr0 eq_refl), E. reflexivity.
    + destruct Hr as [H1 H2]; [discriminate|]. lia.
Qed.

Lemma history_moves_one_snapshot_witness :
  past (history Samples.sampleDoc) = [] /\ undo Samples.sampleDoc = Samples.sampleDoc.
Proof.
  split; [reflexivity|].
  exact (proj1 (history_moves_one_snapshot Samples.sampleDoc) eq_refl).
Defined.

(** X7. A new edit after an undo discards what could be redone: after
    [saveHistory] and any add, update or delete, [redo] changes nothing and
    one [undo] gives back the pages the edit started from, whatever the
    history held before. *)
Theorem edit_truncates_redo (s : DocumentState) (m : Mutation) :
  future (history (edit s m)) = [] /\
  canRedo (history (edit s m)) = false /\
  redo (edit s m) = edit s m /\
  pages (undo (edit s m)) = pages s /\
  past (history (undo (edit s m))) = past (history s).
Proof.
  pose proof (edit_history s m) as Hh.
  assert (Hf : future (history (edit s m)) = []) by (rewrite Hh; reflexivity).
  assert (Hp : past (history (edit s m)) = past (history s) ++ [{| hpages := pages s |}])
    by (rewrite Hh; reflexivity).
  destruct (undo_snoc _ _ _ Hp) as (Hpg & Hpast & _).
  split_and!.
  - exact Hf.
  - rewrite Hh. reflexivity.
  - unfold redo. rewrite Hf. reflexivity.
  - exact Hpg.
  - exact Hpast.
Qed.

(* ===================================================================== *)
(** ** The document store: invariants over sequences of actions *)
(* ===================================================================== *)

Section RunInvariants.

Import Actions Props.

Lemma run_snoc actions a s : run (actions ++ [a]) s = perform (run actions s) a.
Proof. unfold run. apply foldl_snoc. Qed.

Lemma enterEditMode_frame s :
  pages (enterEditMode s) = pages s /\ history (enterEditMode s) = history s /\
  fileName (enterEditMode s) = fileName s /\ pdfData (enterEditMode s) = pdfData s /\
  numPages (enterEditMode s) = numPages s /\ isLoaded (enterEditMode s) = isLoaded s.
Proof.
  unfold enterEditMode. destruct (selectedBoxId (selection s)) as [i|]; [|auto 10].
  destruct (truthy i); auto 10.
Qed.

Lemma addTextBox_frame textBox s :
  history (addTextBox textBox s) = history s /\
  selection (addTextBox textBox s) = selection s /\
  fileName (addTextBox textBox s) = fileName s /\
  pdfData (addTextBox textBox s) = pdfData s /\
  numPages (addTextBox textBox s) = numPages s /\
  isLoaded (addTextBox textBox s) = isLoaded s.
Proof.
  unfold addTextBox. destruct (_ && _); [|auto 10].
  destruct (pages s !! _); auto 10.
Qed.

Lemma perform_flags s a : flagsConsistent s -> flagsConsistent (perform s a).
Proof.
  intros [Hu Hr]. unfold flagsConsistent.
  destruct a; cbn [perform]; try (split; assumption); try (split; reflexivity).
  - destruct (addTextBox_frame textBox s) as (-> & _). auto.
  - destruct (enterEditMode_frame s) as (_ & -> & _). auto.
  - cbn. rewrite length_app. cbn. split; [|reflexivity].
    symmetry. apply bool_decide_eq_true_2. lia.
  - unfold undo. destruct (last (past (history s))); [cbn; auto | auto].
  - unfold redo. destruct (future (history s)) as [|next rest] eqn:E; [rewrite E; auto|].
    cbn. rewrite length_app. cbn. split; [|reflexivity].
    symmetry. apply bool_decide_eq_true_2. lia.
Qed.

Lemma perform_selection s a : selectionOk s -> selectionOk (perform s a).
Proof.
  intros Hs. unfold selectionOk.
  destruct a; cbn [perform]; try exact Hs; try (cbn; discriminate).
  - destruct (addTextBox_frame textBox s) as (_ & -> & _). exact Hs.
  - unfold enterEditMode. destruct (selectedBoxId (selection s)) as [i|] eqn:E.
    + destruct (truthy i) eqn:Et; [|exact Hs]. cbn. intros _. eauto.
    + exact Hs.
  - unfold undo. destruct (last (past (history s))); [cbn; discriminate | exact Hs].
  - unfold redo. destruct (future (history s)); [exact Hs | cbn; discriminate].
Qed.

Lemma perform_identity s a :
  noReload a ->
  fileName (perform s a) = fileName s /\ pdfData (perform s a) = pdfData s /\
  numPages (perform s a) = numPages s /\ isLoaded (perform s a) = isLoaded s.
Proof.
  intros Hok. destruct a; cbn [perform]; try contradiction; try (split_and!; reflexivity).
  - destruct (addTextBox_frame textBox s) as (_ & _ & -> & -> & -> & ->). auto.
  - destruct (enterEditMode_frame s) as (_ & _ & -> & -> & -> & ->). auto.
  - unfold undo. destruct (last (past (history s))); split_and!; reflexivity.
  - unfold redo. destruct (future (history s)); split_and!; reflexivity.
Qed.

(** A property of page lists that the page-changing actions keep is kept
    by the history actions too, provided every snapshot has it. *)
Section PagesInvariant.

Variable P : list PageState -> Prop.
Variable ok : Action -> Prop.

Hypothesis ok_noReload : forall a, ok a -> noReload a.
Hypothesis ok_add : forall textBox s,
  ok (AAddTextBox textBox) -> P (pages s) -> P (pages (addTextBox textBox s)).
Hypothesis ok_update : forall i u s,
  ok (AUpdateTextBox i u) -> P (pages s) -> P (pages (updateTextBox i u s)).
Hypothesis ok_delete : forall i s, P (pages s) -> P (pages (deleteTextBox i s)).

Lemma perform_allPages s a :
  ok a -> Forall P (allPages s) -> Forall P (allPages (perform s a)).
Proof.
  intros Hok. unfold allPages. rewrite !Forall_cons, !Forall_app.
  intros (Hcur & Hpast & Hfut).
  destruct a; cbn [perform];
    try (exfalso; exact (ok_noReload _ Hok));
    try (split_and!; assumption).
  - destruct (addTextBox_frame textBox s) as (-> & _).
    split_and!; [apply ok_add | |]; assumption.
  - split_and!; [apply (ok_update _ _ _ Hok) | |]; assumption.
  - split_and!; [apply ok_delete | |]; assumption.
  - destruct (enterEditMode_frame s) as (-> & -> & _). split_and!; assumption.
  - cbn. rewrite fmap_app, Forall_app. cbn. split_and!; auto.
  - destruct (past (history s)) as [|h0 rest] eqn:E using rev_ind.
    + unfold undo. rewrite E. cbn. rewrite E. split_and!; assumption.
    + destruct (undo_snoc s _ _ E) as (-> & -> & ->).
      rewrite fmap_app, Forall_app in Hpast. destruct Hpast as [Hrest Hh].
      cbn in Hh. apply Forall_cons in Hh as [Hh _].
      cbn. rewrite Forall_cons. split_and!; assumption.
  - destruct (future (history s)) as [|next rest] eqn:E.
    + unfold redo. rewrite E. rewrite E. split_and!; assumption.
    + unfold redo. rewrite E. cbn.
      cbn in Hfut. apply Forall_cons in Hfut as [Hnext Hrest].
      rewrite fmap_app, Forall_app. cbn. split_and!; auto.
Qed.

Lemma run_allPages actions s :
  Forall ok actions -> Forall P (allPages s) -> Forall P (allPages (run actions s)).
Proof.
  induction actions as [|a actions IH] using rev_ind; intros Hok Hs; [exact Hs|].
  apply Forall_app in Hok as [Hok Ha]. apply Forall_cons in Ha as [Ha _].
  rewrite run_snoc. apply perform_allPages; auto.
Qed.

End PagesInvariant.

End RunInvariants.

Section PageFacts.

Import Actions Props.

Lemma addTextBox_in_range textBox s page :
  (0 <= pageIndex textBox)%Z ->
  pages s !! Z.to_nat (pageIndex textBox) = Some page ->
  addTextBox textBox s
    = set_pages (<[Z.to_nat (pageIndex textBox)
                   := set_textBoxes page (textBoxes page ++ [textBox])]> (pages s)) s.
Proof.
  intros H0 Hp. unfold addTextBox. cbn zeta.
  apply lookup_lt_Some in Hp as Hlt.
  rewrite !bool_decide_eq_true_2 by lia. cbn [andb]. rewrite Hp. reflexivity.
Qed.

Lemma addTextBox_cases textBox s :
  addTextBox textBox s = s \/
  exists page,
    (0 <= pageIndex textBox)%Z /\
    pages s !! Z.to_nat (pageIndex textBox) = Some page /\
    addTextBox textBox s
      = set_pages (<[Z.to_nat (pageIndex textBox)
                     := set_textBoxes page (textBoxes page ++ [textBox])]> (pages s)) s.
Proof.
  destruct (decide (0 <= pageIndex textBox)%Z) as [H0|H0].
  - destruct (pages s !! Z.to_nat (pageIndex textBox)) as [page|] eqn:Hp.
    + right. exists page. split_and!; [exact H0 | reflexivity |].
      apply addTextBox_in_range; assumption.
    + left. apply addTextBox_out_of_range. right.
      apply lookup_ge_None in Hp. lia.
  - left. apply addTextBox_out_of_range. lia.
Qed.

Lemma addTextBox_geometry textBox s :
  geometry (pages (addTextBox textBox s)) = geometry (pages s).
Proof.
  destruct (addTextBox_cases textBox s) as [-> | (page & _ & Hp & ->)]; [reflexivity|].
  cbn [pages set_pages]. unfold geometry. rewrite list_fmap_insert. cbn.
  apply list_insert_id. rewrite list_lookup_fmap, Hp. reflexivity.
Qed.

Lemma updateTextBox_geometry i u s :
  geometry (pages (updateTextBox i u s)) = geometry (pages s).
Proof.
  cbn. unfold geometry. rewrite <- list_fmap_compose. reflexivity.
Qed.

Lemma deleteTextBox_geometry i s :
  geometry (pages (deleteTextBox i s)) = geometry (pages s).
Proof.
  cbn. unfold geometry. rewrite <- list_fmap_compose. reflexivity.
Qed.

Lemma geometry_length ps qs : geometry ps = geometry qs -> length ps = length qs.
Proof.
  unfold geometry. intros H. apply (f_equal length) in H.
  rewrite !length_fmap in H. exact H.
Qed.

Lemma addTextBox_onTheirPage textBox s :
  boxesOnTheirPage (pages s) -> boxesOnTheirPage (pages (addTextBox textBox s)).
Proof.
  intros Hs.
  destruct (addTextBox_cases textBox s) as [-> | (page & H0 & Hp & ->)]; [exact Hs|].
  cbn [pages set_pages]. intros k page' box Hk Hbox.
  destruct (decide (k = Z.to_nat (pageIndex textBox))) as [->|Hne].
  - rewrite list_lookup_insert_eq in Hk by (eapply lookup_lt_Some; exact Hp).
    inversion Hk; subst page'. cbn in Hbox.
    apply elem_of_app in Hbox as [Hbox | Hbox].
    + exact (Hs _ _ _ Hp Hbox).
    + list_cases. lia.
  - rewrite list_lookup_insert_ne in Hk by congruence. exact (Hs _ _ _ Hk Hbox).
Qed.

Lemma updateTextBox_onTheirPage i u s :
  u_pageIndex u = None ->
  boxesOnTheirPage (pages s) -> boxesOnTheirPage (pages (updateTextBox i u s)).
Proof.
  intros Hu Hs k page' box Hk Hbox. cbn in Hk.
  rewrite list_lookup_fmap in Hk.
  destruct (pages s !! k) as [page|] eqn:Hp; [|discriminate].
  cbn in Hk. inversion Hk; subst page'. cbn in Hbox.
  apply list_elem_of_fmap in Hbox as (box0 & -> & Hbox0).
  pose proof (Hs _ _ _ Hp Hbox0) as Hidx.
  destruct (decide (id box0 = i)); [|exact Hidx].
  cbn. rewrite Hu. exact Hidx.
Qed.

Lemma deleteTextBox_onTheirPage i s :
  boxesOnTheirPage (pages s) -> boxesOnTheirPage (pages (deleteTextBox i s)).
Proof.
  intros Hs k page' box Hk Hbox. cbn in Hk.
  rewrite list_lookup_fmap in Hk.
  destruct (pages s !! k) as [page|] eqn:Hp; [|discriminate].
  cbn in Hk. inversion Hk; subst page'. cbn in Hbox.
  apply list_elem_of_filter in Hbox as [_ Hbox]. exact (Hs _ _ _ Hp Hbox).
Qed.

End PageFacts.

(** X8. Starting from a state whose flags agree with its history lists (the
    initial state is one), after any sequence of store actions [canUndo]
    holds exactly when the past is not empty and [canRedo] exactly when the
    future is not empty; so whenever the Undo (Redo) button is disabled,
    [undo] ([redo]) would change nothing. *)
Theorem flags_follow_history (actions : list Actions.Action) (s0 : DocumentState) :
  Props.flagsConsistent s0 ->
  let s := Actions.run actions s0 in
  Props.flagsConsistent s /\
  (canUndo (history s) = false -> undo s = s) /\
  (canRedo (history s) = false -> redo s = s).
Proof.
  intros H0 s.
  assert (Hs : Props.flagsConsistent s).
  { subst s. induction actions as [|a actions IH] using rev_ind; [exact H0|].
    rewrite run_snoc. apply perform_flags, IH. }
  destruct Hs as [Hu Hr]. split_and!; [split; assumption | |].
  - intros Hf. rewrite Hf in Hu. symmetry in Hu. apply bool_decide_eq_false in Hu.
    unfold undo. destruct (past (history s)); [reflexivity | cbn in Hu; lia].
  - intros Hf. rewrite Hf in Hr. symmetry in Hr. apply bool_decide_eq_false in Hr.
    unfold redo. destruct (future (history s)); [reflexivity | cbn in Hr; lia].
Qed.

Lemma flags_follow_history_witness :
  Props.flagsConsistent initialState /\
  canUndo (history (Actions.run [Actions.ASaveHistory; Actions.AUndo] initialState)) = false /\
  undo (Actions.run [Actions.ASaveHistory; Actions.AUndo] initialState)
    = Actions.run [Actions.ASaveHistory; Actions.AUndo] initialState.
Proof.
  assert (H0 : Props.flagsConsistent initialState) by (split; reflexivity).
  split_and!; [exact H0 | reflexivity |].
  exact (proj1 (proj2 (flags_follow_history
                         [Actions.ASaveHistory; Actions.AUndo] initialState H0))
           eq_refl).
Defined.

(** X9. Starting from a state where editing implies a selection (the
    initial state is one), after any sequence of store actions a document
    in edit mode has a selected box with a non-empty id; and
    [enterEditMode] without a selection changes nothing. *)
Theorem editing_implies_selection (actions : list Actions.Action) (s0 : DocumentState) :
  Props.selectionOk s0 ->
  let s := Actions.run actions s0 in
  (isEditing (selection s) = true ->
     exists i, selectedBoxId (selection s) = Some i /\ truthy i = true) /\
  (selectedBoxId (selection s) = None -> enterEditMode s = s).
Proof.
  intros H0 s. split.
  - change (Props.selectionOk s). subst s.
    induction actions as [|a actions IH] using rev_ind; [exact H0|].
    rewrite run_snoc. apply perform_selection, IH.
  - intros Hn. unfold enterEditMode. rewrite Hn. reflexivity.
Qed.

Lemma editing_implies_selection_witness :
  Props.selectionOk initialState /\
  isEditing (selection (Actions.run
     [Actions.ASelectTextBox (Some "b1"); Actions.AEnterEditMode] initialState)) = true /\
  exists i,
    selectedBoxId (selection (Actions.run
      [Actions.ASelectTextBox (Some "b1"); Actions.AEnterEditMode] initialState)) = Some i /\
    truthy i = true.
Proof.
  assert (H0 : Props.selectionOk initialState) by (intros H; discriminate H).
  split_and!; [exact H0 | reflexivity |].
  exact (proj1 (editing_implies_selection
                  [Actions.ASelectTextBox (Some "b1"); Actions.AEnterEditMode]
                  initialState H0) eq_refl).
Defined.

(** X10. Once a document is loaded, no sequence of store actions other than
    a new load or a clear changes its identity: the file name, the bytes,
    the page count and the loaded flag stay as loaded, and the pages, like
    every snapshot the history holds, keep the number, indices, widths and
    heights of the loaded pages. *)
Theorem loaded_document_is_fixed (name : string) (data : list Byte.byte) (n : Z)
    (ps : list PageState) (s0 : DocumentState) (actions : list Actions.Action) :
  Forall Props.noReload actions ->
  let s := Actions.run actions (loadPDF name data n ps s0) in
  fileName s = Some name /\ pdfData s = Some data /\ numPages s = n /\
  isLoaded s = true /\
  Props.geometry (pages s) = Props.geometry ps /\
  length (pages s) = length ps /\
  Forall (fun qs => Props.geometry qs = Props.geometry ps) (Props.allPages s).
Proof.
  intros Hok s.
  assert (Hid : fileName s = Some name /\ pdfData s = Some data /\ numPages s = n /\
                isLoaded s = true).
  { subst s. induction actions as [|a actions IH] using rev_ind; [cbn; auto|].
    apply Forall_app in Hok as [Hok Ha]. apply Forall_cons in Ha as [Ha _].
    rewrite run_snoc.
    destruct (perform_identity (Actions.run actions (loadPDF name data n ps s0)) a Ha)
      as (-> & -> & -> & ->).
    exact (IH Hok). }
  assert (Hall : Forall (fun qs => Props.geometry qs = Props.geometry ps) (Props.allPages s)).
  { subst s. apply (run_allPages _ Props.noReload); try assumption.
    - auto.
    - intros textBox s _ <-. apply addTextBox_geometry.
    - intros i u s _ <-. apply updateTextBox_geometry.
    - intros i s <-. apply deleteTextBox_geometry.
    - cbn. constructor; [reflexivity | constructor]. }
  pose proof Hall as Hcur. unfold Props.allPages in Hcur.
  apply Forall_cons in Hcur as [Hcur _].
  destruct Hid as (? & ? & ? & ?).
  split_and!; try assumption. apply geometry_length. exact Hcur.
Qed.

Lemma loaded_document_is_fixed_witness :
  Forall Props.noReload
    [Actions.ASaveHistory; Actions.AAddTextBox Samples.sampleBox; Actions.AUndo] /\
  Props.geometry (pages (Actions.run
     [Actions.ASaveHistory; Actions.AAddTextBox Samples.sampleBox; Actions.AUndo]
     (loadPDF "report.pdf" [] 2 (Loader.extractPageInfo Props.twoPages) initialState)))
    = Props.geometry (Loader.extractPageInfo Props.twoPages).
Proof.
  assert (H : Forall Props.noReload
                [Actions.ASaveHistory; Actions.AAddTextBox Samples.sampleBox;
                 Actions.AUndo]) by (repeat constructor).
  split; [exact H|].
  exact (proj1 (proj2 (proj2 (proj2 (proj2
           (loaded_document_is_fixed "report.pdf" [] 2
              (Loader.extractPageInfo Props.twoPages) initialState _ H)))))).
Defined.

(** X11. If every box of the loaded pages names the page it is stored on,
    this stays so after any sequence of store actions other than a load, a
    clear or an update that supplies [pageIndex]: [addTextBox] stores a box
    on the page it names, and update, delete, undo and redo never move a
    box to another page. *)
Theorem boxes_stay_on_their_page (name : string) (data : list Byte.byte) (n : Z)
    (ps : list PageState) (s0 : DocumentState) (actions : list Actions.Action) :
  Props.boxesOnTheirPage ps ->
  Forall Props.keepsPageIndex actions ->
  let s := Actions.run actions (loadPDF name data n ps s0) in
  Props.boxesOnTheirPage (pages s) /\
  Forall Props.boxesOnTheirPage (Props.allPages s).
Proof.
  intros Hps Hok s.
  assert (Hall : Forall Props.boxesOnTheirPage (Props.allPages s)).
  { subst s. apply (run_allPages _ Props.keepsPageIndex); try assumption.
    - intros a Ha. destruct a; cbn in *; auto.
    - intros textBox s _. apply addTextBox_onTheirPage.
    - intros i u s Hu. apply updateTextBox_onTheirPage. exact Hu.
    - intros i s. apply deleteTextBox_onTheirPage.
    - cbn. constructor; [exact Hps | constructor]. }
  split; [|exact Hall].
  unfold Props.allPages in Hall. apply Forall_cons in Hall as [Hcur _]. exact Hcur.
Qed.

Lemma boxes_stay_on_their_page_witness :
  Props.boxesOnTheirPage (Loader.extractPageInfo Props.twoPages) /\
  Forall Props.keepsPageIndex
    [Actions.ASaveHistory; Actions.AAddTextBox Samples.sampleBox;
     Actions.AUpdateTextBox "b1" (Toolbar.fontSizeUpdate 20)] /\
  Props.boxesOnTheirPage (pages (Actions.run
     [Actions.ASaveHistory; Actions.AAddTextBox Samples.sampleBox;
      Actions.AUpdateTextBox "b1" (Toolbar.fontSizeUpdate 20)]
     (loadPDF "report.pdf" [] 2 (Loader.extractPageInfo Props.twoPages) initialState))).
Proof.
  assert (H1 : Props.boxesOnTheirPage (Loader.extractPageInfo Props.twoPages)).
  { intros k page box Hk Hbox. cbn in Hk.
    destruct k as [|[|k]]; cbn in Hk; try discriminate;
      inversion Hk; subst page; cbn in Hbox; list_cases. }
  assert (H2 : Forall Props.keepsPageIndex
                 [Actions.ASaveHistory; Actions.AAddTextBox Samples.sampleBox;
                  Actions.AUpdateTextBox "b1" (Toolbar.fontSizeUpdate 20)])
    by (repeat constructor).
  split_and!; [exact H1 | exact H2 |].
  exact (proj1 (boxes_stay_on_their_page "report.pdf" [] 2
                  (Loader.extractPageInfo Props.twoPages) initialState _ H1 H2)).
Defined.

(* ===================================================================== *)
(** ** The document store: how add, read, delete and update compose *)
(* ===================================================================== *)

(** X12. [addTextBox] with a page index in range appends the box to that
    page: reading the page's boxes afterwards gives the old boxes followed
    by the new one, every other page reads as before, and the box is
    found in the document; [getTextBoxesForPage] of an index out of range
    is the empty list. *)
Theorem addTextBox_then_read (textBox : TextBox) (s : DocumentState) :
  (0 <= pageIndex textBox < Z.of_nat (length (pages s)))%Z ->
  getTextBoxesForPage (pageIndex textBox) (addTextBox textBox s)
    = getTextBoxesForPage (pageIndex textBox) s ++ [textBox] /\
  (forall j, j <> pageIndex textBox ->
     getTextBoxesForPage j (addTextBox textBox s) = getTextBoxesForPage j s) /\
  (forall j, (j < 0 \/ Z.of_nat (length (pages s)) <= j)%Z ->
     getTextBoxesForPage j (addTextBox textBox s) = [] /\
     getTextBoxesForPage j s = []) /\
  length (pages (addTextBox textBox s)) = length (pages s) /\
  hasBox (id textBox) (pages (addTextBox textBox s)).
Proof.
  intros [H0 Hlt].
  destruct (pages s !! Z.to_nat (pageIndex textBox)) as [page|] eqn:Hp;
    [|apply lookup_ge_None in Hp; lia].
  rewrite (addTextBox_in_range _ _ _ H0 Hp).
  assert (Hi : (Z.to_nat (pageIndex textBox) < length (pages s))%nat)
    by (eapply lookup_lt_Some; exact Hp).
  unfold getTextBoxesForPage. cbn [pages set_pages]. rewrite length_insert.
  split_and!.
  - rewrite !bool_decide_eq_true_2 by lia. cbn [andb].
    rewrite list_lookup_insert_eq by exact Hi. rewrite Hp. reflexivity.
  - intros j Hj.
    destruct (bool_decide (0 <= j)%Z) eqn:E1; [|reflexivity].
    destruct (bool_decide (j < _)%Z) eqn:E2; [|reflexivity].
    apply bool_decide_eq_true in E1. cbn [andb].
    rewrite list_lookup_insert_ne by lia. reflexivity.
  - intros j Hj.
    destruct (bool_decide (0 <= j)%Z) eqn:E1; [|auto].
    destruct (bool_decide (j < _)%Z) eqn:E2; [|auto].
    apply bool_decide_eq_true in E1, E2. lia.
  - reflexivity.
  - exists (set_textBoxes page (textBoxes page ++ [textBox])), textBox. split_and!.
    + apply list_elem_of_lookup. exists (Z.to_nat (pageIndex textBox)).
      apply list_lookup_insert_eq. exact Hi.
    + cbn. apply elem_of_app. right. left.
    + reflexivity.
Qed.

Lemma addTextBox_then_read_witness :
  (0 <= pageIndex Samples.crampedBox
     < Z.of_nat (length (pages Samples.sampleDoc)))%Z /\
  getTextBoxesForPage 0 (addTextBox Samples.crampedBox Samples.sampleDoc)
    = [Samples.sampleBox; Samples.otherBox; Samples.crampedBox].
Proof.
  assert (H : (0 <= pageIndex Samples.crampedBox
                 < Z.of_nat (length (pages Samples.sampleDoc)))%Z) by (cbn; lia).
  split; [exact H|].
  exact (proj1 (addTextBox_then_read Samples.crampedBox Samples.sampleDoc H)).
Defined.

(** X13. Adding a box whose id no box has and then deleting that id gives
    back the pages as they were, whether or not the page index of the box
    was in range. *)
Theorem add_then_delete_restores_pages (textBox : TextBox) (s : DocumentState) :
  ~ hasBox (id textBox) (pages s) ->
  pages (deleteTextBox (id textBox) (addTextBox textBox s)) = pages s.
Proof.
  intros Hfresh.
  destruct (addTextBox_cases textBox s) as [-> | (page & H0 & Hp & ->)].
  - apply deleteTextBox_absent_pages. exact Hfresh.
  - cbn [deleteTextBox pages set_pages set_selection].
    rewrite list_fmap_insert.
    assert (Hrest : (fun page0 =>
                       set_textBoxes page0
                         (filter (fun box => id box <> id textBox) (textBoxes page0)))
                      <$> pages s = pages s).
    { apply fmap_fixed. intros page0 Hpage0.
      rewrite filter_all; [apply set_textBoxes_same|].
      intros box Hbox Heq. apply Hfresh. exists page0, box. auto. }
    rewrite Hrest. apply list_insert_id. rewrite Hp. f_equal.
    cbn. rewrite filter_app.
    rewrite (filter_all _ (textBoxes page)).
    + rewrite filter_cons_False by (intros H; apply H; reflexivity).
      rewrite filter_nil, app_nil_r. destruct page; reflexivity.
    + intros box Hbox Heq. apply Hfresh. exists page, box.
      split_and!; [eapply list_elem_of_lookup_2; exact Hp | exact Hbox | exact Heq].
Qed.

Lemma add_then_delete_restores_pages_witness :
  ~ hasBox (id Samples.crampedBox) (pages Samples.sampleDoc) /\
  pages (deleteTextBox "b4" (addTextBox Samples.crampedBox Samples.sampleDoc))
    = pages Samples.sampleDoc.
Proof.
  assert (H : ~ hasBox (id Samples.crampedBox) (pages Samples.sampleDoc))
    by (apply sampleDoc_has_no; discriminate).
  split; [exact H|].
  exact (add_then_delete_restores_pages Samples.crampedBox Samples.sampleDoc H).
Defined.

(** X14. After [deleteTextBox i] no box of the document has id [i], and
    deleting the same id again changes nothing. *)
Theorem deleteTextBox_idempotent (i : string) (s : DocumentState) :
  ~ hasBox i (pages (deleteTextBox i s)) /\
  deleteTextBox i (deleteTextBox i s) = deleteTextBox i s.
Proof.
  assert (Hgone : ~ hasBox i (pages (deleteTextBox i s))).
  { intros (page & box & Hpage & Hbox & Hid). cbn in Hpage.
    apply list_elem_of_fmap in Hpage as (page0 & -> & _). cbn in Hbox.
    apply list_elem_of_filter in Hbox as [Hne _]. contradiction. }
  split; [exact Hgone|].
  pose proof (deleteTextBox_absent_pages _ _ Hgone) as Hpages.
  set (s1 := deleteTextBox i s) in *.
  assert (Hsel : selection s1 = noSelection) by reflexivity.
  unfold deleteTextBox at 1.
  change ((fun page => set_textBoxes page (filter (fun box => id box <> i) (textBoxes page)))
            <$> pages s1) with (pages (deleteTextBox i s1)).
  rewrite Hpages, set_pages_same.
  destruct s1; cbn in *. rewrite Hsel. reflexivity.
Qed.

Section UpdateCompose.

Import Props.

Lemma default_later {A} (a : A) (o1 o2 : option A) :
  default (default a o1) o2 = default a (later o1 o2).
Proof. destruct o2; reflexivity. Qed.

Lemma spread_then (box : TextBox) (u1 u2 : PartialTextBox) :
  spread (spread box u1) u2 = spread box (thenUpdate u1 u2).
Proof. unfold spread, thenUpdate. cbn. rewrite !default_later. reflexivity. Qed.

End UpdateCompose.

(** X15. Two updates of the same id, the first of which does not supply a
    new id, amount to one update with the fields of both, the later value
    winning where both supply a field; in particular repeating an update
    changes nothing more. *)
Theorem updateTextBox_composes (i : string) (u1 u2 : PartialTextBox) (s : DocumentState) :
  u_id u1 = None ->
  updateTextBox i u2 (updateTextBox i u1 s) = updateTextBox i (Props.thenUpdate u1 u2) s /\
  updateTextBox i u1 (updateTextBox i u1 s) = updateTextBox i u1 s.
Proof.
  intros Hid.
  assert (Hcomp : forall u, updateTextBox i u (updateTextBox i u1 s)
                            = updateTextBox i (Props.thenUpdate u1 u) s).
  { intros u. unfold updateTextBox. cbn [pages set_pages]. unfold set_pages. cbn.
    f_equal. rewrite <- list_fmap_compose. apply list_fmap_ext. intros k page _.
    cbn. unfold set_textBoxes. cbn. f_equal.
    rewrite <- list_fmap_compose. apply list_fmap_ext. intros j box _. cbn.
    destruct (decide (id box = i)) as [Heq|Hne].
    - assert (Hsame : id (spread box u1) = i) by (cbn; rewrite Hid; exact Heq).
      destruct (decide (id (spread box u1) = i)); [|contradiction].
      apply spread_then.
    - destruct (decide (id box = i)); [contradiction | reflexivity]. }
  split; [apply Hcomp|].
  rewrite Hcomp. f_equal.
  destruct u1 as [a1 a2 a3 a4 a5 a6 a7 a8 a9 a10 a11 a12 a13 a14].
  unfold Props.thenUpdate, Props.later. cbn.
  destruct a1, a2, a3, a4, a5, a6, a7, a8, a9, a10, a11, a12, a13, a14; reflexivity.
Qed.

Lemma updateTextBox_composes_witness :
  u_id (Handlers.positionUpdate 10 20) = None /\
  updateTextBox "b1" (Handlers.positionUpdate 30 40)
    (updateTextBox "b1" (Handlers.positionUpdate 10 20) Samples.sampleDoc)
  = updateTextBox "b1"
      (Props.thenUpdate (Handlers.positionUpdate 10 20) (Handlers.positionUpdate 30 40))
      Samples.sampleDoc.
Proof.
  split; [reflexivity|].
  exact (proj1 (updateTextBox_composes "b1" (Handlers.positionUpdate 10 20)
                  (Handlers.positionUpdate 30 40) Samples.sampleDoc eq_refl)).
Defined.

(* ===================================================================== *)
(** ** The export engine: colours, blank text, alignment, pages *)
(* ===================================================================== *)

Section Colours.

Import Exporter.

Lemma hexDigit_range c v : JS.hexDigit c = Some v -> (0 <= v <= 15)%Z.
Proof.
  unfold JS.hexDigit. repeat case_bool_decide; intros Hv; inversion Hv; subst; lia.
Qed.

Lemma parseHexPair_range hi lo v : JS.parseHexPair hi lo = Some v -> (0 <= v <= 255)%Z.
Proof.
  unfold JS.parseHexPair.
  destruct (JS.hexDigit hi) as [h|] eqn:Eh; [|discriminate].
  destruct (JS.hexDigit lo) as [l|] eqn:El; [|discriminate].
  intros H. inversion H; subst.
  apply hexDigit_range in Eh, El. lia.
Qed.

Lemma channel_range round v :
  (forall p q, p <= q -> round p <= round q)%Q ->
  (round 0 == 0)%Q -> (round 1 == 1)%Q ->
  (0 <= v <= 255)%Z -> (0 <= channel round v)%Q /\ (channel round v <= 1)%Q.
Proof.
  intros Hmono H0 H1 Hv. unfold channel.
  assert (Hq : (0 <= inject_Z v / 255)%Q /\ (inject_Z v / 255 <= 1)%Q)
    by (unfold Qdiv, Qmult, Qinv, Qle; cbn; lia).
  destruct Hq as [Hlo Hhi]. split.
  - rewrite <- H0. apply Hmono. exact Hlo.
  - rewrite <- H1. apply Hmono. exact Hhi.
Qed.

(** In binary64 each of the 256 quotients lies between 0 and 1. *)
Lemma channel_binary64_range v :
  (0 <= v <= 255)%Z ->
  (0 <= channel Samples.binary64 v)%Q /\ (channel Samples.binary64 v <= 1)%Q.
Proof.
  intros Hv.
  assert (Hall : forallb (fun n => Qle_bool 0 (channel Samples.binary64 (Z.of_nat n))
                                   && Qle_bool (channel Samples.binary64 (Z.of_nat n)) 1)
                   (seq 0 256) = true) by (vm_compute; reflexivity).
  rewrite forallb_forall in Hall.
  specialize (Hall (Z.to_nat v)). rewrite Z2Nat.id in Hall by lia.
  rewrite andb_true_iff, !Qle_bool_iff in Hall. apply Hall.
  apply in_seq. lia.
Qed.

Lemma black_inUnit : Props.inUnit {| r := 0; g := 0; b := 0 |}.
Proof. unfold Props.inUnit. cbn. split_and!; discriminate. Qed.

Lemma hexToRgb_inUnit round hex :
  (forall v, (0 <= v <= 255)%Z ->
     (0 <= channel round v)%Q /\ (channel round v <= 1)%Q) ->
  Props.inUnit (hexToRgb round hex).
Proof.
  intros Hchannel. unfold hexToRgb.
  repeat case_match; try exact black_inUnit.
  all: unfold Props.inUnit; cbn [r g b].
  all: repeat match goal with
         | H : JS.parseHexPair _ _ = Some _ |- _ =>
             apply parseHexPair_range, Hchannel in H
         end.
  all: split_and!; tauto.
Qed.

End Colours.

(** X16. [hexToRgb] never fails and always gives a colour the PDF library
    accepts: for every string, well-formed or not, each of the three
    channels lies between 0 and 1, without rounding, in binary64, and with
    every rounding of the quotients that is monotone and keeps 0 and 1. *)
Theorem hexToRgb_in_unit_range (hex : string) :
  Props.inUnit (Exporter.hexToRgb Samples.exact hex) /\
  Props.inUnit (Exporter.hexToRgb Samples.binary64 hex) /\
  (forall round : Q -> Q,
     (forall p q, p <= q -> round p <= round q)%Q ->
     (round 0 == 0)%Q -> (round 1 == 1)%Q ->
     Props.inUnit (Exporter.hexToRgb round hex)).
Proof.
  split_and!.
  - apply hexToRgb_inUnit. intros v Hv. apply channel_range; try exact Hv.
    + intros p q Hpq. exact Hpq.
    + reflexivity.
    + reflexivity.
  - apply hexToRgb_inUnit, channel_binary64_range.
  - intros round Hmono H0 H1. apply hexToRgb_inUnit. intros v Hv.
    apply channel_range; assumption.
Qed.

Lemma hexToRgb_in_unit_range_witness :
  (forall p q, p <= q -> Samples.exact p <= Samples.exact q)%Q /\
  (Samples.exact 0 == 0)%Q /\ (Samples.exact 1 == 1)%Q /\
  Props.inUnit (Exporter.hexToRgb Samples.exact "#EEEEEE") /\
  Props.inUnit (Exporter.hexToRgb Samples.binary64 "#EEEEEE").
Proof.
  assert (Hmono : (forall p q, p <= q -> Samples.exact p <= Samples.exact q)%Q)
    by (intros p q Hpq; exact Hpq).
  assert (H0 : (Samples.exact 0 == 0)%Q) by reflexivity.
  assert (H1 : (Samples.exact 1 == 1)%Q) by reflexivity.
  split_and!; [exact Hmono | exact H0 | exact H1 | |].
  - exact (proj2 (proj2 (hexToRgb_in_unit_range "#EEEEEE")) Samples.exact Hmono H0 H1).
  - exact (proj1 (proj2 (hexToRgb_in_unit_range "#EEEEEE"))).
Defined.

(** X17. The leading [#] is optional: a string that does not itself start
    with [#] gives the same colour with and without a [#] in front; and a
    string that is not six characters long (after the optional [#]) gives
    black. *)
Theorem hexToRgb_hash_optional (round : Q -> Q) (digits : string) :
  (forall rest, digits <> String "#"%char rest) ->
  Exporter.hexToRgb round (String "#"%char digits) = Exporter.hexToRgb round digits /\
  (String.length digits <> 6%nat ->
     Exporter.hexToRgb round digits = Props.black /\
     Exporter.hexToRgb round (String "#"%char digits) = Props.black).
Proof.
  intros Hno.
  assert (Hsame : Exporter.hexToRgb round (String "#"%char digits)
                  = Exporter.hexToRgb round digits).
  { unfold Exporter.hexToRgb at 1 2.
    destruct (decide ("#"%char = "#"%char)) as [_|Hne]; [|contradiction].
    destruct digits as [|c rest]; [reflexivity|].
    destruct (decide (c = "#"%char)) as [->|_]; [|reflexivity].
    exfalso. exact (Hno rest eq_refl). }
  split; [exact Hsame|].
  intros Hlen. rewrite Hsame.
  assert (Hb : Exporter.hexToRgb round digits = Props.black); [|split; exact Hb].
  unfold Exporter.hexToRgb.
  destruct digits as [|c rest]; [reflexivity|].
  destruct (decide (c = "#"%char)) as [->|_]; [exfalso; exact (Hno rest eq_refl)|].
  destruct rest as [|c2 [|c3 [|c4 [|c5 [|c6 [|c7 rest]]]]]]; try reflexivity.
  cbn in Hlen. lia.
Qed.

Lemma hexToRgb_hash_optional_witness :
  (forall rest, "FF8000" <> String "#"%char rest) /\
  Exporter.hexToRgb Samples.binary64 "#FF8000"
    = Exporter.hexToRgb Samples.binary64 "FF8000" /\
  String.length "red" <> 6%nat /\
  Exporter.hexToRgb Samples.binary64 "red" = Props.black.
Proof.
  assert (H1 : forall rest, "FF8000" <> String "#"%char rest) by (intros rest; discriminate).
  assert (H2 : forall rest, "red" <> String "#"%char rest) by (intros rest; discriminate).
  assert (H3 : String.length "red" <> 6%nat) by (cbn; lia).
  split_and!; [exact H1 | | exact H3 |].
  - exact (proj1 (hexToRgb_hash_optional Samples.binary64 "FF8000" H1)).
  - exact (proj1 (proj2 (hexToRgb_hash_optional Samples.binary64 "red" H2) H3)).
Defined.

Section BlankText.

Import Spec Props.

Variable measure : string -> Q -> Q.
Variables maxWidth fontSize : Q.

Lemma greedy_lines_nonempty words : forall cur line,
  line ∈ greedyLines measure maxWidth fontSize cur words -> nonEmpty line.
Proof.
  induction words as [|word rest IH]; intros cur line; cbn.
  - destruct (truthy cur) eqn:E; intros Hl; list_cases. apply truthy_true. exact E.
  - destruct (truthy cur) eqn:E; [|apply IH].
    destruct (Qle_bool _ _); [apply IH|].
    intros Hl. apply elem_of_cons in Hl as [-> | Hl]; [|exact (IH _ _ Hl)].
    apply truthy_true. exact E.
Qed.

Lemma split_allSpaces s : allSpaces s = true -> forall w, w ∈ JS.split s -> w = EmptyString.
Proof.
  induction s as [|c rest IH]; cbn; intros Hs w Hw.
  - list_cases. reflexivity.
  - apply andb_true_iff in Hs as [Hc Hrest]. apply bool_decide_eq_true in Hc.
    destruct (decide (c = JS.space)); [|contradiction].
    apply elem_of_cons in Hw as [-> | Hw]; [reflexivity | exact (IH Hrest _ Hw)].
Qed.

Lemma greedy_empty_words words :
  (forall w, w ∈ words -> w = EmptyString) ->
  greedyLines measure maxWidth fontSize EmptyString words = [].
Proof.
  induction words as [|word rest IH]; intros Hw; [reflexivity|].
  cbn. rewrite (Hw word) by left. apply IH. intros w Hin. apply Hw. right. exact Hin.
Qed.

End BlankText.

(** X18. [wrapText] never returns an empty line, and a text made of spaces
    only (the empty text included) wraps to no line at all; so a box with
    such a text is exported as its background rectangle alone in replace
    mode and as nothing in overlay mode. *)
Theorem blank_text_draws_no_line
    (round : Q -> Q)
    (widthOfTextAtSize : Exporter.StandardFonts -> string -> Q -> Q)
    (measure : string -> Q -> Q) (maxWidth size : Q) (content : string)
    (box : TextBox) (pageHeight : Q) :
  (forall line, line ∈ Exporter.wrapText content maxWidth measure size ->
     Spec.nonEmpty line) /\
  (Props.allSpaces content = true ->
     Exporter.wrapText content maxWidth measure size = []) /\
  (Props.allSpaces (text box) = true ->
     length (Exporter.drawTextBox round widthOfTextAtSize box pageHeight)
       = match mode box with replace => 1%nat | overlay => 0%nat end /\
     Forall (fun op => Exporter.isRectangle op = true)
       (Exporter.drawTextBox round widthOfTextAtSize box pageHeight)).
Proof.
  assert (Hblank : forall m mw sz t, Props.allSpaces t = true ->
                     Exporter.wrapText t mw m sz = []).
  { intros m mw sz t Ht. rewrite wrapText_is_greedy.
    apply greedy_empty_words. apply split_allSpaces. exact Ht. }
  split_and!.
  - intros line. rewrite wrapText_is_greedy. apply greedy_lines_nonempty.
  - apply Hblank.
  - intros Ht. unfold Exporter.drawTextBox. rewrite (Hblank _ _ _ _ Ht).
    destruct (mode box); cbn; split; try reflexivity; repeat constructor.
Qed.

Lemma blank_text_draws_no_line_witness :
  Props.allSpaces "   " = true /\
  Exporter.wrapText "   " 100 Samples.fixedWidth 12 = [].
Proof.
  split; [reflexivity|].
  exact (proj1 (proj2 (blank_text_draws_no_line Samples.binary64 Samples.fixedFont
                         Samples.fixedWidth 100 12 "   " Samples.sampleBox 792))
           eq_refl).
Defined.

Section Alignment.

Import Exporter Props.

Variable round : Q -> Q.
Variable widthOfTextAtSize : StandardFonts -> string -> Q -> Q.

Lemma lineX_alignedM textBox font line :
  alignedM round textBox (widthOfTextAtSize font line (fontSize textBox))
    (lineX round widthOfTextAtSize textBox font line).
Proof.
  unfold alignedM, lineX. destruct (textAlign textBox) as [[| |]|]; reflexivity.
Qed.

Lemma alignedM_exact textBox w tx :
  (forall q, round q == q)%Q -> alignedM round textBox w tx -> aligned textBox w tx.
Proof.
  intros Hexact. unfold alignedM, aligned.
  destruct (textAlign textBox) as [[| |]|]; intros ->; rewrite !Hexact;
    [ring | field | ring | ring].
Qed.

Lemma drawLines_aligned textBox font textColor pdfY lineHeight lines : forall currentY op,
  op ∈ drawLines round widthOfTextAtSize textBox font textColor pdfY lineHeight lines
         currentY ->
  exists line tx ty,
    op = DrawText line tx ty (fontSize textBox) font textColor /\
    line ∈ lines /\
    alignedM round textBox (widthOfTextAtSize font line (fontSize textBox)) tx.
Proof.
  induction lines as [|line rest IH]; intros currentY op Hop; cbn in Hop; [list_cases|].
  destruct (Qlt_le_dec currentY pdfY); [list_cases|].
  apply elem_of_cons in Hop as [-> | Hop].
  - eexists line, _, currentY. split_and!; [reflexivity | left | apply lineX_alignedM].
  - destruct (IH _ _ Hop) as (l & tx & ty & -> & Hl & Ha).
    exists l, tx, ty. split_and!; [reflexivity | right; exact Hl | exact Ha].
Qed.

End Alignment.

(** X19. For every rounding of the arithmetic, every text call of a box
    draws one of its wrapped lines, in the box's font size, font and
    colour, at a left edge set by the alignment: [box.x + 2] for left-aligned
    (or unaligned) boxes, [box.x + (box.width - textWidth) / 2] for centred
    ones and [box.x + box.width - textWidth - 2] for right-aligned ones, as
    the program computes them; without rounding that is 2 points inside the
    box's left edge, with equal margins on both sides, and so that the line
    ends 2 points inside the right edge. *)
Theorem text_calls_follow_alignment
    (round : Q -> Q)
    (widthOfTextAtSize : Exporter.StandardFonts -> string -> Q -> Q)
    (box : TextBox) (pageHeight : Q) (op : Exporter.DrawOp) :
  op ∈ Exporter.drawTextBox round widthOfTextAtSize box pageHeight ->
  Exporter.isText op = true ->
  let font := Exporter.getFontForFamily (fontFamily box) in
  exists line tx ty,
    op = Exporter.DrawText line tx ty (fontSize box) font
           (Exporter.hexToRgb round (color box)) /\
    line ∈ Exporter.wrapText (text box) (round (width box - 4)%Q)
             (widthOfTextAtSize font) (fontSize box) /\
    Props.alignedM round box (widthOfTextAtSize font line (fontSize box)) tx /\
    ((forall q, round q == q)%Q ->
       Props.aligned box (widthOfTextAtSize font line (fontSize box)) tx).
Proof.
  intros Hop Htext font. unfold Exporter.drawTextBox in Hop.
  apply elem_of_app in Hop as [Hrect | Hlines].
  - destruct (mode box); list_cases. discriminate Htext.
  - destruct (drawLines_aligned _ _ _ _ _ _ _ _ _ _ Hlines)
      as (line & tx & ty & Hop & Hline & Ha).
    exists line, tx, ty. split_and!; [exact Hop | exact Hline | exact Ha |].
    intros Hexact. apply (alignedM_exact round); assumption.
Qed.

Lemma text_calls_follow_alignment_witness :
  let op := Exporter.DrawText "Second" 40 480 10 Exporter.SF_Courier
              {| Exporter.r := 1; Exporter.g := 0; Exporter.b := 0 |} in
  op ∈ Exporter.drawTextBox Samples.binary64 Samples.fixedFont Samples.otherBox 792 /\
  Exporter.isText op = true /\
  exists line tx ty,
    op = Exporter.DrawText line tx ty 10 Exporter.SF_Courier
           (Exporter.hexToRgb Samples.binary64 "#FF0000") /\
    line ∈ Exporter.wrapText "Second" (Samples.binary64 (120 - 4))
             (Samples.fixedFont Exporter.SF_Courier) 10 /\
    Props.alignedM Samples.binary64 Samples.otherBox
      (Samples.fixedFont Exporter.SF_Courier line 10) tx.
Proof.
  intros op.
  assert (Hin : op ∈ Exporter.drawTextBox Samples.binary64 Samples.fixedFont
                       Samples.otherBox 792)
    by (vm_compute; right; left).
  assert (Ht : Exporter.isText op = true) by reflexivity.
  split_and!; [exact Hin | exact Ht |].
  destruct (text_calls_follow_alignment Samples.binary64 Samples.fixedFont
              Samples.otherBox 792 op Hin Ht)
    as (line & tx & ty & Hop & Hline & Ha & _).
  exists line, tx, ty. split_and!; [exact Hop | exact Hline | exact Ha].
Defined.

(** X20. The export has one list of draw calls per page of the document, in
    page order; a page without text boxes gets no draw call (it is a plain
    copy) and a page whose boxes are all in overlay mode gets text calls
    only. [handleExport] hands nothing to the download exactly when no
    document data is held or the export throws; otherwise it hands over the
    export of the document's pages under the export name of its file
    name. *)
Theorem export_page_by_page
    (round : Q -> Q)
    (widthOfTextAtSize : Exporter.StandardFonts -> string -> Q -> Q)
    (copiedPageHeight : nat -> Q) (ps : list PageState) :
  length (Exporter.exportPDF round widthOfTextAtSize copiedPageHeight ps) = length ps /\
  (forall i page, ps !! i = Some page -> textBoxes page = [] ->
     Exporter.exportPDF round widthOfTextAtSize copiedPageHeight ps !! i = Some []) /\
  (forall i page, ps !! i = Some page ->
     (forall box, box ∈ textBoxes page -> mode box = overlay) ->
     exists ops,
       Exporter.exportPDF round widthOfTextAtSize copiedPageHeight ps !! i = Some ops /\
       Forall (fun op => Exporter.isText op = true) ops) /\
  (forall doc libraryThrows,
     Toolbar.handleExport round widthOfTextAtSize copiedPageHeight libraryThrows doc
       = None
     <-> pdfData doc = None \/ libraryThrows = true) /\
  (forall doc libraryThrows download,
     Toolbar.handleExport round widthOfTextAtSize copiedPageHeight libraryThrows doc
       = Some download ->
     (exists data, pdfData doc = Some data) /\ libraryThrows = false /\
     download
       = (Exporter.exportPDF round widthOfTextAtSize copiedPageHeight (pages doc),
          Toolbar.exportFileName (fileName doc))).
Proof.
  split_and!.
  - unfold Exporter.exportPDF. apply length_imap.
  - intros i page Hi Hnone. unfold Exporter.exportPDF.
    rewrite list_lookup_imap, Hi. cbn. rewrite Hnone. reflexivity.
  - intros i page Hi Hmode. unfold Exporter.exportPDF.
    rewrite list_lookup_imap, Hi. cbn. eexists; split; [reflexivity|].
    induction (textBoxes page) as [|box rest IH]; [constructor|].
    rewrite bind_cons. apply Forall_app. split.
    + unfold Exporter.drawTextBox. rewrite (Hmode box) by left. apply drawLines_text.
    + apply IH. intros box' Hin. apply Hmode. right. exact Hin.
  - intros doc libraryThrows. unfold Toolbar.handleExport.
    destruct (pdfData doc), libraryThrows; split; intros H;
      try discriminate; try reflexivity; auto; destruct H; discriminate.
  - intros doc libraryThrows download. unfold Toolbar.handleExport.
    destruct (pdfData doc) as [data|]; [|discriminate].
    destruct libraryThrows; [discriminate|].
    intros H. inversion H. split_and!; [exists data|..]; reflexivity.
Qed.

Lemma export_page_by_page_witness :
  pages Samples.sampleDoc !! 1%nat = Some (Samples.letterPage 1 []) /\
  textBoxes (Samples.letterPage 1 []) = [] /\
  Exporter.exportPDF Samples.binary64 Samples.fixedFont Samples.letterHeight
    (pages Samples.sampleDoc) !! 1%nat = Some [] /\
  Toolbar.handleExport Samples.binary64 Samples.fixedFont Samples.letterHeight true
    Samples.sampleDoc = None /\
  (exists download,
     Toolbar.handleExport Samples.binary64 Samples.fixedFont Samples.letterHeight false
       Samples.sampleDoc = Some download /\
     snd download = "report_edited.pdf").
Proof.
  split_and!; [reflexivity | reflexivity | | |].
  - exact (proj1 (proj2 (export_page_by_page Samples.binary64 Samples.fixedFont
                           Samples.letterHeight (pages Samples.sampleDoc)))
             1%nat (Samples.letterPage 1 []) eq_refl eq_refl).
  - apply (proj1 (proj2 (proj2 (proj2
             (export_page_by_page Samples.binary64 Samples.fixedFont
                Samples.letterHeight (pages Samples.sampleDoc)))))).
    right. reflexivity.
  - eexists. split; reflexivity.
Defined.

(* ===================================================================== *)
(** ** The toolbar and the page: handlers *)
(* ===================================================================== *)

Section HandlerFacts.

Import Actions Handlers Props.

Lemma all_boxes_hasBox (doc : DocumentState) box :
  box ∈ (pages doc ≫= textBoxes) <->
  exists page, page ∈ pages doc /\ box ∈ textBoxes page.
Proof.
  rewrite list_elem_of_bind. split; intros (page & H1 & H2); exists page; auto.
Qed.

Lemma undo_edit s m :
  pages (undo (edit s m)) = pages s /\
  past (history (undo (edit s m))) = past (history s).
Proof.
  assert (Hp : past (history (edit s m)) = past (history s) ++ [{| hpages := pages s |}])
    by (rewrite edit_history; reflexivity).
  destruct (undo_snoc _ _ _ Hp) as (Hpg & Hpast & _). auto.
Qed.

Lemma updateFontSize_as_updateSelected size doc prefs :
  Toolbar.updateFontSize size (doc, prefs)
    = (updateSelected (Toolbar.fontSizeUpdate size) doc, setDefaultFontSize size prefs).
Proof. reflexivity. Qed.

Lemma spread_mergedBox (box : TextBox) (u : PartialTextBox) :
  Spec.mergedBox u box (spread box u).
Proof.
  unfold Spec.mergedBox, Spec.merged, spread.
  destruct u as [a1 a2 a3 a4 a5 a6 a7 a8 a9 a10 a11 a12 a13 a14]. simpl.
  destruct a1, a2, a3, a4, a5, a6, a7; simpl; split_and!; try reflexivity;
    destruct a8, a9, a10, a11; simpl; try reflexivity;
    destruct a12, a13, a14; reflexivity.
Qed.

(** [updateTextBox] works position by position. *)
Lemma updateTextBox_in_place i u s :
  updatedInPlace i (fun box box' => box' = spread box u)
    (pages s) (pages (updateTextBox i u s)).
Proof.
  split.
  - simpl. apply length_fmap.
  - intros k page Hk. simpl. rewrite list_lookup_fmap, Hk. simpl.
    eexists; split; [reflexivity|]. simpl. split_and!; try reflexivity.
    + apply length_fmap.
    + intros j box Hj. rewrite list_lookup_fmap, Hj. simpl.
      eexists; split; [reflexivity|].
      destruct (decide (id box = i)) as [Heq|Hne]; split; intros H;
        try reflexivity; contradiction.
Qed.

Lemma updatedInPlace_impl i (c1 c2 : TextBox -> TextBox -> Prop) ps ps' :
  (forall box box', id box = i -> c1 box box' -> c2 box box') ->
  updatedInPlace i c1 ps ps' -> updatedInPlace i c2 ps ps'.
Proof.
  intros Himpl [Hlen Hpages]. split; [exact Hlen|].
  intros k page Hk.
  destruct (Hpages k page Hk) as (page' & Hk' & Hi & Hw & Hh & Hn & Hboxes).
  exists page'. split_and!; try assumption.
  intros j box Hj. destruct (Hboxes j box Hj) as (box' & Hj' & Hother & Hsame).
  exists box'. split_and!; [exact Hj' | exact Hother |].
  intros Hid. apply Himpl; [exact Hid | exact (Hsame Hid)].
Qed.

Lemma updateTextBox_sameOutsidePages i u s :
  Spec.sameOutsidePages true s (updateTextBox i u s).
Proof. unfold Spec.sameOutsidePages. simpl. split_and!; reflexivity. Qed.

Lemma Qeq_bool_false (p q : Q) : ~ (p == q)%Q -> Qeq_bool p q = false.
Proof.
  intros Hne. destruct (Qeq_bool p q) eqn:E; [|reflexivity].
  exfalso. apply Hne, Qeq_bool_iff. exact E.
Qed.

End HandlerFacts.

(** X21. The box the toolbar acts on is a box of the document whose id is
    the selected id; there is none exactly when nothing is selected, the
    selected id is empty, or no box of the document has the selected id. *)
Theorem selectedBox_is_the_selection (doc : DocumentState) :
  (forall box, Toolbar.selectedBox doc = Some box ->
     selectedBoxId (selection doc) = Some (id box) /\
     truthy (id box) = true /\
     hasBox (id box) (pages doc) /\
     exists page, page ∈ pages doc /\ box ∈ textBoxes page) /\
  (Toolbar.selectedBox doc = None <->
     selectedBoxId (selection doc) = None \/
     selectedBoxId (selection doc) = Some EmptyString \/
     exists i, selectedBoxId (selection doc) = Some i /\ ~ hasBox i (pages doc)).
Proof.
  unfold Toolbar.selectedBox. split.
  - intros box Hfind.
    destruct (selectedBoxId (selection doc)) as [i|]; [|discriminate].
    destruct (truthy i) eqn:Et; [|discriminate].
    apply List.find_some in Hfind as [Hin Hid].
    apply bool_decide_eq_true in Hid. subst i.
    apply list_elem_of_In, all_boxes_hasBox in Hin as (page & Hpage & Hbox).
    split_and!; [reflexivity | exact Et | | ].
    + exists page, box. auto.
    + exists page. auto.
  - destruct (selectedBoxId (selection doc)) as [i|]; [|split; auto].
    destruct (truthy i) eqn:Et.
    + split.
      * intros Hnone. right. right. exists i. split; [reflexivity|].
        intros (page & box & Hpage & Hbox & Hid).
        assert (Hin : List.In box (pages doc ≫= textBoxes)).
        { apply list_elem_of_In, all_boxes_hasBox. exists page. auto. }
        pose proof (List.find_none _ _ Hnone box Hin) as Hf. cbn in Hf.
        apply bool_decide_eq_false in Hf. contradiction.
      * intros [Hn | [He | (j & Hj & Hno)]]; [discriminate | |].
        -- inversion He; subst i. discriminate.
        -- inversion Hj; subst j.
           destruct (List.find _ _) as [box|] eqn:Hfind; [|reflexivity].
           exfalso. apply List.find_some in Hfind as [Hin Hid].
           apply bool_decide_eq_true in Hid.
           apply list_elem_of_In, all_boxes_hasBox in Hin as (page & Hpage & Hbox).
           apply Hno. exists page, box. auto.
    + split; [|reflexivity]. intros _. right. left.
      apply truthy_false in Et. subst i. reflexivity.
Qed.

Lemma selectedBox_is_the_selection_witness :
  Toolbar.selectedBox Samples.sampleDoc = Some Samples.sampleBox /\
  selectedBoxId (selection Samples.sampleDoc) = Some (id Samples.sampleBox) /\
  hasBox (id Samples.sampleBox) (pages Samples.sampleDoc).
Proof.
  split; [reflexivity|].
  destruct (proj1 (selectedBox_is_the_selection Samples.sampleDoc)
              Samples.sampleBox eq_refl) as (H1 & _ & H2 & _).
  split; assumption.
Defined.

(** X22. A style change from the toolbar with no box selected leaves the
    document untouched; with a box selected it records exactly one
    snapshot, clears what could be redone, keeps the selection, and one
    undo brings back the pages and the past as they were. Alignment and
    mode changes never touch the preferences, while font family, colour
    and size changes set the default whether or not a box is selected. *)
Theorem style_change_is_one_undo_step (u : PartialTextBox) (doc : DocumentState) :
  let doc' := Handlers.updateSelected u doc in
  (Toolbar.selectedBox doc = None -> doc' = doc) /\
  (forall box, Toolbar.selectedBox doc = Some box ->
     doc' = updateTextBox (id box) u (saveHistory doc) /\
     length (past (history doc')) = S (length (past (history doc))) /\
     future (history doc') = [] /\
     selection doc' = selection doc /\
     pages (undo doc') = pages doc /\
     past (history (undo doc')) = past (history doc)) /\
  (forall size prefs,
     fst (Toolbar.updateFontSize size (doc, prefs))
       = Handlers.updateSelected (Toolbar.fontSizeUpdate size) doc) /\
  (forall a m f c size prefs,
     snd (Handlers.updateTextAlign a (doc, prefs)) = prefs /\
     snd (Handlers.updateMode m (doc, prefs)) = prefs /\
     defaultFontFamily (snd (Handlers.updateFontFamily f (doc, prefs))) = f /\
     defaultColor (snd (Handlers.updateColor c (doc, prefs))) = c /\
     defaultFontSize (snd (Toolbar.updateFontSize size (doc, prefs)))
       = Qmax 1 (Qmin 200 size)).
Proof.
  intros doc'. subst doc'. unfold Handlers.updateSelected. split_and!.
  - intros ->. reflexivity.
  - intros box ->.
    change (updateTextBox (id box) u (saveHistory doc))
      with (edit doc (MUpdate (id box) u)).
    destruct (undo_edit doc (MUpdate (id box) u)) as [Hpg Hpast].
    rewrite edit_history. cbn [past future]. rewrite length_app. cbn [length].
    split_and!; try reflexivity; try assumption. lia.
  - reflexivity.
  - intros. split_and!; reflexivity.
Qed.

Lemma style_change_is_one_undo_step_witness :
  Toolbar.selectedBox Samples.sampleDoc = Some Samples.sampleBox /\
  pages (undo (Handlers.updateSelected (Handlers.colorUpdate "#00FF00") Samples.sampleDoc))
    = pages Samples.sampleDoc.
Proof.
  split; [reflexivity|].
  destruct (proj1 (proj2 (style_change_is_one_undo_step
                            (Handlers.colorUpdate "#00FF00") Samples.sampleDoc))
              Samples.sampleBox eq_refl) as (_ & _ & _ & _ & H & _).
  exact H.
Defined.

(** X23. A click on a page does nothing unless the text tool is active and
    the page exists. Otherwise (with a non-empty new id) it appends to that
    page one overlay box of 200 by 50 points with the text "New Text", the
    default font, size and colour, at a position that is never negative;
    the box is selected and in edit mode, the preferences are unchanged,
    and one undo brings back the pages as they were. *)
Theorem page_click_creates_box (newId : string) (pageIdx : nat) (clickX clickY : Q)
    (doc : DocumentState) (prefs : EditorPreferences) :
  (activeTool prefs = select \/ pages doc !! pageIdx = None ->
     PDFPage.handlePageClick newId pageIdx clickX clickY (doc, prefs) = (doc, prefs)) /\
  (forall page,
     activeTool prefs = textTool -> pages doc !! pageIdx = Some page ->
     truthy newId = true ->
     let st' := PDFPage.handlePageClick newId pageIdx clickX clickY (doc, prefs) in
     snd st' = prefs /\
     selection (fst st') = {| selectedBoxId := Some newId; isEditing := true |} /\
     length (pages (fst st')) = length (pages doc) /\
     (exists box,
        getTextBoxesForPage (Z.of_nat pageIdx) (fst st') = textBoxes page ++ [box] /\
        id box = newId /\ pageIndex box = Z.of_nat pageIdx /\
        (0 <= x box)%Q /\ (0 <= y box)%Q /\
        width box = 200%Q /\ height box = 50%Q /\ text box = "New Text" /\
        mode box = overlay /\ backgroundColor box = None /\
        fontFamily box = defaultFontFamily prefs /\
        fontSize box = defaultFontSize prefs /\ color box = defaultColor prefs) /\
     pages (undo (fst st')) = pages doc /\
     past (history (undo (fst st'))) = past (history doc)).
Proof.
  split.
  - intros [Htool | Hnone]; unfold PDFPage.handlePageClick.
    + rewrite Htool. reflexivity.
    + rewrite Hnone. destruct (activeTool prefs); reflexivity.
  - intros page Htool Hpage Hid st'.
    set (newTextBox :=
           {| id := newId; pageIndex := Z.of_nat pageIdx;
              x := Qmax 0 (clickX / zoom doc); y := Qmax 0 (clickY / zoom doc);
              width := 200%Q; height := 50%Q; text := "New Text";
              fontFamily := defaultFontFamily prefs;
              fontSize := defaultFontSize prefs; color := defaultColor prefs;
              fontWeight := Some normal; textAlign := Some left;
              backgroundColor := None; mode := overlay |}).
    set (final :=
           set_selection {| selectedBoxId := Some newId; isEditing := true |}
             (set_pages
                (<[pageIdx := set_textBoxes page (textBoxes page ++ [newTextBox])]>
                   (pages doc))
                (saveHistory doc))).
    assert (Hlt : (pageIdx < length (pages doc))%nat) by (eapply lookup_lt_Some; exact Hpage).
    assert (Hst : st' = (final, prefs)).
    { subst st'. unfold PDFPage.handlePageClick. rewrite Htool, Hpage.
      fold newTextBox.
      rewrite (addTextBox_in_range newTextBox (saveHistory doc) page);
        [| cbn; lia | cbn [pageIndex newTextBox]; rewrite Nat2Z.id; exact Hpage].
      cbn [pageIndex newTextBox]. rewrite Nat2Z.id.
      unfold enterEditMode.
      cbn [selectTextBox set_selection selection selectedBoxId]. rewrite Hid.
      reflexivity. }
    rewrite Hst. cbn [fst snd].
    assert (Hpages : pages final
                     = <[pageIdx := set_textBoxes page (textBoxes page ++ [newTextBox])]>
                         (pages doc)) by reflexivity.
    assert (Hpast : past (history final)
                    = past (history doc) ++ [{| hpages := pages doc |}]) by reflexivity.
    destruct (undo_snoc final _ _ Hpast) as (Hupg & Hupast & _).
    split_and!.
    + reflexivity.
    + reflexivity.
    + rewrite Hpages. apply length_insert.
    + exists newTextBox. split_and!; try reflexivity; try apply Q.le_max_l.
      unfold getTextBoxesForPage. rewrite Hpages, length_insert.
      rewrite !bool_decide_eq_true_2 by lia. cbn [andb].
      rewrite Nat2Z.id, list_lookup_insert_eq by exact Hlt. reflexivity.
    + exact Hupg.
    + exact Hupast.
Qed.

Lemma page_click_creates_box_witness :
  activeTool (setActiveTool textTool initialPreferences) = textTool /\
  pages Samples.sampleDoc !! 1%nat = Some (Samples.letterPage 1 []) /\
  truthy "n1" = true /\
  selection (fst (PDFPage.handlePageClick "n1" 1 (- (30)) 40
                    (Samples.sampleDoc, setActiveTool textTool initialPreferences)))
    = {| selectedBoxId := Some "n1"; isEditing := true |} /\
  pages (undo (fst (PDFPage.handlePageClick "n1" 1 (- (30)) 40
                      (Samples.sampleDoc, setActiveTool textTool initialPreferences))))
    = pages Samples.sampleDoc.
Proof.
  destruct (proj2 (page_click_creates_box "n1" 1 (- (30)) 40 Samples.sampleDoc
                     (setActiveTool textTool initialPreferences))
              (Samples.letterPage 1 []) eq_refl eq_refl eq_refl)
    as (_ & Hsel & _ & _ & Hundo & _).
  split_and!; [reflexivity | reflexivity | reflexivity | exact Hsel | exact Hundo].
Defined.

(* ===================================================================== *)
(** ** The overlay: drag, resize and keys *)
(* ===================================================================== *)

(** X24. While a box is dragged, a pointer move with a zoom other than 0
    records no history and keeps the selection, every other field outside
    the pages and the gesture; the pages are the old pages position by
    position, the boxes with another id kept as they are, and each box with
    the dragged id keeping every field but x and y, which become
    [max(0, (client - dragStart) / zoom)] as the program computes it: a
    position that is not negative, wherever the pointer is and whatever the
    rounding. With a zoom of 0, and only then, the quotient is no number. *)
Theorem drag_keeps_position_non_negative (round : Q -> Q) (textBox : TextBox)
    (zoomLevel : Q) (client : Q * Q) (doc : DocumentState) (g : Overlay.Gesture) :
  Overlay.isDragging g = true ->
  let newX :=
    round (round (fst client - fst (Overlay.dragStart g))%Q / zoomLevel)%Q in
  let newY :=
    round (round (snd client - snd (Overlay.dragStart g))%Q / zoomLevel)%Q in
  (Overlay.handleMouseMove round textBox zoomLevel client (doc, g) = None
   <-> (zoomLevel == 0)%Q) /\
  (~ (zoomLevel == 0)%Q ->
   exists doc',
     Overlay.handleMouseMove round textBox zoomLevel client (doc, g) = Some (doc', g) /\
     Spec.sameOutsidePages true doc doc' /\
     Props.updatedInPlace (id textBox)
       (fun box box' =>
          Spec.mergedBox (Handlers.positionUpdate (Qmax 0 newX) (Qmax 0 newY)) box box' /\
          (0 <= x box')%Q /\ (0 <= y box')%Q)
       (pages doc) (pages doc')).
Proof.
  intros Hdrag newX newY. unfold Overlay.handleMouseMove. rewrite Hdrag. split.
  - destruct (Qeq_bool zoomLevel 0) eqn:E.
    + split; [intros _; apply Qeq_bool_iff; exact E | reflexivity].
    + split; [discriminate|]. intros Hz. apply Qeq_bool_iff in Hz. congruence.
  - intros Hz. rewrite (Qeq_bool_false _ _ Hz). fold newX newY.
    eexists. split; [reflexivity|]. unfold Handlers.onUpdate. split.
    + apply updateTextBox_sameOutsidePages.
    + eapply updatedInPlace_impl; [|apply updateTextBox_in_place].
      intros box box' _ ->. split_and!.
      * apply spread_mergedBox.
      * apply Q.le_max_l.
      * apply Q.le_max_l.
Qed.

Lemma drag_keeps_position_non_negative_witness :
  Overlay.isDragging (Overlay.mkGesture true false (100, 100)%Q) = true /\
  ~ (1 == 0)%Q /\
  exists doc',
    Overlay.handleMouseMove Samples.binary64 Samples.sampleBox 1 (0, 0)%Q
      (Samples.sampleDoc, Overlay.mkGesture true false (100, 100)%Q)
      = Some (doc', Overlay.mkGesture true false (100, 100)%Q) /\
    history doc' = history Samples.sampleDoc /\
    length (pages doc') = length (pages Samples.sampleDoc) /\
    pages doc'
      = [Samples.letterPage 0
           [spread Samples.sampleBox (Handlers.positionUpdate 0 0); Samples.otherBox];
         Samples.letterPage 1 []].
Proof.
  assert (Hz : ~ (1 == 0)%Q) by discriminate.
  split; [reflexivity|]. split; [exact Hz|].
  destruct (proj2 (drag_keeps_position_non_negative Samples.binary64 Samples.sampleBox
                     1 (0, 0)%Q Samples.sampleDoc
                     (Overlay.mkGesture true false (100, 100)%Q) eq_refl) Hz)
    as (doc' & Hmove & Hsame & Hlen & _).
  exists doc'. split_and!; [exact Hmove | apply Hsame | exact Hlen |].
  revert Hmove. vm_compute. intros Hmove. inversion Hmove. reflexivity.
Defined.

(** X25. Pressing the mouse on a box that is being edited does nothing.
    Otherwise it records one snapshot, selects the box outside edit mode
    and starts a drag measured from [client - box * zoom], as the program
    computes it. If the pointer then moves back to (or stays at) the point
    where it was pressed, with a zoom other than 0, the boxes with another
    id are kept and every box with that id keeps every field but x and y,
    which become [max(0, (client - dragStart) / zoom)]; without rounding,
    and for a box at a non-negative position, that is where the dragged box
    was. *)
Theorem press_then_move_back (round : Q -> Q) (textBox : TextBox) (zoomLevel : Q)
    (client : Q * Q) (doc : DocumentState) (g : Overlay.Gesture) :
  Overlay.handleMouseDown round textBox true zoomLevel client (doc, g) = (doc, g) /\
  let st1 := Overlay.handleMouseDown round textBox false zoomLevel client (doc, g) in
  let startX := round (fst client - round (x textBox * zoomLevel)%Q)%Q in
  let startY := round (snd client - round (y textBox * zoomLevel)%Q)%Q in
  let backX := Qmax 0 (round (round (fst client - startX)%Q / zoomLevel)%Q) in
  let backY := Qmax 0 (round (round (snd client - startY)%Q / zoomLevel)%Q) in
  Overlay.isDragging (snd st1) = true /\
  Overlay.dragStart (snd st1) = (startX, startY) /\
  selection (fst st1) = {| selectedBoxId := Some (id textBox); isEditing := false |} /\
  pages (fst st1) = pages doc /\
  past (history (fst st1)) = past (history doc) ++ [{| hpages := pages doc |}] /\
  (~ (zoomLevel == 0)%Q ->
   exists doc2,
     Overlay.handleMouseMove round textBox zoomLevel client st1 = Some (doc2, snd st1) /\
     Spec.sameOutsidePages true (fst st1) doc2 /\
     Props.updatedInPlace (id textBox)
       (fun box box' => Spec.mergedBox (Handlers.positionUpdate backX backY) box box')
       (pages doc) (pages doc2) /\
     ((forall q, round q == q)%Q -> (0 <= x textBox)%Q -> (0 <= y textBox)%Q ->
        (backX == x textBox)%Q /\ (backY == y textBox)%Q)).
Proof.
  split; [reflexivity|].
  intros st1 startX startY backX backY. subst st1.
  cbn [Overlay.handleMouseDown fst snd].
  unfold Overlay.handleMouseMove. cbn [Overlay.isDragging Overlay.dragStart fst snd].
  fold startX startY. split_and!; try reflexivity.
  intros Hz. rewrite (Qeq_bool_false _ _ Hz). fold backX backY.
  eexists. split; [reflexivity|]. unfold Handlers.onUpdate. split_and!.
  - apply updateTextBox_sameOutsidePages.
  - eapply updatedInPlace_impl;
      [|apply (updateTextBox_in_place (id textBox)
                 (Handlers.positionUpdate backX backY)
                 (Handlers.onSelect (id textBox) doc))].
    intros box box' _ ->. apply spread_mergedBox.
  - intros Hexact Hx Hy. subst backX backY startX startY.
    destruct client as [cx cy]. cbn [fst snd].
    assert (Ex : (round (round (cx - round (cx - round (x textBox * zoomLevel)))
                         / zoomLevel) == x textBox)%Q)
      by (rewrite !Hexact; field; exact Hz).
    assert (Ey : (round (round (cy - round (cy - round (y textBox * zoomLevel)))
                         / zoomLevel) == y textBox)%Q)
      by (rewrite !Hexact; field; exact Hz).
    split.
    + rewrite Q.max_r; [exact Ex | rewrite Ex; exact Hx].
    + rewrite Q.max_r; [exact Ey | rewrite Ey; exact Hy].
Qed.

(** In binary64, at a zoom of 1.1 the box at (72, 72) pressed at (300, 372)
    and released there is stored at x = y = 71.999999999999986; without
    rounding it stays at x = 72. *)
Lemma press_then_move_back_witness :
  ~ (Samples.binary64 (11 # 10) == 0)%Q /\
  (exists doc2 g2,
     Overlay.handleMouseMove Samples.binary64 Samples.sampleBox
       (Samples.binary64 (11 # 10)) (300, 372)%Q
       (Overlay.handleMouseDown Samples.binary64 Samples.sampleBox false
          (Samples.binary64 (11 # 10)) (300, 372)%Q (Samples.sampleDoc, Overlay.idle))
       = Some (doc2, g2) /\
     pages doc2
       = [Samples.letterPage 0
            [spread Samples.sampleBox
               (Handlers.positionUpdate (5066549580791807 # 70368744177664)
                  (5066549580791807 # 70368744177664));
             Samples.otherBox];
          Samples.letterPage 1 []]) /\
  (5066549580791807 # 70368744177664 < 72)%Q /\
  (forall q, Samples.exact q == q)%Q /\
  (0 <= x Samples.sampleBox)%Q /\ (0 <= y Samples.sampleBox)%Q /\
  (Qmax 0 (Samples.exact
             (Samples.exact
                (300 - Samples.exact
                         (300 - Samples.exact (x Samples.sampleBox * (11 # 10))))
              / (11 # 10)))
   == x Samples.sampleBox)%Q.
Proof.
  assert (Hz : ~ (Samples.binary64 (11 # 10) == 0)%Q) by (vm_compute; discriminate).
  assert (Hz' : ~ (11 # 10 == 0)%Q) by discriminate.
  assert (Hexact : (forall q, Samples.exact q == q)%Q) by (intros q; reflexivity).
  assert (Hx : (0 <= x Samples.sampleBox)%Q) by discriminate.
  assert (Hy : (0 <= y Samples.sampleBox)%Q) by discriminate.
  split; [exact Hz|]. split; [|split; [reflexivity|]].
  - destruct (proj2 (proj2 (proj2 (proj2 (proj2 (proj2
                (press_then_move_back Samples.binary64 Samples.sampleBox
                   (Samples.binary64 (11 # 10)) (300, 372)%Q Samples.sampleDoc
                   Overlay.idle)))))) Hz)
      as (doc2 & Hmove & _).
    eexists doc2, _. split; [exact Hmove|].
    revert Hmove. vm_compute. intros Hmove. inversion Hmove. reflexivity.
  - split_and!; [exact Hexact | exact Hx | exact Hy |].
    destruct (proj2 (proj2 (proj2 (proj2 (proj2 (proj2
                (press_then_move_back Samples.exact Samples.sampleBox
                   (11 # 10) (300, 400)%Q Samples.sampleDoc
                   Overlay.idle)))))) Hz')
      as (doc2 & _ & _ & _ & Hback).
    exact (proj1 (Hback Hexact Hx Hy)).
Defined.

(** X26. While a box is resized (and not dragged), a pointer move with a
    zoom other than 0 records no history, keeps the selection and every
    other field outside the pages, and restarts the measure from the
    pointer; the pages are the old pages position by position, the boxes
    with another id kept as they are, and each box with the resized id
    keeping every field but width and height, which become
    [max(50, width + deltaX / zoom)] and [max(20, height + deltaY / zoom)]
    as the program computes them from the size of the resized box: at least
    50 points wide and 20 points high, wherever the pointer is and whatever
    the rounding. With a zoom of 0, and only then, the quotient is no
    number. *)
Theorem resize_keeps_minimum_size (round : Q -> Q) (textBox : TextBox)
    (zoomLevel : Q) (client : Q * Q) (doc : DocumentState) (g : Overlay.Gesture) :
  Overlay.isDragging g = false -> Overlay.isResizing g = true ->
  let deltaX := round (fst client - fst (Overlay.dragStart g))%Q in
  let deltaY := round (snd client - snd (Overlay.dragStart g))%Q in
  let newWidth := Qmax 50 (round (width textBox + round (deltaX / zoomLevel)%Q)%Q) in
  let newHeight := Qmax 20 (round (height textBox + round (deltaY / zoomLevel)%Q)%Q) in
  (Overlay.handleMouseMove round textBox zoomLevel client (doc, g) = None
   <-> (zoomLevel == 0)%Q) /\
  (~ (zoomLevel == 0)%Q ->
   exists doc' g',
     Overlay.handleMouseMove round textBox zoomLevel client (doc, g) = Some (doc', g') /\
     Overlay.dragStart g' = client /\
     Overlay.isResizing g' = true /\ Overlay.isDragging g' = false /\
     Spec.sameOutsidePages true doc doc' /\
     Props.updatedInPlace (id textBox)
       (fun box box' =>
          Spec.mergedBox (Handlers.sizeUpdate newWidth newHeight) box box' /\
          (50 <= width box')%Q /\ (20 <= height box')%Q)
       (pages doc) (pages doc')).
Proof.
  intros Hdrag Hres deltaX deltaY newWidth newHeight.
  unfold Overlay.handleMouseMove. rewrite Hdrag, Hres. split.
  - destruct (Qeq_bool zoomLevel 0) eqn:E.
    + split; [intros _; apply Qeq_bool_iff; exact E | reflexivity].
    + split; [discriminate|]. intros Hz. apply Qeq_bool_iff in Hz. congruence.
  - intros Hz. rewrite (Qeq_bool_false _ _ Hz). fold deltaX deltaY newWidth newHeight.
    eexists _, _. split; [reflexivity|].
    cbn [Overlay.dragStart Overlay.isResizing Overlay.isDragging].
    unfold Handlers.onUpdate. split_and!; try reflexivity; try assumption.
    + apply updateTextBox_sameOutsidePages.
    + eapply updatedInPlace_impl; [|apply updateTextBox_in_place].
      intros box box' _ ->. split_and!.
      * apply spread_mergedBox.
      * apply Q.le_max_l.
      * apply Q.le_max_l.
Qed.

Lemma resize_keeps_minimum_size_witness :
  Overlay.isDragging (Overlay.handleResizeMouseDown (500, 500)%Q Overlay.idle) = false /\
  Overlay.isResizing (Overlay.handleResizeMouseDown (500, 500)%Q Overlay.idle) = true /\
  ~ (1 == 0)%Q /\
  exists doc' g',
    Overlay.handleMouseMove Samples.binary64 Samples.sampleBox 1 (0, 0)%Q
      (Samples.sampleDoc, Overlay.handleResizeMouseDown (500, 500)%Q Overlay.idle)
      = Some (doc', g') /\
    Overlay.dragStart g' = (0, 0)%Q /\
    pages doc'
      = [Samples.letterPage 0
           [spread Samples.sampleBox (Handlers.sizeUpdate 50 20); Samples.otherBox];
         Samples.letterPage 1 []].
Proof.
  assert (Hz : ~ (1 == 0)%Q) by discriminate.
  split_and!; [reflexivity | reflexivity | exact Hz |].
  destruct (proj2 (resize_keeps_minimum_size Samples.binary64 Samples.sampleBox 1
                     (0, 0)%Q Samples.sampleDoc
                     (Overlay.handleResizeMouseDown (500, 500)%Q Overlay.idle)
                     eq_refl eq_refl) Hz)
    as (doc' & g' & Hmove & Hstart & _).
  exists doc', g'. split_and!; [exact Hmove | exact Hstart |].
  revert Hmove. vm_compute. intros Hmove. inversion Hmove. reflexivity.
Defined.

(** X27. The Delete key reaches the store only for a selected box that is
    not being edited; Escape and the other keys never change the document.
    When it does delete, no box with that id is left, nothing is selected,
    and one undo brings back the pages as they were. *)
Theorem delete_key_is_one_undo_step (textBox : TextBox) (selected editing : bool)
    (doc : DocumentState) :
  Overlay.handleKeyDown textBox Overlay.KeyEscape selected editing doc = doc /\
  Overlay.handleKeyDown textBox Overlay.KeyOther selected editing doc = doc /\
  (editing = true \/ selected = false ->
     Overlay.handleKeyDown textBox Overlay.KeyDelete selected editing doc = doc) /\
  (editing = false -> selected = true ->
     let doc' := Overlay.handleKeyDown textBox Overlay.KeyDelete selected editing doc in
     ~ hasBox (id textBox) (pages doc') /\
     selection doc' = noSelection /\
     pages (undo doc') = pages doc /\
     past (history (undo doc')) = past (history doc)).
Proof.
  split_and!; try reflexivity.
  - intros [-> | ->]; cbn; [reflexivity | destruct editing; reflexivity].
  - intros -> -> doc'. subst doc'. cbn [Overlay.handleKeyDown negb andb].
    unfold Handlers.onDelete.
    change (deleteTextBox (id textBox) (saveHistory doc))
      with (edit doc (MDelete (id textBox))).
    destruct (undo_edit doc (MDelete (id textBox))) as [Hpg Hpast].
    split_and!; [| reflexivity | exact Hpg | exact Hpast].
    intros (page & box & Hpage & Hbox & Hid). cbn in Hpage.
    apply list_elem_of_fmap in Hpage as (page0 & -> & _). cbn in Hbox.
    apply list_elem_of_filter in Hbox as [Hne _]. contradiction.
Qed.

Lemma delete_key_is_one_undo_step_witness :
  pages (undo (Overlay.handleKeyDown Samples.sampleBox Overlay.KeyDelete true false
                 Samples.sampleDoc))
    = pages Samples.sampleDoc.
Proof.
  destruct (proj2 (proj2 (proj2 (delete_key_is_one_undo_step Samples.sampleBox true false
                                   Samples.sampleDoc))) eq_refl eq_refl)
    as (_ & _ & H & _).
  exact H.
Defined.

(* ===================================================================== *)
(** ** The loader and the editor preferences *)
(* ===================================================================== *)

(** X28. [extractPageInfo] returns exactly [numPages] pages; page [k]
    (from 0) has index [k], the viewport size of page number [k + 1] and no
    text box. So a document opened from a file has as many pages as its
    page count says, is marked loaded, and reads as empty on every page. *)
Theorem loader_pages_match_count (pdfDoc : Loader.PDFDocumentProxy)
    (name : string) (data : list Byte.byte) (s0 : DocumentState) :
  let ps := Loader.extractPageInfo pdfDoc in
  let s := Loader.openFile name data pdfDoc s0 in
  length ps = Loader.docNumPages pdfDoc /\
  (forall k, (k < Loader.docNumPages pdfDoc)%nat ->
     exists page,
       ps !! k = Some page /\ index page = Z.of_nat k /\
       pwidth page = fst (Loader.viewportAt pdfDoc (S k)) /\
       pheight page = snd (Loader.viewportAt pdfDoc (S k)) /\
       textBoxes page = []) /\
  Z.of_nat (length (pages s)) = numPages s /\
  isLoaded s = true /\ fileName s = Some name /\
  Props.boxesOnTheirPage (pages s) /\
  (forall j, getTextBoxesForPage j s = []).
Proof.
  intros ps s.
  assert (Hlen : length ps = Loader.docNumPages pdfDoc).
  { subst ps. unfold Loader.extractPageInfo. rewrite length_fmap. apply length_seq. }
  assert (Hnone : forall k page, ps !! k = Some page -> textBoxes page = []).
  { intros k page Hk. subst ps. unfold Loader.extractPageInfo in Hk.
    rewrite list_lookup_fmap in Hk.
    destruct (seq 1 (Loader.docNumPages pdfDoc) !! k); [|discriminate].
    cbn in Hk. inversion Hk. reflexivity. }
  split_and!.
  - exact Hlen.
  - intros k Hk. subst ps. unfold Loader.extractPageInfo.
    rewrite list_lookup_fmap.
    assert (Hs : seq 1 (Loader.docNumPages pdfDoc) !! k = Some (S k))
      by (apply lookup_seq; split; [reflexivity | exact Hk]).
    rewrite Hs. cbn [fmap option_fmap option_map].
    eexists; split; [reflexivity|]. cbn [index pwidth pheight textBoxes].
    split_and!; try reflexivity. lia.
  - subst s. cbn [Loader.openFile loadPDF pages numPages]. fold ps. rewrite Hlen. reflexivity.
  - reflexivity.
  - reflexivity.
  - intros k page box Hk Hbox. subst s. cbn [Loader.openFile loadPDF pages] in Hk.
    fold ps in Hk. rewrite (Hnone _ _ Hk) in Hbox. list_cases.
  - intros j. unfold getTextBoxesForPage.
    destruct (_ && _); [|reflexivity].
    destruct (pages s !! Z.to_nat j) as [page|] eqn:Hp; [|reflexivity].
    exact (Hnone _ _ Hp).
Qed.

Lemma loader_pages_match_count_witness :
  (1 < Loader.docNumPages Props.twoPages)%nat /\
  exists page,
    Loader.extractPageInfo Props.twoPages !! 1%nat = Some page /\
    index page = 1%Z /\ textBoxes page = [].
Proof.
  assert (H : (1 < Loader.docNumPages Props.twoPages)%nat) by (cbn; lia).
  split; [exact H|].
  destruct (proj1 (proj2 (loader_pages_match_count Props.twoPages "report.pdf" []
                            initialState)) 1%nat H)
    as (page & Hk & Hi & _ & _ & Hb).
  exists page. split_and!; assumption.
Defined.

(** X29. After any sequence of editor-store actions from the initial
    preferences, the default font size lies between 1 and 200, whatever
    sizes were entered; so every box created by a click on a page gets a
    font size in that range. *)
Theorem default_font_size_stays_in_range (actions : list Actions.EditorAction) :
  let prefs := Actions.runEditor actions initialPreferences in
  Spec.fontSizeInRange (defaultFontSize prefs) /\
  (forall newId pageIdx clickX clickY doc page,
     activeTool prefs = textTool -> pages doc !! pageIdx = Some page ->
     exists page' box,
       pages (fst (PDFPage.handlePageClick newId pageIdx clickX clickY (doc, prefs)))
         !! pageIdx = Some page' /\
       last (textBoxes page') = Some box /\ id box = newId /\
       Spec.fontSizeInRange (fontSize box)).
Proof.
  intros prefs.
  assert (Hrange : Spec.fontSizeInRange (defaultFontSize prefs)).
  { subst prefs. induction actions as [|a actions IH] using rev_ind.
    - cbn. split; discriminate.
    - unfold Actions.runEditor in *. rewrite foldl_snoc.
      destruct a; cbn [Actions.performEditor]; try exact IH.
      apply setDefaultFontSize_in_range. }
  split; [exact Hrange|].
  intros newId pageIdx clickX clickY doc page Htool Hpage.
  destruct (handlePageClick_font_size newId pageIdx clickX clickY doc prefs page
              Htool Hpage) as (page' & Hk & box & Hlast & Hid & Hsize).
  exists page', box. split_and!; try assumption. rewrite Hsize. exact Hrange.
Qed.

Lemma default_font_size_stays_in_range_witness :
  activeTool (Actions.runEditor
                [Actions.ESetDefaultFontSize 500; Actions.ESetActiveTool textTool]
                initialPreferences) = textTool /\
  pages Samples.sampleDoc !! 1%nat = Some (Samples.letterPage 1 []) /\
  exists page' box,
    pages (fst (PDFPage.handlePageClick "n1" 1 10 10
                  (Samples.sampleDoc,
                   Actions.runEditor
                     [Actions.ESetDefaultFontSize 500; Actions.ESetActiveTool textTool]
                     initialPreferences))) !! 1%nat = Some page' /\
    last (textBoxes page') = Some box /\ id box = "n1" /\
    Spec.fontSizeInRange (fontSize box).
Proof.
  split_and!; [reflexivity | reflexivity |].
  exact (proj2 (default_font_size_stays_in_range
                  [Actions.ESetDefaultFontSize 500; Actions.ESetActiveTool textTool])
           "n1" 1%nat 10%Q 10%Q Samples.sampleDoc (Samples.letterPage 1 [])
           eq_refl eq_refl).
Defined.
